(** * NSW / TAS fuel API client: a shallow embedding and its properties

    The development follows the layout of the package:
    - [Py]       the fragment of the Python run time the client relies on
                 (JSON values, truthiness, subscripting, [int], exceptions);
    - [Dto]      [dto.py]: the typed records and their [deserialize] methods;
    - [Client]   [client.py]: the token manager, the request pipeline and the
                 four public operations, as a state-and-exception monad over
                 a scripted transport;
    - the properties of each layer. *)

From Stdlib Require Import ZArith QArith Bool List Lia Lqa.
From Stdlib Require Import String Ascii.
From stdpp Require Import base option list gmap strings.

Import ListNotations.
Set Warnings "-register-all".
Local Open Scope Z_scope.
Local Open Scope string_scope.
Local Open Scope list_scope.

(* ===================================================================== *)
(** * The Python run time the client relies on                           *)
(* ===================================================================== *)

Module Py.

(** A Python [float]: the values [json.loads] can produce, including the
    non-finite ones that [json.loads] accepts by default. *)
Inductive pyfloat : Type :=
| FFinite (q : Q)
| FInf (negative : bool)
| FNaN.

(** The values [json.loads] produces.  A [dict] keeps its items in
    insertion order; lookups take the first binding of a key. *)
Inductive json : Type :=
| JNull
| JBool (b : bool)
| JInt (z : Z)
| JFloat (f : pyfloat)
| JStr (s : string)
| JList (l : list json)
| JObj (items : list (string * json)).

(** Exception classes.  [NSWFuelApiClientAuthError] and
    [NSWFuelApiClientConnectionError] derive from [NSWFuelApiClientError];
    [JSONDecodeError] derives from [ValueError]; [ClientResponseError] is
    what aiohttp's [raise_for_status] raises and carries the status and the
    reason phrase; aiohttp's [ContentTypeError] derives from
    [ClientResponseError] and carries them too.  [OtherError] stands for
    any further [Exception] subclass coming out of the transport. *)
Inductive exn_kind : Type :=
| NSWFuelApiClientError
| NSWFuelApiClientAuthError
| NSWFuelApiClientConnectionError
| KeyError
| TypeError
| ValueError
| JSONDecodeError
| AttributeError
| OverflowError
| ContentTypeError (status : Z) (message : string)
| ClientResponseError (status : Z) (message : string)
| OtherError (name : string).

(** The argument of an exception: the pieces an f-string is assembled
    from.  [PVal v] is a run-time value ([str(v)] inside an f-string, or the
    value itself when it is the whole argument); [PErr k m] is [str(err)] of
    a caught exception [err]. *)
Inductive part : Type :=
| PStr (s : string)
| PVal (v : json)
| PErr (k : exn_kind) (m : list part).

Definition msg : Type := list part.

Record exn : Type := Exn { kind : exn_kind; args : msg }.

(** [str(err)] *)
Definition str_of (e : exn) : part := PErr (kind e) (args e).

(** Outcome of evaluating an expression: a value or a raised exception. *)
Inductive result (A : Type) : Type :=
| Ok (a : A)
| Raise (e : exn).
Arguments Ok {A} a.
Arguments Raise {A} e.

Definition rbind {A B} (r : result A) (k : A -> result B) : result B :=
  match r with
  | Ok a => k a
  | Raise e => Raise e
  end.

Definition raise {A} (k : exn_kind) (m : msg) : result A := Raise (Exn k m).

Declare Scope py_scope.
Delimit Scope py_scope with py.
Notation "'let?' x ':=' e 'in' k" := (rbind e (fun x => k))
  (at level 10, x name, e at level 200, k at level 200) : py_scope.
Local Open Scope py_scope.

(** [for x in xs: ys.append(f(x))] / a list comprehension *)
Fixpoint rmap {A B} (f : A -> result B) (xs : list A) : result (list B) :=
  match xs with
  | [] => Ok []
  | x :: rest =>
      let? y := f x in
      let? ys := rmap f rest in
      Ok (y :: ys)
  end.

(** ** Exception matching *)

(** [except (NSWFuelApiClientAuthError, NSWFuelApiClientConnectionError,
    NSWFuelApiClientError)] *)
Definition is_domain (k : exn_kind) : bool :=
  match k with
  | NSWFuelApiClientError
  | NSWFuelApiClientAuthError
  | NSWFuelApiClientConnectionError => true
  | _ => false
  end.

(** [except ValueError] (also what [suppress(ValueError)] swallows) *)
Definition is_ValueError (k : exn_kind) : bool :=
  match k with
  | ValueError | JSONDecodeError => true
  | _ => false
  end.

(** [except (KeyError, TypeError, ValueError)] *)
Definition is_Key_Type_Value (k : exn_kind) : bool :=
  match k with
  | KeyError | TypeError => true
  | _ => is_ValueError k
  end.

(** [except (ContentTypeError, json.JSONDecodeError)] *)
Definition is_ContentType_JSONDecode (k : exn_kind) : bool :=
  match k with
  | ContentTypeError _ _ | JSONDecodeError => true
  | _ => false
  end.

(** [except ClientResponseError as err]: the status and the message of
    [err], for [ClientResponseError] and its subclass [ContentTypeError] *)
Definition as_ClientResponseError (k : exn_kind) : option (Z * string) :=
  match k with
  | ClientResponseError status message
  | ContentTypeError status message => Some (status, message)
  | _ => None
  end.

(** ** Truthiness, [or] *)

Definition Qis_zero (q : Q) : bool := (Qnum q =? 0)%Z.

(** [bool(v)] *)
Definition truthy (v : json) : bool :=
  match v with
  | JNull => false
  | JBool b => b
  | JInt z => negb (z =? 0)%Z
  | JFloat (FFinite q) => negb (Qis_zero q)
  | JFloat _ => true
  | JStr s => negb (String.eqb s "")
  | JList l => match l with [] => false | _ => true end
  | JObj o => match o with [] => false | _ => true end
  end.

(** [a or b] *)
Definition py_or (a b : json) : json := if truthy a then a else b.

(** [type(v).__name__] *)
Definition type_name (v : json) : string :=
  match v with
  | JNull => "NoneType"
  | JBool _ => "bool"
  | JInt _ => "int"
  | JFloat _ => "float"
  | JStr _ => "str"
  | JList _ => "list"
  | JObj _ => "dict"
  end.

(** ** Dictionaries *)

Fixpoint lookup_key (k : string) (o : list (string * json)) : option json :=
  match o with
  | [] => None
  | (k', v) :: rest => if String.eqb k k' then Some v else lookup_key k rest
  end.

(** [d.get(k)] on a value that is known to be a [dict] *)
Definition dict_get (k : string) (o : list (string * json)) : json :=
  match lookup_key k o with
  | Some v => v
  | None => JNull
  end.

(** [v.get(k)]: only a [dict] has the method *)
Definition py_get (v : json) (k : string) : result json :=
  match v with
  | JObj o => Ok (dict_get k o)
  | _ => raise AttributeError [PStr "object has no attribute 'get'"]
  end.

(** [v[k]] with a string key *)
Definition py_getitem (v : json) (k : string) : result json :=
  match v with
  | JObj o =>
      match lookup_key k o with
      | Some x => Ok x
      | None => raise KeyError [PVal (JStr k)]
      end
  | JStr _ => raise TypeError [PStr "string indices must be integers"]
  | JList _ => raise TypeError [PStr "list indices must be integers or slices, not str"]
  | _ => raise TypeError [PStr "object is not subscriptable"]
  end.

(** [needle in hay] for two strings *)
Fixpoint is_prefix (p s : string) : bool :=
  match p, s with
  | EmptyString, _ => true
  | String a p', String b s' => Ascii.eqb a b && is_prefix p' s'
  | String _ _, EmptyString => false
  end.

Fixpoint is_substring (needle hay : string) : bool :=
  is_prefix needle hay ||
  match hay with
  | EmptyString => false
  | String _ hay' => is_substring needle hay'
  end.

Definition is_str (k : string) (v : json) : bool :=
  match v with
  | JStr s => String.eqb k s
  | _ => false
  end.

(** [k in v] with a string [k] *)
Definition py_in (k : string) (v : json) : result bool :=
  match v with
  | JObj o => Ok (match lookup_key k o with Some _ => true | None => false end)
  | JList l => Ok (existsb (is_str k) l)
  | JStr s => Ok (is_substring k s)
  | _ => raise TypeError [PStr "argument is not iterable"]
  end.

(** [s.upper()] on ASCII text *)
Definition upper_char (c : ascii) : ascii :=
  let n := nat_of_ascii c in
  if ((97 <=? n) && (n <=? 122))%nat then ascii_of_nat (n - 32) else c.

Fixpoint upper (s : string) : string :=
  match s with
  | EmptyString => EmptyString
  | String c rest => String (upper_char c) (upper rest)
  end.

(** What [for x in v] iterates over *)
Definition py_iter (v : json) : result (list json) :=
  match v with
  | JList l => Ok l
  | JObj o => Ok (map (fun kv => JStr (fst kv)) o)
  | JStr s => Ok (map (fun c => JStr (String c EmptyString)) (list_ascii_of_string s))
  | _ => raise TypeError [PStr "object is not iterable"]
  end.

(** ** Library functions taken as given

    [datetime.strptime] and [int] on text belong to the Python library,
    [json.loads] to the [json] module, and the sum of a float and an int to
    the arithmetic of floats.  The client's control flow only depends on
    whether they return a value or raise, so they are an interface of the
    model; every statement below holds for each implementation of it. *)

Record datetime : Type := Datetime {
  year : Z; month : Z; day : Z; hour : Z; minute : Z; second : Z
}.

Class Runtime : Type := {
  (** [datetime.strptime(text, format)]; [None] is [ValueError] *)
  strptime : string -> string -> option datetime;
  (** [int(text)]; [None] is [ValueError] *)
  int_of_str : string -> option Z;
  (** [json.loads(text)]; [None] is [JSONDecodeError] *)
  json_loads : string -> option json;
  (** [x + n] for a float [x] and an int [n]: the int is converted to a
      float and the sum of the two floats is rounded to a float; [None] is
      the [OverflowError] of the conversion, raised for an int beyond the
      range of the floats *)
  float_add_int : Q -> Z -> option Q
}.

(** [int(v)] *)
Definition py_int `{Runtime} (v : json) : result Z :=
  match v with
  | JInt z => Ok z
  | JBool b => Ok (if b then 1 else 0)
  | JFloat (FFinite q) => Ok (Z.quot (Qnum q) (Zpos (Qden q)))
  | JFloat FNaN => raise ValueError [PStr "cannot convert float NaN to integer"]
  | JFloat (FInf _) => raise OverflowError [PStr "cannot convert float infinity to integer"]
  | JStr s =>
      match int_of_str s with
      | Some z => Ok z
      | None => raise ValueError [PStr "invalid literal for int() with base 10: "; PVal v]
      end
  | _ => raise TypeError [PStr "int() argument must be a string, a bytes-like object or a real number"]
  end.

(** [x + n] for a float [x] and an int [n] *)
Definition py_float_add_int `{Runtime} (x : Q) (n : Z) : result Q :=
  match float_add_int x n with
  | Some y => Ok y
  | None => raise OverflowError [PStr "int too large to convert to float"]
  end.

(** [datetime.strptime(v, format)] on an arbitrary value *)
Definition py_strptime `{Runtime} (v : json) (format : string) : result datetime :=
  match v with
  | JStr s =>
      match strptime s format with
      | Some d => Ok d
      | None => raise ValueError [PStr "time data does not match format"]
      end
  | _ => raise TypeError [PStr "strptime() argument 1 must be str"]
  end.

End Py.

(* ===================================================================== *)
(** * dto.py                                                             *)
(* ===================================================================== *)

Module Dto.
Import Py.
Local Open Scope py_scope.

(** const.py *)
Definition DEFAULT_STATE : string := "NSW".

(** [with suppress(ValueError): x = e] where [x] held [keep] before *)
Definition suppress_ValueError {A} (e : result A) (keep : A) : result A :=
  match e with
  | Ok a => Ok a
  | Raise err => if is_ValueError (kind err) then Ok keep else Raise err
  end.

(** ** Price *)

Record Price : Type := mkPrice {
  fuel_type : json;
  price : json;
  last_updated : option datetime;
  price_unit : json;
  station_code : option Z
}.

Section WithRuntime.
Context `{RT : Runtime}.

(** Lines 28-37 of [Price.deserialize]: both date formats are tried, a
    [ValueError] of either attempt is suppressed. *)
Definition Price_lastupdated (data : json) : result (option datetime) :=
  let lastupdated : option datetime := None in
  let? lastupdated :=
    suppress_ValueError
      (let? v := py_getitem data "lastupdated" in
       let? d := py_strptime v "%d/%m/%Y %H:%M:%S" in
       Ok (Some d))
      lastupdated in
  match lastupdated with
  | None =>
      suppress_ValueError
        (let? v := py_getitem data "lastupdated" in
         let? d := py_strptime v "%Y-%m-%d %H:%M:%S" in
         Ok (Some d))
        lastupdated
  | Some _ => Ok lastupdated
  end.

(** Lines 39-47 of [Price.deserialize]: the station code and the
    constructor call, its keyword arguments evaluated left to right. *)
Definition Price_build (data : json) (lastupdated : option datetime) : result Price :=
  let? has_code := py_in "stationcode" data in
  let? station_code :=
    if has_code
    then (let? v := py_getitem data "stationcode" in
          let? z := py_int v in
          Ok (Some z))
    else Ok None in
  let? fuel_type := py_getitem data "fueltype" in
  let? price := py_getitem data "price" in
  let? price_unit := py_get data "priceunit" in
  Ok (mkPrice fuel_type price lastupdated price_unit station_code).

Definition Price_deserialize (data : json) : result Price :=
  let? lastupdated := Price_lastupdated data in
  Price_build data lastupdated.

(** ** Station *)

Record Station : Type := mkStation {
  ident : json;
  brand : json;
  code : Z;
  name : json;
  address : json;
  latitude : json;
  longitude : json;
  au_state : json
}.

Definition Station_deserialize (data : json) : result Station :=
  let? ident := py_get data "stationid" in
  let? brand := py_getitem data "brand" in
  let? code_raw := py_getitem data "code" in
  let? code := py_int code_raw in
  let? name := py_getitem data "name" in
  let? address := py_getitem data "address" in
  let? loc := py_getitem data "location" in
  let? latitude := py_getitem loc "latitude" in
  let? loc' := py_getitem data "location" in
  let? longitude := py_getitem loc' "longitude" in
  let? state := py_get data "state" in
  Ok (mkStation ident brand code name address latitude longitude
        (py_or state (JStr DEFAULT_STATE))).

(** ** StationPrice *)

Record StationPrice : Type := mkStationPrice {
  sp_price : Price;
  sp_station : Station
}.

(** ** Reference records *)

Record FuelType : Type := mkFuelType { ft_code : json; ft_name : json }.

Definition FuelType_deserialize (data : json) : result FuelType :=
  let? c := py_getitem data "code" in
  let? n := py_getitem data "name" in
  Ok (mkFuelType c n).

Record TrendPeriod : Type := mkTrendPeriod { tp_period : json; tp_description : json }.

Definition TrendPeriod_deserialize (data : json) : result TrendPeriod :=
  let? p := py_getitem data "period" in
  let? d := py_getitem data "description" in
  Ok (mkTrendPeriod p d).

Record SortField : Type := mkSortField { sf_code : json; sf_name : json }.

Definition SortField_deserialize (data : json) : result SortField :=
  let? c := py_getitem data "code" in
  let? n := py_getitem data "name" in
  Ok (mkSortField c n).

(** [[f(x) for x in data[key]["items"]]] *)
Definition items_of (data : json) (key : string) : result (list json) :=
  let? section := py_getitem data key in
  let? items := py_getitem section "items" in
  py_iter items.

Record GetReferenceDataResponse : Type := mkGetReferenceDataResponse {
  ref_stations : list Station;
  ref_brands : list json;
  ref_fuel_types : list FuelType;
  ref_trend_periods : list TrendPeriod;
  ref_sort_fields : list SortField
}.

Definition GetReferenceDataResponse_deserialize (data : json)
  : result GetReferenceDataResponse :=
  let? xs := items_of data "stations" in
  let? stations := rmap Station_deserialize xs in
  let? xs := items_of data "brands" in
  let? brands := rmap (fun x => py_getitem x "name") xs in
  let? xs := items_of data "fueltypes" in
  let? fuel_types := rmap FuelType_deserialize xs in
  let? xs := items_of data "trendperiods" in
  let? trend_periods := rmap TrendPeriod_deserialize xs in
  let? xs := items_of data "sortfields" in
  let? sort_fields := rmap SortField_deserialize xs in
  Ok (mkGetReferenceDataResponse stations brands fuel_types trend_periods sort_fields).

Record GetFuelPricesResponse : Type := mkGetFuelPricesResponse {
  resp_stations : list Station;
  resp_prices : list Price
}.

Definition GetFuelPricesResponse_deserialize (data : json)
  : result GetFuelPricesResponse :=
  let? sv := py_getitem data "stations" in
  let? xs := py_iter sv in
  let? stations := rmap Station_deserialize xs in
  let? pv := py_getitem data "prices" in
  let? ys := py_iter pv in
  let? prices := rmap Price_deserialize ys in
  Ok (mkGetFuelPricesResponse stations prices).

End WithRuntime.
End Dto.

(* ===================================================================== *)
(** * client.py                                                          *)
(* ===================================================================== *)

Module Client.
Import Py Dto.
Local Open Scope py_scope.

(** const.py *)
Definition HTTP_CLIENT_SERVER_ERROR : Z := 400.
Definition HTTP_INTERNAL_SERVER_ERROR : Z := 500.
Definition HTTP_TIMEOUT_ERROR : Z := 408.
Definition HTTP_UNAUTHORIZED : Z := 401.
Definition BASE_URL : string := "https://api.onegov.nsw.gov.au".
Definition NEARBY_ENDPOINT : string := "/FuelPriceCheck/v2/fuel/prices/nearby".
Definition PRICE_ENDPOINT : string :=
  "/FuelPriceCheck/v2/fuel/prices/station/{station_code}".

(** [template.format(station_code=station_code)] for a template with one
    placeholder *)
Fixpoint format_station_code (template station_code : string) : string :=
  if is_prefix "{station_code}" template
  then station_code
       ++ String.substring 14 (String.length template - 14) template
  else
    match template with
    | EmptyString => EmptyString
    | String c rest => String c (format_station_code rest station_code)
    end.

Definition PRICE_ENDPOINT_format (station_code : string) : string :=
  format_station_code PRICE_ENDPOINT station_code.
Definition PRICES_ENDPOINT : string := "/FuelPriceCheck/v2/fuel/prices".
Definition REFERENCE_ENDPOINT : string := "/FuelCheckRefData/v2/fuel/lovs".

(** ** The transport

    The aiohttp session is furnished by the caller.  What the client
    observes of it is scripted by a [World]: the n-th reading of the clock,
    the n-th answer of the token endpoint and the n-th answer of the data
    endpoints (which may depend on the request sent).  It also says whether
    the logger of the module is enabled for [DEBUG]. *)

(** What the client reads of the token endpoint's response. *)
Record auth_response : Type := AuthResponse {
  a_status : Z;
  a_reason : string;
  a_content_type : string;
  a_json : result json;      (** [await response.json()] *)
  a_text : result string     (** [await response.text()] *)
}.

Inductive auth_outcome : Type :=
| AuthRaises (e : exn)               (** [session.get] raises *)
| AuthResponds (r : auth_response).

(** What the client reads of a data endpoint's response. *)
Record data_response : Type := DataResponse {
  d_status : Z;
  d_reason : string;
  d_json : result json;      (** [response.json(encoding=.., content_type=None)] *)
  d_text : result string     (** [response.text()] *)
}.

Inductive data_outcome : Type :=
| DataRaises (e : exn)               (** [session.request] raises *)
| DataResponds (r : data_response).

(** What identifies a request: the method, the path and the bearer token.
    The remaining headers (a fresh transaction id, a time stamp, the API
    key, the caller's extra headers), the query parameters and the JSON
    body are assembled without a failure and have no part in what the
    client does with the answer; they are left out, and so are the
    arguments of the operations that only feed them ([state], [radius],
    [fuel_type], [brands], [named_location], [sort_by], [sort_ascending],
    [modified_since], [states]). *)
Record request : Type := Request {
  rq_method : string;
  rq_url : string;
  rq_token : json
}.

Record World : Type := {
  clock : nat -> Q;
  auth_endpoint : nat -> auth_outcome;
  data_endpoint : nat -> request -> data_outcome;
  debug_enabled : bool         (** [_LOGGER.isEnabledFor(logging.DEBUG)] *)
}.

(** What the client did, newest first. *)
Inductive event : Type :=
| EvClock
| EvTokenRequest
| EvRequest (rq : request)
| EvSleep (milliseconds : Z).

(** The client object: the token slot, its expiry, and the log of its
    interactions with the outside. *)
Record state : Type := State {
  token : json;                (** [self._token], [JNull] for [None] *)
  token_expiry : Q;            (** [self._token_expiry] *)
  log : list event
}.

(** [NSWFuelApiClient.__init__] *)
Definition init : state := State JNull 0 [].

Definition is_clock (e : event) : bool :=
  match e with EvClock => true | _ => false end.
Definition is_token_request (e : event) : bool :=
  match e with EvTokenRequest => true | _ => false end.
Definition is_request (e : event) : bool :=
  match e with EvRequest _ => true | _ => false end.

Definition count (p : event -> bool) (l : list event) : nat :=
  List.length (List.filter p l).

Definition clock_reads (s : state) : nat := count is_clock (log s).
Definition token_requests (s : state) : nat := count is_token_request (log s).
Definition data_requests (s : state) : nat := count is_request (log s).

(** ** The monad of client methods: state, exceptions, and fuel *)

Inductive outcome (A : Type) : Type :=
| Returns (a : A)
| Raises (e : exn)
| NoFuel.
Arguments Returns {A} a.
Arguments Raises {A} e.
Arguments NoFuel {A}.

Definition M (A : Type) : Type := state -> outcome A * state.

Definition ret {A} (a : A) : M A := fun s => (Returns a, s).

Definition bind {A B} (m : M A) (k : A -> M B) : M B :=
  fun s =>
    match m s with
    | (Returns a, s') => k a s'
    | (Raises e, s') => (Raises e, s')
    | (NoFuel, s') => (NoFuel, s')
    end.

Definition throw {A} (k : exn_kind) (m : msg) : M A :=
  fun s => (Raises (Exn k m), s).

Definition lift {A} (r : result A) : M A :=
  fun s => match r with Ok a => (Returns a, s) | Raise e => (Raises e, s) end.

Definition get_state : M state := fun s => (Returns s, s).
Definition emit (e : event) : M unit :=
  fun s => (Returns tt, State (token s) (token_expiry s) (e :: log s)).
Definition set_token (t : json) : M unit :=
  fun s => (Returns tt, State t (token_expiry s) (log s)).
Definition set_token_expiry (q : Q) : M unit :=
  fun s => (Returns tt, State (token s) q (log s)).

(** [try: m  except Exception as err: h(err)] *)
Definition try_except {A} (m : M A) (h : exn -> M A) : M A :=
  fun s =>
    match m s with
    | (Raises e, s') => h e s'
    | r => r
    end.

Declare Scope client_scope.
Delimit Scope client_scope with client.
Notation "'let*' x ':=' e 'in' k" := (bind e (fun x => k))
  (at level 10, x name, e at level 200, k at level 200) : client_scope.
Notation "e ';;' k" := (bind e (fun _ => k))
  (at level 100, k at level 200, right associativity) : client_scope.
Local Open Scope client_scope.

(** The [try]/[except] shape shared by the pipeline and the operations:
    the three client errors are re-raised as they are, every other
    exception is replaced by [NSWFuelApiClientError] built by [wrap]. *)
Definition reraise_or_wrap {A} (wrap : exn -> msg) (m : M A) : M A :=
  try_except m (fun err =>
    if is_domain (kind err) then (fun s => (Raises err, s))
    else throw NSWFuelApiClientError (wrap err)).

Definition Qgt_bool (a b : Q) : bool := negb (Qle_bool a b).

Section WithWorld.
Context `{RT : Runtime} (W : World).

(** [time.time()] *)
Definition time_time : M Q :=
  let* s := get_state in
  emit EvClock ;;
  ret (clock W (clock_reads s)).

(** [self._session.get(AUTH_URL, ...)] *)
Definition session_get_token : M auth_outcome :=
  let* s := get_state in
  emit EvTokenRequest ;;
  ret (auth_endpoint W (token_requests s)).

(** [self._session.request(method, url, headers=..., ...)] *)
Definition session_request (rq : request) : M data_outcome :=
  let* s := get_state in
  emit (EvRequest rq) ;;
  ret (data_endpoint W (data_requests s) rq).

(** [asyncio.sleep(0.5)] *)
Definition sleep_half_second : M unit := emit (EvSleep 500).

(** ** _extract_error_details *)

Definition _extract_error_details (data : json) : result json :=
  match data with
  | JObj o =>
      let ed := dict_get "errorDetails" o in
      match ed with
      | JList (first :: _) =>
          let? d := py_get first "description" in
          if truthy d then Ok d else py_get first "message"
      | JObj edo =>
          Ok (py_or (dict_get "description" edo) (dict_get "message" edo))
      | _ => Ok JNull
      end
  | _ => Ok JNull
  end.

(** ** _async_get_token *)

(** aiohttp's [raise_for_status]: it raises for a status of 400 and above
    ([ClientResponse.ok] is [400 > status]). *)
Definition raise_for_status (r : auth_response) : result unit :=
  if (400 <=? a_status r)%Z
  then raise (ClientResponseError (a_status r) (a_reason r)) []
  else Ok tt.

(** Lines 120-132: the body is decoded to JSON whatever its content type;
    a decoding failure becomes [NSWFuelApiClientError]. *)
Definition token_response_json (r : auth_response) : result json :=
  let decoded :=
    if is_substring "application/json" (a_content_type r)
    then a_json r
    else
      let? text := a_text r in
      match json_loads text with
      | Some v => Ok v
      | None => raise JSONDecodeError [PStr "Expecting value"]
      end in
  match decoded with
  | Ok v => Ok v
  | Raise err =>
      if is_ValueError (kind err)
      then raise NSWFuelApiClientError [PStr "Failed to parse token response JSON"]
      else Raise err
  end.

(** Lines 111-149: the [try] statement around the token request, as a
    function of what the token endpoint did.  The first handler takes a
    [ClientResponseError] and, being a subclass of it, a
    [ContentTypeError] of [response.json()]. *)
Definition token_exchange (o : auth_outcome) : result json :=
  let body :=
    match o with
    | AuthRaises e => Raise e
    | AuthResponds r =>
        let? _ := raise_for_status r in
        token_response_json r
    end in
  match body with
  | Ok v => Ok v
  | Raise err =>
      match as_ClientResponseError (kind err) with
      | Some (status, message) =>
          if (status =? HTTP_UNAUTHORIZED)%Z
          then raise NSWFuelApiClientAuthError
                 [PStr "Invalid NSW Fuel Check API credentials"]
          else raise NSWFuelApiClientError
                 [PStr "Token request failed with status "; PVal (JInt status);
                  PStr ": "; PVal (JStr message)]
      | None =>
          raise NSWFuelApiClientError
            [PStr "Unexpected error fetching token: "; str_of err]
      end
  end.

(** [result.get("expires_in", 3600)] *)
Definition get_expires_in (result : json) : Py.result json :=
  match result with
  | JObj o =>
      Ok (match lookup_key "expires_in" o with Some v => v | None => JInt 3600 end)
  | _ => raise AttributeError [PStr "object has no attribute 'get'"]
  end.

(** The refresh test of line 100 *)
Definition needs_refresh (s : state) (now : Q) : bool :=
  negb (truthy (token s)) || Qgt_bool now (token_expiry s - 60).

(** The token is assigned (line 159) before the expiry is computed (line
    160): the sum [now + expires_in] of a float and an int raises
    [OverflowError] for an int beyond the range of the floats. *)
Definition _async_get_token : M json :=
  let* now := time_time in
  let* s := get_state in
  (if needs_refresh s now then
     let* o := session_get_token in
     let* result := lift (token_exchange o) in
     let* access_token := lift (py_get result "access_token") in
     if negb (truthy access_token)
     then throw NSWFuelApiClientError
            [PStr "No access token in NSW Fuel Check token response"]
     else
       let* raw := lift (get_expires_in result) in
       let* expires_in := lift (py_int raw) in
       set_token access_token ;;
       let* expiry := lift (py_float_add_int now expires_in) in
       set_token_expiry expiry
   else ret tt) ;;
  let* s := get_state in
  ret (token s).

(** ** _async_request *)

(** [details or msg] as the argument of an exception *)
Definition details_or (details : json) (m : msg) : msg :=
  if truthy details then [PVal details] else m.

(** [_parse_response]: the body as JSON, or as raw text when it is not
    JSON. *)
Definition _parse_response (response : data_response) : result json :=
  match d_json response with
  | Ok v => Ok v
  | Raise err =>
      if is_ContentType_JSONDecode (kind err)
      then (let? text := d_text response in Ok (JStr text))
      else Raise err
  end.

(** [_handle_http_error]: [true] asks the caller to retry. *)
Definition _handle_http_error (status : Z) (data : json)
    (response : data_response) (attempt max_retries : Z) : M bool :=
  let* details := lift (_extract_error_details data) in
  if (status =? HTTP_UNAUTHORIZED)%Z then
    if (attempt <? max_retries)%Z then
      set_token JNull ;;
      ret true
    else
      throw NSWFuelApiClientAuthError
        (details_or details [PStr "Authentication failed during request."])
  else if (status =? HTTP_TIMEOUT_ERROR)%Z then
    if (attempt <? max_retries)%Z then
      ret true
    else
      throw NSWFuelApiClientConnectionError
        (details_or details [PStr "Request timed out after retry."])
  else if (HTTP_INTERNAL_SERVER_ERROR <=? status)%Z then
    throw NSWFuelApiClientConnectionError
      (details_or details
         [PStr "Server error "; PVal (JInt status); PStr ": ";
          PVal (JStr (d_reason response))])
  else if (HTTP_CLIENT_SERVER_ERROR <=? status)%Z then
    throw NSWFuelApiClientError
      (details_or details
         [PStr "HTTP error "; PVal (JInt status); PStr ": ";
          PVal (JStr (d_reason response))])
  else
    ret false.

(** How an iteration of the retry loop, or the loop, ends. *)
Inductive loop_end : Type :=
| Returned (data : json)     (** [return data] *)
| LoopExit.                  (** the [while] condition is false *)

(** The body of the [try] statement of one iteration (lines 273-294):
    [None] is [continue], [Some data] is [return data]. *)
Definition attempt_request (rq : request) (attempt max_retries : Z)
  : M (option json) :=
  reraise_or_wrap (fun err => [str_of err])
    (let* o := session_request rq in
     match o with
     | DataRaises e => fun s => (Raises e, s)
     | DataResponds response =>
         let status := d_status response in
         let* data := lift (_parse_response response) in
         let* should_retry :=
           _handle_http_error status data response attempt max_retries in
         if should_retry : bool then
           sleep_half_second ;;
           ret None
         else
           ret (Some data)
     end).

(** The [while attempt <= max_retries] loop (lines 262-320); [fuel] bounds
    the number of iterations. *)
Fixpoint request_loop (fuel : nat) (method path : string)
    (attempt max_retries : Z) : M loop_end :=
  match fuel with
  | O => fun s => (NoFuel, s)
  | S fuel' =>
      if (attempt <=? max_retries)%Z then
        let* token := _async_get_token in
        if negb (truthy token) then
          throw NSWFuelApiClientError
            [PStr "No access token available for NSW Fuel API request"]
        else
          let* r := attempt_request (Request (upper method) (BASE_URL ++ path) token)
                      attempt max_retries in
          match r with
          | None => request_loop fuel' method path (attempt + 1) max_retries
          | Some data => ret (Returned data)
          end
      else
        ret LoopExit
  end.

Definition _async_request (fuel : nat) (path method : string) : M json :=
  let max_retries := 1 in
  let attempt := 0 in
  let* r := request_loop fuel method path attempt max_retries in
  match r with
  | Returned data => ret data
  | LoopExit =>
      (* Just in case we exit loop without returning or raising *)
      throw NSWFuelApiClientError [PStr "Failed to perform http request"]
  end.

(** ** The public operations

    Each operation is the guarded call of the pipeline followed by the
    validation and deserialization of what it returned; the latter is a
    function of the response alone, but for the names that
    [get_fuel_prices_within_radius] joins when the logger is enabled for
    [DEBUG]. *)

(** [a or b] on conditions that may raise, [b] evaluated only if needed *)
Definition or_else (a : result bool) (b : result bool) : result bool :=
  let? x := a in
  if x then Ok true else b.

Definition not_in (k : string) (v : json) : result bool :=
  let? b := py_in k v in Ok (negb b).

(** get_fuel_prices, lines 357-368 *)
Definition get_fuel_prices_result (response : json)
  : result GetFuelPricesResponse :=
  if negb (truthy response) then
    raise NSWFuelApiClientError [PStr "No data returned from NSW Fuel API"]
  else
    let? missing := or_else (not_in "prices" response)
                            (not_in "stations" response) in
    if missing then
      raise NSWFuelApiClientError
        [PStr "Malformed response: missing required fields"]
    else
      GetFuelPricesResponse_deserialize response.

Definition get_fuel_prices (fuel : nat) : M GetFuelPricesResponse :=
  let* response :=
    reraise_or_wrap
      (fun err => [PStr "Unexpected error fetching fuel prices:"; str_of err])
      (_async_request fuel PRICES_ENDPOINT "GET") in
  lift (get_fuel_prices_result response).

(** get_fuel_prices_for_station, lines 407-425 *)
Definition get_fuel_prices_for_station_result (station_code : string)
    (response : json) : result (list Price) :=
  let? bad := or_else (Ok (negb (truthy response)))
                      (not_in "prices" response) in
  if bad then
    raise NSWFuelApiClientError
      [PStr "Malformed or empty response for station "; PVal (JStr station_code)]
  else
    let? prices_data := py_get response "prices" in
    if negb (truthy prices_data) then
      raise NSWFuelApiClientError
        [PStr "No price data found for station "; PVal (JStr station_code)]
    else
      let? ps := py_iter prices_data in
      rmap Price_deserialize ps.

Definition get_fuel_prices_for_station (fuel : nat) (station_code : string)
  : M (list Price) :=
  let* response :=
    reraise_or_wrap
      (fun err => [PStr "Unexpected failure getting station prices for ";
                   PVal (JStr station_code); PStr ": "; str_of err])
      (_async_request fuel (PRICE_ENDPOINT_format station_code) "GET") in
  lift (get_fuel_prices_for_station_result station_code response).

(** The dictionary comprehension of lines 510-513: a later station
    replaces an earlier one with the same code. *)
Fixpoint build_stations (stations_data : list json) (acc : gmap Z Station)
  : result (gmap Z Station) :=
  match stations_data with
  | [] => Ok acc
  | station :: rest =>
      let? c := py_getitem station "code" in
      let? k := py_int c in
      let? v := Station_deserialize station in
      build_stations rest (<[k := v]> acc)
  end.

(** The body of the [try] statement of lines 518-525 *)
Definition join_price (stations : gmap Z Station) (serialized_price : json)
    (station_prices : list StationPrice) : result (list StationPrice) :=
  let? price := Price_deserialize serialized_price in
  match station_code price with
  | Some c =>
      match stations !! c with
      | Some station =>
          (* a Station object is always true *)
          Ok (station_prices ++ [mkStationPrice price station])
      | None => Ok station_prices
      end
  | None => Ok station_prices
  end.

(** The [for] loop of lines 517-527 *)
Fixpoint join_prices (stations : gmap Z Station) (prices_data : list json)
    (station_prices : list StationPrice) : result (list StationPrice) :=
  match prices_data with
  | [] => Ok station_prices
  | serialized_price :: rest =>
      match join_price stations serialized_price station_prices with
      | Ok station_prices' => join_prices stations rest station_prices'
      | Raise parse_err =>
          if is_Key_Type_Value (kind parse_err)
          then join_prices stations rest station_prices
          else Raise parse_err
      end
  end.

(** [", ".join(sp.station.name for sp in station_prices)], lines 530-531:
    [str.join] takes texts only; [i] is the index of the first item. *)
Fixpoint names_from (i : Z) (station_prices : list StationPrice)
  : result (list string) :=
  match station_prices with
  | [] => Ok []
  | sp :: rest =>
      match name (sp_station sp) with
      | JStr s =>
          let? names := names_from (i + 1) rest in
          Ok (s :: names)
      | v =>
          raise TypeError
            [PStr "sequence item "; PVal (JInt i);
             PStr ": expected str instance, "; PStr (type_name v); PStr " found"]
      end
  end.

Definition station_names (station_prices : list StationPrice) : result string :=
  let? names := names_from 0 station_prices in
  Ok (String.concat ", " names).

(** get_fuel_prices_within_radius, lines 497-540 *)
Definition get_fuel_prices_within_radius_result (latitude longitude : pyfloat)
    (response : json) : result (list StationPrice) :=
  let? bad := or_else (Ok (negb (truthy response)))
                (or_else (not_in "stations" response)
                         (not_in "prices" response)) in
  if bad then
    raise NSWFuelApiClientError
      [PStr "Malformed or empty response for location (";
       PVal (JFloat latitude); PStr ", "; PVal (JFloat longitude); PStr ")"]
  else
    let? stations_data := py_get response "stations" in
    let? prices_data := py_get response "prices" in
    if negb (truthy stations_data) || negb (truthy prices_data) then
      raise NSWFuelApiClientError
        [PStr "No stations/prices found for location (";
         PVal (JFloat latitude); PStr ", "; PVal (JFloat longitude); PStr ")"]
    else
      let? sts := py_iter stations_data in
      let? stations := build_stations sts ∅ in
      let? prs := py_iter prices_data in
      let? station_prices := join_prices stations prs [] in
      let? _ :=
        if debug_enabled W
        then station_names station_prices
        else Ok "" in
      Ok station_prices.

Definition get_fuel_prices_within_radius (fuel : nat)
    (latitude longitude : pyfloat) : M (list StationPrice) :=
  let* response :=
    reraise_or_wrap
      (fun err => [PStr "Unexpected error fetching nearby prices for (";
                   PVal (JFloat latitude); PStr ", "; PVal (JFloat longitude);
                   PStr "): "; str_of err])
      (_async_request fuel NEARBY_ENDPOINT "POST") in
  lift (get_fuel_prices_within_radius_result latitude longitude response).

(** get_reference_data, lines 591-595 *)
Definition get_reference_data_result (response : json)
  : result GetReferenceDataResponse :=
  if negb (truthy response) then
    raise NSWFuelApiClientError
      [PStr "Empty response from reference data endpoint"]
  else
    GetReferenceDataResponse_deserialize response.

Definition get_reference_data (fuel : nat) : M GetReferenceDataResponse :=
  let* response :=
    reraise_or_wrap
      (fun err => [PStr "Unexpected failure fetching reference data: ";
                   str_of err])
      (_async_request fuel REFERENCE_ENDPOINT "GET") in
  lift (get_reference_data_result response).

End WithWorld.
End Client.

(* ===================================================================== *)
(** * A run time to execute the model with                               *)
(* ===================================================================== *)

(** A small implementation of the [Runtime] interface, used to run the
    model on the payloads of the test suite.  It reads zero-padded dates in
    the two formats of [Price.deserialize], signed decimal integers, and
    the JSON literals that are a single token; its floats are the binary64
    numbers, rounded to nearest, ties to even.  No theorem below is specific
    to it. *)
Module Reference.
Import Py.

Definition digit_of (c : ascii) : option Z :=
  let n := Z.of_nat (nat_of_ascii c) in
  if ((48 <=? n) && (n <=? 57))%Z then Some (n - 48) else None.

Fixpoint digits_acc (s : string) (acc : Z) : option Z :=
  match s with
  | EmptyString => Some acc
  | String c rest =>
      match digit_of c with
      | Some d => digits_acc rest (10 * acc + d)
      | None => None
      end
  end.

Definition number (s : string) : option Z :=
  match s with
  | EmptyString => None
  | _ => digits_acc s 0
  end.

Definition int_of_str (s : string) : option Z :=
  match s with
  | String "-" rest => option_map Z.opp (number rest)
  | String "+" rest => number rest
  | _ => number s
  end.

Definition field (s : string) (start len : nat) (lo hi : Z) : option Z :=
  match number (String.substring start len s) with
  | Some z => if ((lo <=? z) && (z <=? hi))%Z then Some z else None
  | None => None
  end.

Definition has_char (s : string) (i : nat) (c : ascii) : bool :=
  match String.get i s with
  | Some c' => Ascii.eqb c c'
  | None => false
  end.

Definition make (y mo d h mi sec : option Z) : option datetime :=
  match y, mo, d, h, mi, sec with
  | Some y, Some mo, Some d, Some h, Some mi, Some sec =>
      Some (Datetime y mo d h mi sec)
  | _, _, _, _, _, _ => None
  end.

Definition strptime (s format : string) : option datetime :=
  if negb (String.length s =? 19)%nat then None
  else if String.eqb format "%d/%m/%Y %H:%M:%S" then
    if has_char s 2 "/" && has_char s 5 "/" && has_char s 10 " "
       && has_char s 13 ":" && has_char s 16 ":"
    then make (field s 6 4 1 9999) (field s 3 2 1 12) (field s 0 2 1 31)
              (field s 11 2 0 23) (field s 14 2 0 59) (field s 17 2 0 59)
    else None
  else if String.eqb format "%Y-%m-%d %H:%M:%S" then
    if has_char s 4 "-" && has_char s 7 "-" && has_char s 10 " "
       && has_char s 13 ":" && has_char s 16 ":"
    then make (field s 0 4 1 9999) (field s 5 2 1 12) (field s 8 2 1 31)
              (field s 11 2 0 23) (field s 14 2 0 59) (field s 17 2 0 59)
    else None
  else None.

Definition json_loads (s : string) : option json :=
  if String.eqb s "null" then Some JNull
  else if String.eqb s "true" then Some (JBool true)
  else if String.eqb s "false" then Some (JBool false)
  else if String.eqb s "[]" then Some (JList [])
  else if String.eqb s "{}" then Some (JObj [])
  else option_map JInt (int_of_str s).

(** The integer nearest to [n / d], a tie going to the even one *)
Definition round_half_even (n : Z) (d : positive) : Z :=
  let q := (n / Zpos d)%Z in
  let r := (n mod Zpos d)%Z in
  match (2 * r ?= Zpos d)%Z with
  | Lt => q
  | Gt => q + 1
  | Eq => if Z.even q then q else q + 1
  end.

(** [n / d] divided by [2 ^ e], as a fraction *)
Definition scale (n : Z) (d : positive) (e : Z) : Z * positive :=
  if (0 <=? e)%Z then (n, (d * Z.to_pos (2 ^ e))%positive)
  else (n * 2 ^ (- e), d).

(** The float nearest to [q]: 53 significant bits, exponents down to
    -1074; [None] when it is beyond the range of the floats. *)
Definition binary64 (q : Q) : option Q :=
  let n := Z.abs (Qnum q) in
  let d := Qden q in
  if (n =? 0)%Z then Some 0%Q
  else
    let l := Z.log2 n - Z.log2 (Zpos d) in
    let (n0, d0) := scale n d l in
    let top := if (Zpos d0 <=? n0)%Z then l else l - 1 in
    let e := Z.max (top - 52) (-1074) in
    let (n1, d1) := scale n d e in
    let m := round_half_even n1 d1 in
    if (0 <=? e)%Z && (2 ^ 1024 <=? m * 2 ^ e)%Z then None
    else
      let sign := if (Qnum q <? 0)%Z then -1 else 1 in
      Some (Qred (if (0 <=? e)%Z then inject_Z (sign * m * 2 ^ e)
                  else Qmake (sign * m) (Z.to_pos (2 ^ (- e))))).

(** [x + n]: the conversion of [n] raises when [n] is beyond the range.
    (A sum beyond the range is infinite in Python; it takes a reading of
    the clock of 2^970 and more, and is not told apart here.) *)
Definition float_add_int (x : Q) (n : Z) : option Q :=
  match binary64 (inject_Z n) with
  | Some f => binary64 (x + f)
  | None => None
  end.

Definition runtime : Runtime :=
  {| Py.strptime := strptime;
     Py.int_of_str := int_of_str;
     Py.json_loads := json_loads;
     Py.float_add_int := float_add_int |}.

End Reference.

(* ===================================================================== *)
(** * The payloads of the test suite                                     *)
(* ===================================================================== *)

Module Fixtures.
Import Py Dto Client.

Definition num (n : Z) (d : positive) : json := JFloat (FFinite (n # d)).

Definition station (id brand_name : string) (c : Z) (nm : string)
    (lat lon : json) : json :=
  JObj [("stationid", JStr id); ("brandid", JStr "BAAAAAA");
        ("brand", JStr brand_name); ("code", JInt c); ("name", JStr nm);
        ("address", JStr "123 Fake Street");
        ("location", JObj [("latitude", lat); ("longitude", lon)])].

(** The first station of [nearby_payload] under another name, which need
    not be a text *)
Definition station_named (nm : json) : json :=
  JObj [("stationid", JStr "SAAAAAA"); ("brandid", JStr "BAAAAAA");
        ("brand", JStr "Cool Fuel Brand"); ("code", JInt 678);
        ("name", nm);
        ("address", JStr "123 Fake Street");
        ("location", JObj [("latitude", num (-33987) 1000);
                           ("longitude", num 151334 1000)])].


Definition nearby_price (c : Z) (p : json) : json :=
  JObj [("stationcode", JInt c); ("fueltype", JStr "P95"); ("price", p);
        ("priceunit", JStr "litre"); ("description", JNull);
        ("lastupdated", JStr "2018-06-02 00:46:31")].

(** The payload of [test_get_fuel_prices_within_radius] *)
Definition nearby_payload : json :=
  JObj [("stations",
         JList [station "SAAAAAA" "Cool Fuel Brand" 678
                  "Cool Fuel Brand Luxembourg" (num (-33987) 1000) (num 151334 1000);
                station "SAAAAAB" "Fake Fuel Brand" 679
                  "Fake Fuel Brand Luxembourg" (num (-33587) 1000) (num 151434 1000);
                station "SAAAAAB" "Fake Fuel Brand2" 880
                  "Fake Fuel Brand2 Luxembourg" (num (-33687) 1000) (num 151234 1000)]);
        ("prices",
         JList [nearby_price 678 (num 1509 10);
                nearby_price 678 (num 1309 10);
                nearby_price 880 (num 1559 10)])].

(** A price list with two malformed entries and a price for a station
    that is not listed *)
Definition malformed_stations : list json :=
  [station "SAAAAAA" "Cool Fuel Brand" 678
     "Cool Fuel Brand Luxembourg" (num (-33987) 1000) (num 151334 1000);
   station "SAAAAAB" "Fake Fuel Brand2" 880
     "Fake Fuel Brand2 Luxembourg" (num (-33687) 1000) (num 151234 1000)].

Definition malformed_prices : list json :=
  [nearby_price 880 (num 1559 10);
   JObj [("stationcode", JInt 678); ("fueltype", JStr "P95")];
   JStr "n/a";
   nearby_price 999 (num 1409 10);
   nearby_price 678 (num 1509 10)].

Definition nearby_items_malformed : list (string * json) :=
  [("stations", JList malformed_stations); ("prices", JList malformed_prices)].

(** The payload of [test_get_fuel_prices_for_station] *)
Definition station_payload : json :=
  JObj [("prices",
         JList [JObj [("fueltype", JStr "E10"); ("price", num 1469 10);
                      ("lastupdated", JStr "02/06/2018 02:03:04")];
                JObj [("fueltype", JStr "P95"); ("price", num 150 1);
                      ("lastupdated", JStr "02/06/2018 02:03:04")]])].

Definition ok_json (status : Z) (reason : string) (body : json) : data_outcome :=
  DataResponds (DataResponse status reason (Ok body) (Ok "")).

(** The token endpoint of the [mock_token] fixture *)
Definition mock_token : auth_outcome :=
  AuthResponds
    (AuthResponse 200 "OK" "application/json"
       (Ok (JObj [("access_token", JStr "testtoken"); ("expires_in", JInt 3600)]))
       (Ok "")).

(** A world where the clock stands at [now], the token endpoint answers as
    [auth] says, every data request is answered by [answer], and the logger
    is at its default level. *)
Definition world (now : Q) (auth : nat -> auth_outcome)
    (answer : nat -> data_outcome) : World :=
  {| clock := fun _ => now;
     auth_endpoint := auth;
     data_endpoint := fun n _ => answer n;
     debug_enabled := false |}.

(** The same world with the logger enabled for [DEBUG]. *)
Definition with_debug (W : World) : World :=
  {| clock := clock W;
     auth_endpoint := auth_endpoint W;
     data_endpoint := data_endpoint W;
     debug_enabled := true |}.

Definition served (body : json) : World :=
  world 1000 (fun _ => mock_token) (fun _ => ok_json 200 "OK" body).

Definition answered (status : Z) (reason : string) (body : json) : World :=
  world 1000 (fun _ => mock_token) (fun _ => ok_json status reason body).

End Fixtures.

(* ===================================================================== *)
(** * What the properties are stated with                                *)
(* ===================================================================== *)

Import Py Dto Client.
Local Open Scope py_scope.
Local Open Scope client_scope.

(** ** Responses that an operation rejects *)

(** The shapes of a response that the validation of an operation rejects. *)
Definition is_empty (response : json) : Prop := truthy response = false.

Definition lacks (k : string) (response : json) : Prop :=
  exists o, response = JObj o /\ lookup_key k o = None.

(** The test ["k" not in response] holds: the response is an object
    without the key, or a list or a text in which the name does not occur. *)
Definition absent (k : string) (response : json) : Prop :=
  py_in k response = Ok false.

Definition maps_to_empty_list (k : string) (response : json) : Prop :=
  exists o, response = JObj o /\ lookup_key k o = Some (JList []).

(** ** The join of stations and prices *)

(** What a price entry contributes to the result, in the words of the
    specification: one [StationPrice] when the entry deserializes, has a
    station code and the code is in the lookup; nothing otherwise. *)
Definition emitted `{RT : Runtime} (stations : gmap Z Station) (entry : json)
  : list StationPrice :=
  match Price_deserialize entry with
  | Ok price =>
      match station_code price with
      | Some c =>
          match stations !! c with
          | Some station => [mkStationPrice price station]
          | None => []
          end
      | None => []
      end
  | Raise _ => []
  end.

(** The specified result: the contributions of the price entries, in the
    order of the price list. *)
Definition join_spec `{RT : Runtime} (stations : gmap Z Station)
    (prices_data : list json) : list StationPrice :=
  flat_map (emitted stations) prices_data.

(** A price entry deserializes, or fails with one of the three errors the
    loop skips. *)
Definition deserializes_or_skipped `{RT : Runtime} (entry : json) : Prop :=
  match Price_deserialize entry with
  | Ok _ => True
  | Raise e => is_Key_Type_Value (kind e) = true
  end.

(** ** The token manager *)

(** A call of [_async_get_token] performs the credential exchange. *)
Definition performs_token_request `{RT : Runtime} (W : World) (s : state) : Prop :=
  token_requests (snd (_async_get_token W s)) = S (token_requests s).

(** The token and the lifetime in seconds a token response validates to
    (lines 111-158). *)
Definition validated_token `{RT : Runtime} (o : auth_outcome)
  : result (json * Z) :=
  let? result := token_exchange o in
  let? access_token := py_get result "access_token" in
  if negb (truthy access_token) then
    raise NSWFuelApiClientError
      [PStr "No access token in NSW Fuel Check token response"]
  else
    let? raw := get_expires_in result in
    let? expires_in := py_int raw in
    Ok (access_token, expires_in).

(** The client after the clock was read, and after the token was asked for. *)
Definition clocked (s : state) : state :=
  State (token s) (token_expiry s) (EvClock :: log s).

Definition asked (s : state) : state :=
  State (token s) (token_expiry s) (EvTokenRequest :: EvClock :: log s).

(** The client after a token exchange that stored [tok] until [expiry],
    and after one that stored [tok] and failed to compute the expiry. *)
Definition refreshed (tok : json) (expiry : Q) (s : state) : state :=
  State tok expiry (EvTokenRequest :: EvClock :: log s).

Definition token_stored (tok : json) (s : state) : state :=
  State tok (token_expiry s) (EvTokenRequest :: EvClock :: log s).

(** What [now + expires_in] raises for an int beyond the range. *)
Definition overflow : exn :=
  Exn OverflowError [PStr "int too large to convert to float"].

(** The refresh rule as the specification words it: a token exchange is
    performed exactly when no token is held or the clock has reached the
    expiry less sixty seconds. *)
Definition refresh_rule_as_specified `{RT : Runtime} (W : World) (s : state) : Prop :=
  let now := clock W (clock_reads s) in
  performs_token_request W s <->
  truthy (token s) = false \/ (token_expiry s - 60 <= now)%Q.

(** ** The request pipeline *)

(** What the handlers of the pipeline make of an exception: a client
    error passes, anything else is wrapped. *)
Definition guarded (e : exn) : exn :=
  if is_domain (kind e) then e else Exn NSWFuelApiClientError [str_of e].

(** How one iteration of the retry loop ends. *)
Inductive verdict : Type :=
| VReturn (data : json)      (** the parsed body is returned *)
| VRetry (clear : bool)      (** sleep and retry, the token cleared or kept *)
| VRaise (e : exn).

(** The verdict on the answer to a request: [_parse_response],
    [_extract_error_details] and the status tests of [_handle_http_error],
    under the handlers of the [try] statement. *)
Definition verdict_of `{RT : Runtime} (o : data_outcome)
    (attempt max_retries : Z) : verdict :=
  match o with
  | DataRaises e => VRaise (guarded e)
  | DataResponds response =>
      match _parse_response response with
      | Raise e => VRaise (guarded e)
      | Ok data =>
          match _extract_error_details data with
          | Raise e => VRaise (guarded e)
          | Ok details =>
              let status := d_status response in
              if (status =? HTTP_UNAUTHORIZED)%Z then
                if (attempt <? max_retries)%Z then VRetry true
                else VRaise (Exn NSWFuelApiClientAuthError
                               (details_or details
                                  [PStr "Authentication failed during request."]))
              else if (status =? HTTP_TIMEOUT_ERROR)%Z then
                if (attempt <? max_retries)%Z then VRetry false
                else VRaise (Exn NSWFuelApiClientConnectionError
                               (details_or details
                                  [PStr "Request timed out after retry."]))
              else if (HTTP_INTERNAL_SERVER_ERROR <=? status)%Z then
                VRaise (Exn NSWFuelApiClientConnectionError
                          (details_or details
                             [PStr "Server error "; PVal (JInt status); PStr ": ";
                              PVal (JStr (d_reason response))]))
              else if (HTTP_CLIENT_SERVER_ERROR <=? status)%Z then
                VRaise (Exn NSWFuelApiClientError
                          (details_or details
                             [PStr "HTTP error "; PVal (JInt status); PStr ": ";
                              PVal (JStr (d_reason response))]))
              else VReturn data
          end
      end
  end.

(** The client after a request was sent, and after the pause that
    precedes a retry. *)
Definition sent (rq : request) (s : state) : state :=
  State (token s) (token_expiry s) (EvRequest rq :: log s).

Definition paused (clear : bool) (rq : request) (s : state) : state :=
  State (if clear then JNull else token s) (token_expiry s)
        (EvSleep 500 :: EvRequest rq :: log s).

(** A run of the retry loop ends properly from [s] within [n] requests:
    it returns the parsed body or raises, and what it raises is a client
    error unless it leaked out of [_async_get_token]. *)
Definition ends_properly `{RT : Runtime} (W : World)
    (r : outcome loop_end * state) (s : state) (n : nat) : Prop :=
  ((exists data, fst r = Returns (Returned data)) \/
   (exists e, fst r = Raises e /\
      (is_domain (kind e) = true \/
       exists s0 s1, _async_get_token W s0 = (Raises e, s1))))
  /\ (data_requests (snd r) <= data_requests s + n)%nat.

(** The body supplies a description in its [errorDetails], be they one
    object or a list that starts with one. *)
Definition supplies_description (data description : json) : Prop :=
  truthy description = true /\
  exists o edo,
    data = JObj o /\
    lookup_key "description" edo = Some description /\
    (lookup_key "errorDetails" o = Some (JObj edo) \/
     exists rest, lookup_key "errorDetails" o = Some (JList (JObj edo :: rest))).

(** ** Inputs *)

(** A token endpoint that grants a token for 10^309 seconds. *)
Definition token_forever_world : World :=
  Fixtures.world 1000
    (fun _ => AuthResponds
       (AuthResponse 200 "OK" "application/json"
          (Ok (JObj [("access_token", JStr "testtoken");
                     ("expires_in", JInt (10 ^ 309))])) (Ok "")))
    (fun _ => Fixtures.ok_json 200 "OK" Fixtures.station_payload).

(** A token endpoint that answers 200 with a JSON list. *)
Definition token_list_world : World :=
  Fixtures.world 1000
    (fun _ => AuthResponds
       (AuthResponse 200 "OK" "application/json" (Ok (JList [])) (Ok "[]")))
    (fun _ => Fixtures.ok_json 200 "OK" Fixtures.station_payload).

(* ===================================================================== *)
(** * dto.py, the trend records                                          *)
(* ===================================================================== *)

(** [class Period(Enum)] *)
Inductive Period : Type := DAY | MONTH | YEAR | WEEK.

Definition Period_eqb (a b : Period) : bool :=
  match a, b with
  | DAY, DAY | MONTH, MONTH | YEAR, YEAR | WEEK, WEEK => true
  | _, _ => false
  end.

(** [Period(value)]: the member whose value is [value]; a value of no
    member, of whatever type, raises [ValueError]. *)
Definition Period_of (value : json) : result Period :=
  let invalid := raise ValueError [PVal value; PStr " is not a valid Period"] in
  match value with
  | JStr s =>
      if String.eqb s "Day" then Ok DAY
      else if String.eqb s "Month" then Ok MONTH
      else if String.eqb s "Year" then Ok YEAR
      else if String.eqb s "Week" then Ok WEEK
      else invalid
  | _ => invalid
  end.

Record Variance : Type := mkVariance {
  var_fuel_type : json;
  var_period : Period;
  var_price : json
}.

Definition Variance_deserialize (data : json) : result Variance :=
  let? fuel_type := py_getitem data "Code" in
  let? p := py_getitem data "Period" in
  let? period := Period_of p in
  let? price := py_getitem data "Price" in
  Ok (mkVariance fuel_type period price).

(** What [AveragePrice.captured] holds: a parsed date, or, in the last
    branch of [AveragePrice.deserialize], the raw value. *)
Inductive captured_value : Type :=
| CapturedAt (d : datetime)
| CapturedRaw (raw : json).

Record AveragePrice : Type := mkAveragePrice {
  avg_fuel_type : json;
  avg_period : Period;
  avg_price : json;
  avg_captured : captured_value
}.

Definition AveragePrice_deserialize `{RT : Runtime} (data : json)
  : result AveragePrice :=
  let? p := py_getitem data "Period" in
  let? period := Period_of p in
  let? captured_raw := py_getitem data "Captured" in
  let? captured :=
    if existsb (Period_eqb period) [DAY; WEEK; MONTH] then
      let? d := py_strptime captured_raw "%Y-%m-%d" in Ok (CapturedAt d)
    else if Period_eqb period YEAR then
      let? d := py_strptime captured_raw "%B %Y" in Ok (CapturedAt d)
    else
      Ok (CapturedRaw captured_raw) in
  let? fuel_type := py_getitem data "Code" in
  let? price := py_getitem data "Price" in
  Ok (mkAveragePrice fuel_type period price captured).

(** The date format [AveragePrice.deserialize] reads [Captured] with. *)
Definition captured_format (period : Period) : string :=
  match period with
  | YEAR => "%B %Y"
  | _ => "%Y-%m-%d"
  end.

(* ===================================================================== *)
(** * client.py, the request headers                                     *)
(* ===================================================================== *)

(** [_build_headers] of [_async_request].  The transaction id
    ([uuid.uuid4()]) and the time stamp ([datetime.now(UTC).isoformat()])
    are fresh on every call and are given; a header value is the text an
    f-string assembles. *)
Definition _build_headers (client_id transaction_id timestamp : string)
    (extra_headers : option (gmap string msg)) (token : json)
  : gmap string msg :=
  let base_headers : gmap string msg :=
    <["RequestTimestamp" := [PStr timestamp]]>
      (<["TransactionID" := [PStr transaction_id]]>
         (<["apikey" := [PStr client_id]]>
            (<["Content-Type" := [PStr "application/json"]]>
               (<["Authorization" := [PStr "Bearer "; PVal token]]> ∅)))) in
  match extra_headers with
  | Some extra =>
      (* [if extra_headers: base_headers.update(extra_headers)] *)
      if bool_decide (extra = ∅) then base_headers else extra ∪ base_headers
  | None => base_headers
  end.

(* ===================================================================== *)
(** * What the further properties are stated with                        *)
(* ===================================================================== *)

(** The message an error response is reported with: the description of
    its error details if that is a true value, else their message if that
    is one, else the default text. *)
Definition reported (edo : list (string * json)) (default : msg) : msg :=
  if truthy (dict_get "description" edo) then [PVal (dict_get "description" edo)]
  else if truthy (dict_get "message" edo) then [PVal (dict_get "message" edo)]
  else default.

(** The lifetime in seconds a token response grants:
    [int(result.get("expires_in", 3600))]. *)
Definition granted_lifetime `{RT : Runtime} (o : list (string * json)) (z : Z) : Prop :=
  match lookup_key "expires_in" o with
  | Some v => py_int v = Ok z
  | None => z = 3600
  end.

(** The token slot holds no token or a true value. *)
Definition token_slot_ok (s : state) : Prop :=
  token s = JNull \/ truthy (token s) = true.

Definition is_sleep (e : event) : bool :=
  match e with EvSleep _ => true | _ => false end.

(** The pauses the client made. *)
Definition pauses (s : state) : nat := count is_sleep (log s).

(** [x] is an object. *)
Definition is_object (x : json) : bool :=
  match x with JObj _ => true | _ => false end.

(** The station code a station entry carries: [int(station["code"])]. *)
Definition station_key `{RT : Runtime} (station : json) : result Z :=
  let? c := py_getitem station "code" in py_int c.

Definition carries `{RT : Runtime} (c : Z) (station : json) : bool :=
  match station_key station with
  | Ok k => (k =? c)%Z
  | Raise _ => false
  end.

(** The station that belongs to a code: the one that the last station
    entry carrying the code deserializes to. *)
Fixpoint station_for `{RT : Runtime} (stations_data : list json) (c : Z)
  : option Station :=
  match stations_data with
  | [] => None
  | station :: rest =>
      match station_for rest c with
      | Some st => Some st
      | None =>
          if carries c station then
            match Station_deserialize station with
            | Ok st => Some st
            | Raise _ => None
            end
          else None
      end
  end.

(** The name of the station is a text. *)
Definition named_by_text (sp : StationPrice) : Prop :=
  exists text, name (sp_station sp) = JStr text.

(** From [s] to [s'] the client sent at most [d] data requests, made at
    most [t] token exchanges and at most [p] pauses, only added to its log,
    and kept the token slot holding no token or a true value. *)
Definition bounded_run (s s' : state) (d t p : nat) : Prop :=
  (data_requests s' <= data_requests s + d)%nat /\
  (token_requests s' <= token_requests s + t)%nat /\
  (count is_sleep (log s') <= count is_sleep (log s) + p)%nat /\
  (exists l, log s' = l ++ log s) /\
  (token_slot_ok s -> token_slot_ok s').

(** The error the second of two attempts ends with on a 401 or a 408. *)
Definition final_error (status : Z) (details : json) : exn :=
  if (status =? HTTP_UNAUTHORIZED)%Z
  then Exn NSWFuelApiClientAuthError
         (details_or details [PStr "Authentication failed during request."])
  else Exn NSWFuelApiClientConnectionError
         (details_or details [PStr "Request timed out after retry."]).

(** The date [Price.deserialize] reads out of a text: the first format is
    tried first, the second only if the first does not match. *)
Definition parsed_date `{RT : Runtime} (s : string) : option datetime :=
  match strptime s "%d/%m/%Y %H:%M:%S" with
  | Some d => Some d
  | None => strptime s "%Y-%m-%d %H:%M:%S"
  end.

(** A station price of the join pairs a price entry of the response with
    the station of the response that carries its code. *)
Definition joined `{RT : Runtime} (sts prs : list json) (sp : StationPrice) : Prop :=
  station_code (sp_price sp) = Some (code (sp_station sp)) /\
  (exists entry, In entry prs /\ Price_deserialize entry = Ok (sp_price sp)) /\
  (exists station, In station sts /\ Station_deserialize station = Ok (sp_station sp)).

(** The value of a member of [Period]. *)
Definition Period_value (p : Period) : string :=
  match p with
  | DAY => "Day"
  | MONTH => "Month"
  | YEAR => "Year"
  | WEEK => "Week"
  end.

(* ===================================================================== *)
(** * The test suite, run on the model                                   *)
(* ===================================================================== *)

Module Tests.
Import Fixtures.

Example price_endpoint_of_station :
  PRICE_ENDPOINT_format "1000" = "/FuelPriceCheck/v2/fuel/prices/station/1000".
Proof. reflexivity. Qed.

(** test_get_fuel_prices_within_radius *)
Example test_get_fuel_prices_within_radius :
  match fst (get_fuel_prices_within_radius (RT := Reference.runtime) (served nearby_payload) 2
               (FFinite (-33 # 1)) (FFinite (151 # 1)) init) with
  | Returns result =>
      List.length result = 3%nat /\
      option_map (fun sp => code (sp_station sp)) (List.head result) = Some 678 /\
      option_map (fun sp => price (sp_price sp)) (List.head result) = Some (num 1509 10)
  | _ => False
  end.
Proof. vm_compute. repeat split. Qed.

(** test_get_fuel_prices_for_station *)
Example test_get_fuel_prices_for_station :
  match fst (get_fuel_prices_for_station (RT := Reference.runtime) (served station_payload) 2
               "1000" init) with
  | Returns result =>
      List.length result = 2%nat /\
      option_map fuel_type (List.head result) = Some (JStr "E10") /\
      option_map last_updated (List.head result)
        = Some (Some (Datetime 2018 6 2 2 3 4))
  | _ => False
  end.
Proof. vm_compute. repeat split. Qed.

(** test_get_fuel_prices_for_station_client_error *)
Example test_get_fuel_prices_for_station_client_error :
  let body := JObj [("errorDetails",
                     JList [JObj [("code", JStr "E0014");
                                  ("description", JStr "Invalid service station code")]])] in
  fst (get_fuel_prices_for_station (RT := Reference.runtime) (answered 400 "Bad Request" body) 2
         "21199" init)
  = Raises (Exn NSWFuelApiClientError [PVal (JStr "Invalid service station code")]).
Proof. vm_compute. reflexivity. Qed.

(** test_get_reference_data_client_error *)
Example test_get_reference_data_client_error :
  let body := JObj [("errorDetails",
                     JObj [("code", JStr "-2146233033");
                           ("message", JStr "String was not recognized as a valid DateTime.")])] in
  fst (get_reference_data (RT := Reference.runtime) (answered 400 "Bad Request" body) 2 init)
  = Raises (Exn NSWFuelApiClientError
              [PVal (JStr "String was not recognized as a valid DateTime.")]).
Proof. vm_compute. reflexivity. Qed.

(** test_get_fuel_prices_server_error: the body is not JSON *)
Example test_get_fuel_prices_server_error :
  let W := world 1000 (fun _ => mock_token)
             (fun _ => DataResponds
                (DataResponse 500 "Internal Server Error"
                   (Raise (Exn JSONDecodeError [])) (Ok "Internal Server Error"))) in
  fst (get_fuel_prices (RT := Reference.runtime) W 2 init)
  = Raises (Exn NSWFuelApiClientConnectionError
              [PStr "Server error "; PVal (JInt 500); PStr ": ";
               PVal (JStr "Internal Server Error")]).
Proof. vm_compute. reflexivity. Qed.

(** test_invalid_client_credentials_token_fetch *)
Example test_invalid_client_credentials_token_fetch :
  let W := world 1000
             (fun _ => AuthResponds
                (AuthResponse 401 "Unauthorized" "application/json"
                   (Ok (JObj [("error", JStr "invalid_client")])) (Ok "")))
             (fun _ => ok_json 200 "OK" JNull) in
  fst (get_fuel_prices (RT := Reference.runtime) W 2 init)
  = Raises (Exn NSWFuelApiClientAuthError
              [PStr "Invalid NSW Fuel Check API credentials"]).
Proof. vm_compute. reflexivity. Qed.

(** test_async_get_token_invalid_json *)
Example test_async_get_token_invalid_json :
  let W := world 1000
             (fun _ => AuthResponds
                (AuthResponse 200 "OK" "application/json"
                   (Raise (Exn JSONDecodeError [])) (Ok "not valid json!!!")))
             (fun _ => ok_json 200 "OK" JNull) in
  fst (_async_get_token (RT := Reference.runtime) W init)
  = Raises (Exn NSWFuelApiClientError
              [PStr "Unexpected error fetching token: ";
               PErr NSWFuelApiClientError [PStr "Failed to parse token response JSON"]]).
Proof. vm_compute. reflexivity. Qed.

End Tests.

(* ===================================================================== *)
(** * Properties of dto.py                                               *)
(* ===================================================================== *)

(** Inversion of a successful sequence of steps. *)
Lemma rbind_Ok {A B} (r : result A) (k : A -> result B) (b : B) :
  rbind r k = Ok b -> exists a, r = Ok a /\ k a = Ok b.
Proof. destruct r as [a|e]; simpl; intros H; [eauto | discriminate]. Qed.

Ltac invert_steps :=
  repeat match goal with
  | H : rbind ?r _ = Ok _ |- _ =>
      let a := fresh "v" in
      let E := fresh "E" in
      apply rbind_Ok in H; destruct H as (a & E & H)
  | H : Ok _ = Ok _ |- _ => inversion H; subst; clear H
  end.

Lemma py_get_Ok (data : json) (k : string) (v : json) :
  py_get data k = Ok v -> exists o, data = JObj o /\ v = dict_get k o.
Proof. destruct data; simpl; intros H; try discriminate. inversion H; eauto. Qed.

Lemma truthy_JObj_lookup (k : string) (o : list (string * json)) (v : json) :
  lookup_key k o = Some v -> truthy (JObj o) = true.
Proof. destruct o; simpl; [discriminate | reflexivity]. Qed.

Section DtoProperties.
Context `{RT : Runtime}.

(** ** Station.deserialize *)


(** ** Price.deserialize *)

Lemma Price_lastupdated_unparseable (o : list (string * json)) (s : string) :
  lookup_key "lastupdated" o = Some (JStr s) ->
  strptime s "%d/%m/%Y %H:%M:%S" = None ->
  strptime s "%Y-%m-%d %H:%M:%S" = None ->
  Price_lastupdated (JObj o) = Ok None.
Proof.
  intros Hl H1 H2. unfold Price_lastupdated. simpl.
  rewrite Hl. simpl. rewrite H1, H2. reflexivity.
Qed.

Lemma Price_lastupdated_absent (o : list (string * json)) :
  lookup_key "lastupdated" o = None ->
  Price_lastupdated (JObj o) = Raise (Exn KeyError [PVal (JStr "lastupdated")]).
Proof.
  intros Hl. unfold Price_lastupdated. simpl. rewrite Hl. reflexivity.
Qed.

Lemma Price_lastupdated_not_text (o : list (string * json)) (v : json) :
  lookup_key "lastupdated" o = Some v ->
  (forall s, v <> JStr s) ->
  exists m, Price_lastupdated (JObj o) = Raise (Exn TypeError m).
Proof.
  intros Hl Hv. unfold Price_lastupdated. simpl. rewrite Hl.
  destruct v; simpl; eauto. exfalso. eapply Hv. reflexivity.
Qed.

(** The exceptions [Price.deserialize] can raise: a key, type or value
    error, or the [OverflowError] of [int] on an infinite station code. *)
Lemma py_getitem_error (v : json) (k : string) (e : exn) :
  py_getitem v k = Raise e -> is_Key_Type_Value (kind e) = true.
Proof.
  destruct v; simpl; try (intros H; inversion H; reflexivity).
  destruct (lookup_key k items); intros H; inversion H; reflexivity.
Qed.

Lemma py_strptime_error (v : json) (format : string) (e : exn) :
  py_strptime v format = Raise e -> is_Key_Type_Value (kind e) = true.
Proof.
  destruct v; simpl; try (intros H; inversion H; reflexivity).
  destruct (strptime s format); intros H; inversion H; reflexivity.
Qed.

Lemma py_int_error (v : json) (e : exn) :
  py_int v = Raise e ->
  is_Key_Type_Value (kind e) = true \/
  (kind e = OverflowError /\ exists negative, v = JFloat (FInf negative)).
Proof.
  destruct v; simpl; try (intros H; inversion H; left; reflexivity).
  - destruct f; intros H; inversion H.
    + right. split; [reflexivity | eauto].
    + left. reflexivity.
  - destruct (int_of_str s); intros H; inversion H. left. reflexivity.
Qed.

Lemma suppress_ValueError_error {A} (r : result A) (keep : A) (e : exn) :
  suppress_ValueError r keep = Raise e -> r = Raise e.
Proof.
  destruct r as [a|err]; simpl; [discriminate|].
  destruct (is_ValueError (kind err)); [discriminate|]. intros H. exact H.
Qed.

Lemma Price_lastupdated_error (data : json) (e : exn) :
  Price_lastupdated data = Raise e -> is_Key_Type_Value (kind e) = true.
Proof.
  assert (Hread : forall format,
            (let? v := py_getitem data "lastupdated" in
             let? d := py_strptime v format in Ok (Some d)) = Raise e ->
            is_Key_Type_Value (kind e) = true).
  { intros format H.
    destruct (py_getitem data "lastupdated") as [v|err] eqn:Eg; simpl in H.
    - destruct (py_strptime v format) as [d|err] eqn:Es; simpl in H;
        [discriminate|].
      inversion H; subst. exact (py_strptime_error _ _ _ Es).
    - inversion H; subst. exact (py_getitem_error _ _ _ Eg). }
  unfold Price_lastupdated. cbv zeta.
  destruct (suppress_ValueError _ None) as [[d|]|err] eqn:E1; simpl.
  - discriminate.
  - intros H. apply suppress_ValueError_error in H. exact (Hread _ H).
  - intros H. inversion H; subst.
    apply suppress_ValueError_error in E1. exact (Hread _ E1).
Qed.

Lemma Price_deserialize_error (data : json) (e : exn) :
  Price_deserialize data = Raise e ->
  is_Key_Type_Value (kind e) = true \/
  (kind e = OverflowError /\
   exists o negative,
     data = JObj o /\
     lookup_key "stationcode" o = Some (JFloat (FInf negative))).
Proof.
  unfold Price_deserialize.
  destruct (Price_lastupdated data) as [lu|err] eqn:El; simpl.
  2:{ intros H. inversion H; subst. left. exact (Price_lastupdated_error _ _ El). }
  unfold Price_build.
  (* the date was read, so [data] is a dict *)
  destruct data;
    try (unfold Price_lastupdated in El; simpl in El; discriminate).
  simpl.
  destruct (lookup_key "stationcode" items) as [c|] eqn:Ec; simpl.
  - destruct (py_int c) as [z|err] eqn:Ei; simpl.
    + destruct (lookup_key "fueltype" items); simpl;
        [|intros H; inversion H; left; reflexivity].
      destruct (lookup_key "price" items); simpl;
        [discriminate | intros H; inversion H; left; reflexivity].
    + intros H. inversion H; subst.
      destruct (py_int_error _ _ Ei) as [Hk | (Hk & negative & ->)];
        [left; exact Hk|].
      right. split; [exact Hk|]. eauto.
  - destruct (lookup_key "fueltype" items); simpl;
      [|intros H; inversion H; left; reflexivity].
    destruct (lookup_key "price" items); simpl;
      [discriminate | intros H; inversion H; left; reflexivity].
Qed.

(** Price entries without an infinite station code are all of the kind
    the loop of the join handles. *)
Lemma deserializes_or_skipped_intro (entry : json) :
  (forall o negative,
     entry = JObj o ->
     lookup_key "stationcode" o <> Some (JFloat (FInf negative))) ->
  deserializes_or_skipped entry.
Proof.
  intros Hno. unfold deserializes_or_skipped.
  destruct (Price_deserialize entry) as [p|e] eqn:E; [exact I|].
  destruct (Price_deserialize_error _ _ E) as [Hk | (_ & o & negative & -> & Hc)];
    [exact Hk|].
  exfalso. exact (Hno o negative eq_refl Hc).
Qed.

End DtoProperties.



(** C3, as stated, fails: a price object without a [lastupdated] entry
    does not deserialize to a price without a date, [Price.deserialize]
    raises [KeyError] for the absent key. *)
Lemma C3_counterexample :
  let data := JObj [("fueltype", JStr "E10"); ("price", Fixtures.num 1469 10)] in
  lookup_key "lastupdated" [("fueltype", JStr "E10"); ("price", Fixtures.num 1469 10)]
    = None /\
  Price_deserialize (RT := Reference.runtime) data
    = Raise (Exn KeyError [PVal (JStr "lastupdated")]) /\
  ~ (exists p, Price_deserialize (RT := Reference.runtime) data = Ok p
               /\ last_updated p = None).
Proof.
  cbv zeta. split; [reflexivity|]. split; [vm_compute; reflexivity|].
  intros (p & H & _). vm_compute in H. discriminate.
Qed.

(** C3, amended: for every price object whose [lastupdated] entry is
    present and is a text that parses in neither of the two date-time
    formats, [Price.deserialize] does not raise on account of that field: it
    goes on with the remaining fields holding no date, every price it
    returns has a null [last_updated], and it does return one when
    [fueltype] and [price] are present and there is no [stationcode]. *)
Theorem C3_unparseable_lastupdated_is_null `{RT : Runtime}
    (o : list (string * json)) (s : string) :
  lookup_key "lastupdated" o = Some (JStr s) ->
  strptime s "%d/%m/%Y %H:%M:%S" = None ->
  strptime s "%Y-%m-%d %H:%M:%S" = None ->
  Price_deserialize (JObj o) = Price_build (JObj o) None /\
  (forall p, Price_deserialize (JObj o) = Ok p -> last_updated p = None) /\
  (forall ft pr,
     lookup_key "fueltype" o = Some ft ->
     lookup_key "price" o = Some pr ->
     lookup_key "stationcode" o = None ->
     Price_deserialize (JObj o)
       = Ok (mkPrice ft pr None (dict_get "priceunit" o) None)).
Proof.
  intros Hl H1 H2.
  assert (Hd : Price_deserialize (JObj o) = Price_build (JObj o) None).
  { unfold Price_deserialize.
    rewrite (Price_lastupdated_unparseable o s Hl H1 H2). reflexivity. }
  split; [exact Hd|]. split.
  - intros p Hp. rewrite Hd in Hp. unfold Price_build in Hp.
    invert_steps. reflexivity.
  - intros ft pr Hft Hpr Hsc. rewrite Hd. unfold Price_build. simpl.
    rewrite Hsc. simpl. rewrite Hft. simpl. rewrite Hpr. reflexivity.
Qed.

(** A price of the test suite whose date is not a date. *)
Lemma C3_unparseable_lastupdated_is_null_witness :
  let o := [("fueltype", JStr "E10"); ("price", Fixtures.num 1469 10);
            ("lastupdated", JStr "yesterday")] in
  Price_deserialize (RT := Reference.runtime) (JObj o)
    = Price_build (RT := Reference.runtime) (JObj o) None /\
  (forall p, Price_deserialize (RT := Reference.runtime) (JObj o) = Ok p ->
             last_updated p = None) /\
  (forall ft pr,
     lookup_key "fueltype" o = Some ft ->
     lookup_key "price" o = Some pr ->
     lookup_key "stationcode" o = None ->
     Price_deserialize (RT := Reference.runtime) (JObj o)
       = Ok (mkPrice ft pr None (dict_get "priceunit" o) None)).
Proof.
  apply (C3_unparseable_lastupdated_is_null (RT := Reference.runtime)
           [("fueltype", JStr "E10"); ("price", Fixtures.num 1469 10);
            ("lastupdated", JStr "yesterday")] "yesterday");
    vm_compute; reflexivity.
Defined.

(* ===================================================================== *)
(** * Properties of the public operations                                *)
(* ===================================================================== *)

Section OperationProperties.
Context `{RT : Runtime} (W : World).

(** An operation is its validation applied to what the pipeline returned. *)
Lemma reraise_or_wrap_Returns {A} (wrap : exn -> msg) (m : M A)
    (s s' : state) (a : A) :
  m s = (Returns a, s') -> reraise_or_wrap wrap m s = (Returns a, s').
Proof. intros H. unfold reraise_or_wrap, try_except. rewrite H. reflexivity. Qed.

Lemma bind_Returns {A B} (m : M A) (k : A -> M B) (s s' : state) (a : A) :
  m s = (Returns a, s') -> bind m k s = k a s'.
Proof. intros H. unfold bind. rewrite H. reflexivity. Qed.

Lemma reraise_or_wrap_Raises {A} (wrap : exn -> msg) (m : M A)
    (s s' : state) (e : exn) :
  m s = (Raises e, s') ->
  reraise_or_wrap wrap m s
  = (Raises (if is_domain (kind e) then e
             else Exn NSWFuelApiClientError (wrap e)), s').
Proof.
  intros H. unfold reraise_or_wrap, try_except. rewrite H.
  destruct (is_domain (kind e)); reflexivity.
Qed.

Lemma bind_Raises {A B} (m : M A) (k : A -> M B) (s s' : state) (e : exn) :
  m s = (Raises e, s') -> bind m k s = (Raises e, s').
Proof. intros H. unfold bind. rewrite H. reflexivity. Qed.

Lemma get_fuel_prices_after_request fuel s s' response :
  _async_request W fuel PRICES_ENDPOINT "GET" s = (Returns response, s') ->
  get_fuel_prices W fuel s = lift (get_fuel_prices_result response) s'.
Proof.
  intros H. unfold get_fuel_prices.
  erewrite bind_Returns; [reflexivity|].
  apply reraise_or_wrap_Returns. exact H.
Qed.

Lemma get_fuel_prices_within_radius_after_request fuel lat lon s s' response :
  _async_request W fuel NEARBY_ENDPOINT "POST" s = (Returns response, s') ->
  get_fuel_prices_within_radius W fuel lat lon s
  = lift (get_fuel_prices_within_radius_result W lat lon response) s'.
Proof.
  intros H. unfold get_fuel_prices_within_radius.
  erewrite bind_Returns; [reflexivity|].
  apply reraise_or_wrap_Returns. exact H.
Qed.

(** What [get_fuel_prices] makes of a response that is empty or in which
    either key is absent. *)
Lemma get_fuel_prices_result_rejects response :
  is_empty response \/ absent "prices" response \/ absent "stations" response ->
  exists m, get_fuel_prices_result response
            = Raise (Exn NSWFuelApiClientError m).
Proof.
  unfold get_fuel_prices_result, is_empty, absent, not_in, or_else.
  intros [He | [Hk | Hk]].
  - rewrite He. simpl. eauto.
  - destruct (truthy response); simpl; [|eauto].
    rewrite Hk. simpl. eauto.
  - destruct (truthy response); simpl; [|eauto].
    destruct (py_in "prices" response) as [[|]|e] eqn:Hp; simpl.
    + rewrite Hk. simpl. eauto.
    + eauto.
    + exfalso. destruct response; simpl in Hp, Hk; discriminate.
Qed.

(** What it makes of a true response that is no object and in which no
    key is found absent: a number, a boolean, or a list or a text in which
    both names occur. *)
Lemma get_fuel_prices_result_leaks response :
  truthy response = true -> is_object response = false ->
  ~ (absent "prices" response \/ absent "stations" response) ->
  exists m, get_fuel_prices_result response = Raise (Exn TypeError m).
Proof.
  unfold get_fuel_prices_result, absent, not_in, or_else.
  intros Ht Ho Hab. rewrite Ht. simpl.
  destruct (py_in "prices" response) as [[|]|e] eqn:Hp; simpl.
  - destruct (py_in "stations" response) as [[|]|e] eqn:Hs; simpl.
    + unfold GetFuelPricesResponse_deserialize.
      destruct response; simpl in Ho; try discriminate; simpl in Hp, Hs;
        try discriminate; simpl; eauto.
    + exfalso. apply Hab. right. reflexivity.
    + destruct response; simpl in Hp, Hs; discriminate.
  - exfalso. apply Hab. left. reflexivity.
  - destruct response; simpl in Ho; try discriminate; simpl in Hp;
      try discriminate; inversion Hp; eauto.
Qed.

Lemma get_fuel_prices_within_radius_result_rejects lat lon response :
  is_empty response \/
  absent "stations" response \/ absent "prices" response \/
  maps_to_empty_list "stations" response \/
  maps_to_empty_list "prices" response ->
  exists m, get_fuel_prices_within_radius_result W lat lon response
            = Raise (Exn NSWFuelApiClientError m).
Proof.
  unfold get_fuel_prices_within_radius_result, is_empty, absent,
    maps_to_empty_list, not_in, or_else.
  intros [He | [Hk | [Hk | [(o & -> & Hk) | (o & -> & Hk)]]]].
  - rewrite He. simpl. eauto.
  - destruct (truthy response); simpl; [|eauto].
    rewrite Hk. simpl. eauto.
  - destruct (truthy response); simpl; [|eauto].
    destruct (py_in "stations" response) as [[|]|e] eqn:Hp; simpl.
    + rewrite Hk. simpl. eauto.
    + eauto.
    + exfalso. destruct response; simpl in Hp, Hk; discriminate.
  - rewrite (truthy_JObj_lookup _ _ _ Hk). simpl. rewrite Hk. simpl.
    destruct (lookup_key "prices" o) eqn:Hp; simpl; [|eauto].
    unfold dict_get. rewrite Hk. simpl. eauto.
  - rewrite (truthy_JObj_lookup _ _ _ Hk). simpl. rewrite Hk.
    destruct (lookup_key "stations" o) eqn:Hp; simpl; [|eauto].
    unfold dict_get. rewrite Hk, Hp. simpl.
    destruct (truthy j); simpl; eauto.
Qed.

Lemma get_fuel_prices_within_radius_result_leaks lat lon response :
  truthy response = true -> is_object response = false ->
  ~ (absent "stations" response \/ absent "prices" response) ->
  exists e, get_fuel_prices_within_radius_result W lat lon response = Raise e
            /\ (kind e = TypeError \/ kind e = AttributeError).
Proof.
  unfold get_fuel_prices_within_radius_result, absent, not_in, or_else.
  intros Ht Ho Hab. rewrite Ht. simpl.
  destruct (py_in "stations" response) as [[|]|e] eqn:Hs; simpl.
  - destruct (py_in "prices" response) as [[|]|e] eqn:Hp; simpl.
    + destruct response; simpl in Ho; try discriminate; simpl in Hp, Hs;
        try discriminate; simpl; eauto.
    + exfalso. apply Hab. right. reflexivity.
    + destruct response; simpl in Hp, Hs; discriminate.
  - exfalso. apply Hab. left. reflexivity.
  - destruct response; simpl in Ho; try discriminate; simpl in Hs;
      try discriminate; inversion Hs; eauto.
Qed.

End OperationProperties.

(** C8: when the pipeline returns a body that is empty, or in which the
    [prices] or the [stations] key is absent, [get_fuel_prices] raises
    [NSWFuelApiClientError]; [get_fuel_prices_within_radius] does so when
    the body is empty, either key is absent, or either key maps to an empty
    list.  That holds of an object, and of a list or a text in which the
    name does not occur.  But a body that is valid JSON, has no keys at all
    and passes for none of these (a number other than zero, [true], a list
    or a text in which both names occur) makes both operations raise the
    raw [TypeError] or [AttributeError] of the first use of the body: the
    validation stands after the [try] statement.  So does the body [5]. *)
Theorem C8_missing_keys_rejected_scalar_leaks :
  (forall (RT : Runtime) (W : World) (fuel : nat)
          (latitude longitude : pyfloat) (s s' : state) (response : json),
     (_async_request W fuel PRICES_ENDPOINT "GET" s = (Returns response, s') ->
      (is_empty response \/ absent "prices" response \/
       absent "stations" response ->
       exists m, get_fuel_prices W fuel s
                 = (Raises (Exn NSWFuelApiClientError m), s'))
      /\
      (truthy response = true -> is_object response = false ->
       ~ (absent "prices" response \/ absent "stations" response) ->
       exists m, get_fuel_prices W fuel s = (Raises (Exn TypeError m), s')))
     /\
     (_async_request W fuel NEARBY_ENDPOINT "POST" s = (Returns response, s') ->
      (is_empty response \/
       absent "stations" response \/ absent "prices" response \/
       maps_to_empty_list "stations" response \/
       maps_to_empty_list "prices" response ->
       exists m, get_fuel_prices_within_radius W fuel latitude longitude s
                 = (Raises (Exn NSWFuelApiClientError m), s'))
      /\
      (truthy response = true -> is_object response = false ->
       ~ (absent "stations" response \/ absent "prices" response) ->
       exists e, get_fuel_prices_within_radius W fuel latitude longitude s
                 = (Raises e, s')
                 /\ (kind e = TypeError \/ kind e = AttributeError))))
  /\
  (let W := Fixtures.served (JInt 5) in
   fst (get_fuel_prices (RT := Reference.runtime) W 2 init)
   = Raises (Exn TypeError [PStr "argument is not iterable"])
   /\
   fst (get_fuel_prices_within_radius (RT := Reference.runtime) W 2
          (FFinite (-33 # 1)) (FFinite (151 # 1)) init)
   = Raises (Exn TypeError [PStr "argument is not iterable"])
   /\
   is_domain TypeError = false /\ is_domain AttributeError = false).
Proof.
  split.
  - intros RT W fuel latitude longitude s s' response.
    split; intros Hreq.
    + rewrite (get_fuel_prices_after_request W fuel s s' response Hreq).
      split.
      * intros Hshape.
        destruct (get_fuel_prices_result_rejects response Hshape) as (m & ->).
        exists m. reflexivity.
      * intros Ht Ho Hab.
        destruct (get_fuel_prices_result_leaks response Ht Ho Hab) as (m & ->).
        exists m. reflexivity.
    + rewrite (get_fuel_prices_within_radius_after_request
                 W fuel latitude longitude s s' response Hreq).
      split.
      * intros Hshape.
        destruct (get_fuel_prices_within_radius_result_rejects
                    W latitude longitude response Hshape) as (m & ->).
        exists m. reflexivity.
      * intros Ht Ho Hab.
        destruct (get_fuel_prices_within_radius_result_leaks
                    W latitude longitude response Ht Ho Hab) as (e & -> & Hk).
        exists e. split; [reflexivity | exact Hk].
  - vm_compute. repeat split.
Qed.

(** A body with prices but no stations is rejected by both operations
    (test_get_fuel_prices_within_radius_missing_keys). *)
Example missing_stations_rejected :
  let W := Fixtures.served (JObj [("prices", JList [])]) in
  fst (get_fuel_prices (RT := Reference.runtime) W 2 init)
  = Raises (Exn NSWFuelApiClientError
              [PStr "Malformed response: missing required fields"])
  /\
  fst (get_fuel_prices_within_radius (RT := Reference.runtime) W 2
         (FFinite (-33 # 1)) (FFinite (151 # 1)) init)
  = Raises (Exn NSWFuelApiClientError
              [PStr "Malformed or empty response for location (";
               PVal (JFloat (FFinite (-33 # 1))); PStr ", ";
               PVal (JFloat (FFinite (151 # 1))); PStr ")"]).
Proof. vm_compute. split; reflexivity. Qed.

(** ** The join of stations and prices *)

Section JoinProperties.
Context `{RT : Runtime}.

Lemma join_prices_spec (stations : gmap Z Station) (prices_data : list json) :
  Forall deserializes_or_skipped prices_data ->
  forall acc,
    join_prices stations prices_data acc
    = Ok (acc ++ join_spec stations prices_data).
Proof.
  induction 1 as [|entry rest Hentry _ IH]; intros acc; simpl.
  - rewrite app_nil_r. reflexivity.
  - unfold join_price, emitted, deserializes_or_skipped in *.
    destruct (Price_deserialize entry) as [p|e]; simpl.
    + destruct (station_code p) as [c|]; simpl; [|apply IH].
      destruct (stations !! c) as [st|]; simpl; [|apply IH].
      rewrite IH, <- app_assoc. reflexivity.
    + rewrite Hentry. apply IH.
Qed.

(** The lookup maps a code to a station of the list that carries it. *)
Lemma build_stations_sound (stations_data : list json) :
  forall acc m,
    build_stations stations_data acc = Ok m ->
    forall c st, m !! c = Some st ->
      acc !! c = Some st \/
      (code st = c /\
       exists station, In station stations_data /\
                       Station_deserialize station = Ok st).
Proof.
  induction stations_data as [|station rest IH]; intros acc m H c st Hm; simpl in H.
  - inversion H; subst. left. exact Hm.
  - invert_steps.
    destruct (IH _ _ H c st Hm) as [Hacc | (Hc & x & Hin & Hx)].
    + destruct (decide (v0 = c)) as [->|Hne].
      * rewrite lookup_insert_eq in Hacc. inversion Hacc; subst.
        right. split.
        -- pose proof E1 as Hd. unfold Station_deserialize in Hd.
           invert_steps. simpl.
           congruence.
        -- exists station. split; [left; reflexivity | exact E1].
      * rewrite lookup_insert_ne in Hacc by exact Hne. left. exact Hacc.
    + right. split; [exact Hc|]. exists x. split; [right; exact Hin | exact Hx].
Qed.

End JoinProperties.

(* ===================================================================== *)
(** * Properties of the token manager                                    *)
(* ===================================================================== *)

Section TokenProperties.
Context `{RT : Runtime} (W : World).

Lemma needs_refresh_iff (s : state) (now : Q) :
  needs_refresh s now = true <->
  truthy (token s) = false \/ (token_expiry s - 60 < now)%Q.
Proof.
  unfold needs_refresh, Qgt_bool.
  rewrite orb_true_iff, !negb_true_iff.
  split; intros [H | H]; auto; right.
  - apply Qnot_le_lt. intros Hle. apply Qle_bool_iff in Hle. congruence.
  - destruct (Qle_bool now (token_expiry s - 60)) eqn:E; [|reflexivity].
    apply Qle_bool_iff in E. exfalso. exact (Qlt_not_le _ _ H E).
Qed.

(** What a call of [_async_get_token] does, case by case. *)
Lemma _async_get_token_cases (s : state) :
  let now := clock W (clock_reads s) in
  _async_get_token W s =
  if needs_refresh s now then
    match validated_token (auth_endpoint W (token_requests s)) with
    | Ok (tok, expires_in) =>
        match float_add_int now expires_in with
        | Some expiry => (Returns tok, refreshed tok expiry s)
        | None => (Raises overflow, token_stored tok s)
        end
    | Raise e => (Raises e, asked s)
    end
  else (Returns (token s), clocked s).
Proof.
  intros now. unfold _async_get_token, time_time, session_get_token.
  unfold bind at 1. unfold bind at 1. cbn [get_state emit ret].
  unfold bind at 1. cbn [get_state emit ret].
  unfold bind at 1. cbn [get_state].
  change (needs_refresh
            {| token := token s; token_expiry := token_expiry s;
               log := EvClock :: log s |} (clock W (clock_reads s)))
    with (needs_refresh s now).
  destruct (needs_refresh s now); [|reflexivity].
  unfold validated_token, asked, refreshed, token_stored, overflow,
    py_float_add_int.
  unfold bind, lift, get_state, emit, ret, throw, set_token, set_token_expiry.
  cbn [token token_expiry log].
  change (token_requests {| token := token s; token_expiry := token_expiry s;
                            log := EvClock :: log s |})
    with (token_requests s).
  destruct (token_exchange (auth_endpoint W (token_requests s)))
    as [result|e]; [|reflexivity].
  cbn [rbind].
  destruct (py_get result "access_token") as [access_token|e]; [|reflexivity].
  cbn [rbind].
  destruct (truthy access_token); cbn [negb]; [|reflexivity].
  destruct (get_expires_in result) as [raw|e]; [|reflexivity].
  cbn [rbind].
  destruct (py_int raw) as [expires_in|e]; [|reflexivity].
  cbn [rbind]. subst now.
  destruct (float_add_int (clock W (clock_reads s)) expires_in); reflexivity.
Qed.

Lemma performs_token_request_iff (s : state) :
  performs_token_request W s <->
  truthy (token s) = false \/ (token_expiry s - 60 < clock W (clock_reads s))%Q.
Proof.
  unfold performs_token_request.
  pose proof (_async_get_token_cases s) as Hc. cbv zeta in Hc.
  pose proof (needs_refresh_iff s (clock W (clock_reads s))) as Hn.
  destruct (needs_refresh s (clock W (clock_reads s))) eqn:E.
  - split; [intros _; apply Hn; reflexivity|]. intros _. rewrite Hc.
    destruct (validated_token _) as [[tok z]|e]; [|reflexivity].
    destruct (float_add_int _ z); reflexivity.
  - rewrite Hc. split.
    + intros H. exfalso.
      change (token_requests s = S (token_requests s)) in H. lia.
    + intros H. apply Hn in H. discriminate.
Qed.

Lemma _async_get_token_reuse (s : state) :
  ~ (truthy (token s) = false \/
     (token_expiry s - 60 < clock W (clock_reads s))%Q) ->
  _async_get_token W s = (Returns (token s), clocked s).
Proof.
  intros Hnot.
  pose proof (_async_get_token_cases s) as Hc. cbv zeta in Hc.
  pose proof (needs_refresh_iff s (clock W (clock_reads s))) as Hn.
  destruct (needs_refresh s (clock W (clock_reads s))) eqn:E.
  - exfalso. apply Hnot, Hn. reflexivity.
  - exact Hc.
Qed.

End TokenProperties.

(** C2, as stated, fails: with a token that expires at 100 and the clock at
    40, exactly sixty seconds before the expiry, the stored token is reused
    and no token exchange is performed. *)
Lemma C2_counterexample :
  ~ refresh_rule_as_specified (RT := Reference.runtime)
      (Fixtures.world 40 (fun _ => Fixtures.mock_token)
         (fun _ => Fixtures.ok_json 200 "OK" JNull))
      (State (JStr "testtoken") 100 []).
Proof.
  intros [_ H].
  assert (P : performs_token_request (RT := Reference.runtime)
                (Fixtures.world 40 (fun _ => Fixtures.mock_token)
                   (fun _ => Fixtures.ok_json 200 "OK" JNull))
                (State (JStr "testtoken") 100 [])).
  { apply H. right. vm_compute. discriminate. }
  vm_compute in P. discriminate.
Qed.

(** C2, amended: a call of [_async_get_token] performs the token exchange
    if and only if no token is held or the clock is strictly past the
    stored expiry less sixty seconds; otherwise it returns the stored token
    without a request, leaving the token slot and the expiry as they are. *)
Theorem C2_refresh_iff_strictly_past `{RT : Runtime} (W : World) (s : state) :
  let now := clock W (clock_reads s) in
  (performs_token_request W s <->
   truthy (token s) = false \/ (token_expiry s - 60 < now)%Q)
  /\
  (~ (truthy (token s) = false \/ (token_expiry s - 60 < now)%Q) ->
   _async_get_token W s = (Returns (token s), clocked s)
   /\ token (clocked s) = token s
   /\ token_expiry (clocked s) = token_expiry s
   /\ token_requests (clocked s) = token_requests s
   /\ data_requests (clocked s) = data_requests s).
Proof.
  intros now. split.
  - apply performs_token_request_iff.
  - intros Hnot. split; [|repeat split].
    apply _async_get_token_reuse. exact Hnot.
Qed.

(** A token with ample remaining life is reused: no second exchange. *)
Example token_reused_across_calls :
  let W := Fixtures.served Fixtures.station_payload in
  let s1 := snd (_async_get_token (RT := Reference.runtime) W init) in
  let s2 := snd (_async_get_token (RT := Reference.runtime) W s1) in
  token s1 = JStr "testtoken" /\ token_expiry s1 = (4600 # 1)%Q /\
  token_requests s1 = 1%nat /\ token_requests s2 = 1%nat /\ token s2 = token s1.
Proof. vm_compute. repeat split. Qed.

(* ===================================================================== *)
(** * Properties of the request pipeline                                 *)
(* ===================================================================== *)

Section PipelineProperties.
Context `{RT : Runtime} (W : World).

Lemma guarded_domain (e : exn) : is_domain (kind (guarded e)) = true.
Proof. unfold guarded. destruct (is_domain (kind e)) eqn:E; [exact E | reflexivity]. Qed.

Lemma guarded_id (e : exn) : is_domain (kind e) = true -> guarded e = e.
Proof. unfold guarded. intros ->. reflexivity. Qed.

(** One iteration of the loop, from the request on. *)
Lemma attempt_request_cases (rq : request) (attempt max_retries : Z) (s : state) :
  attempt_request W rq attempt max_retries s =
  match verdict_of (data_endpoint W (data_requests s) rq) attempt max_retries with
  | VReturn data => (Returns (Some data), sent rq s)
  | VRetry clear => (Returns None, paused clear rq s)
  | VRaise e => (Raises e, sent rq s)
  end.
Proof.
  unfold attempt_request, reraise_or_wrap, try_except, session_request,
    _handle_http_error, sleep_half_second, verdict_of, sent, paused, guarded.
  unfold bind, lift, get_state, emit, ret, throw, set_token.
  cbn [token token_expiry log].
  destruct (data_endpoint W (data_requests s) rq) as [e|response].
  - destruct (is_domain (kind e)); reflexivity.
  - destruct (_parse_response response) as [data|e].
    2:{ destruct (is_domain (kind e)); reflexivity. }
    destruct (_extract_error_details data) as [details|e].
    2:{ destruct (is_domain (kind e)); reflexivity. }
    cbv zeta.
    destruct (d_status response =? HTTP_UNAUTHORIZED)%Z.
    { destruct (attempt <? max_retries)%Z; reflexivity. }
    destruct (d_status response =? HTTP_TIMEOUT_ERROR)%Z.
    { destruct (attempt <? max_retries)%Z; reflexivity. }
    destruct (HTTP_INTERNAL_SERVER_ERROR <=? d_status response)%Z; [reflexivity|].
    destruct (HTTP_CLIENT_SERVER_ERROR <=? d_status response)%Z; reflexivity.
Qed.

(** One iteration of the loop, once the token is there. *)
Lemma request_loop_iteration (fuel : nat) (method path : string)
    (attempt max_retries : Z) (s s1 : state) (t : json) :
  (attempt <= max_retries)%Z ->
  _async_get_token W s = (Returns t, s1) ->
  truthy t = true ->
  let rq := Request (upper method) (BASE_URL ++ path) t in
  request_loop W (S fuel) method path attempt max_retries s =
  match verdict_of (data_endpoint W (data_requests s1) rq) attempt max_retries with
  | VReturn data => (Returns (Returned data), sent rq s1)
  | VRetry clear =>
      request_loop W fuel method path (attempt + 1) max_retries (paused clear rq s1)
  | VRaise e => (Raises e, sent rq s1)
  end.
Proof.
  intros Hle Htok Ht rq. cbn [request_loop].
  apply Z.leb_le in Hle. rewrite Hle.
  unfold bind at 1. rewrite Htok. rewrite Ht. cbn [negb].
  unfold bind at 1. rewrite attempt_request_cases. fold rq.
  destruct (verdict_of (data_endpoint W (data_requests s1) rq) attempt max_retries);
    reflexivity.
Qed.

(** A retry is only asked for before the last attempt. *)
Lemma verdict_retry_attempt (o : data_outcome) (attempt max_retries : Z) (clear : bool) :
  verdict_of o attempt max_retries = VRetry clear -> (attempt < max_retries)%Z.
Proof.
  unfold verdict_of. destruct o as [e|response]; [discriminate|].
  destruct (_parse_response response); [|discriminate].
  destruct (_extract_error_details a); [|discriminate].
  cbv zeta.
  destruct (d_status response =? HTTP_UNAUTHORIZED)%Z.
  { destruct (attempt <? max_retries)%Z eqn:E; [|discriminate].
    intros _. apply Z.ltb_lt. exact E. }
  destruct (d_status response =? HTTP_TIMEOUT_ERROR)%Z.
  { destruct (attempt <? max_retries)%Z eqn:E; [|discriminate].
    intros _. apply Z.ltb_lt. exact E. }
  destruct (HTTP_INTERNAL_SERVER_ERROR <=? d_status response)%Z; [discriminate|].
  destruct (HTTP_CLIENT_SERVER_ERROR <=? d_status response)%Z; discriminate.
Qed.

End PipelineProperties.

(** ** The retry loop is bounded and never falls through *)

Section LoopProperties.
Context `{RT : Runtime} (W : World).

(** [_async_get_token] returns or raises, and sends no data request. *)
Lemma _async_get_token_outcome (s : state) :
  exists s1, data_requests s1 = data_requests s /\
    ((exists t, _async_get_token W s = (Returns t, s1)) \/
     (exists e, _async_get_token W s = (Raises e, s1))).
Proof.
  rewrite _async_get_token_cases. cbv zeta.
  destruct (needs_refresh s (clock W (clock_reads s))).
  - destruct (validated_token _) as [[tok z]|e].
    + destruct (float_add_int _ z).
      * eexists. split; [|left; eexists; reflexivity]. reflexivity.
      * eexists. split; [|right; eexists; reflexivity]. reflexivity.
    + eexists. split; [|right; eexists; reflexivity]. reflexivity.
  - eexists. split; [|left; eexists; reflexivity]. reflexivity.
Qed.

Lemma data_requests_sent (rq : request) (s : state) :
  data_requests (sent rq s) = S (data_requests s).
Proof. reflexivity. Qed.

Lemma data_requests_paused (clear : bool) (rq : request) (s : state) :
  data_requests (paused clear rq s) = S (data_requests s).
Proof. reflexivity. Qed.

Lemma request_loop_no_token (fuel : nat) (method path : string)
    (attempt max_retries : Z) (s s1 : state) (t : json) :
  (attempt <= max_retries)%Z ->
  _async_get_token W s = (Returns t, s1) ->
  truthy t = false ->
  request_loop W (S fuel) method path attempt max_retries s
  = (Raises (Exn NSWFuelApiClientError
               [PStr "No access token available for NSW Fuel API request"]), s1).
Proof.
  intros Hle Ht Etr. cbn [request_loop].
  apply Z.leb_le in Hle. rewrite Hle.
  unfold bind at 1. rewrite Ht, Etr. reflexivity.
Qed.

Lemma request_loop_token_raises (fuel : nat) (method path : string)
    (attempt max_retries : Z) (s s1 : state) (e : exn) :
  (attempt <= max_retries)%Z ->
  _async_get_token W s = (Raises e, s1) ->
  request_loop W (S fuel) method path attempt max_retries s = (Raises e, s1).
Proof.
  intros Hle He. cbn [request_loop].
  apply Z.leb_le in Hle. rewrite Hle.
  unfold bind at 1. rewrite He. reflexivity.
Qed.

(** What [verdict_of] raises is a client error. *)
Lemma verdict_raise_domain (o : data_outcome) (attempt max_retries : Z) (e : exn) :
  verdict_of o attempt max_retries = VRaise e -> is_domain (kind e) = true.
Proof.
  unfold verdict_of. intros Ev.
  destruct o as [e0|response].
  { inversion Ev. apply guarded_domain. }
  destruct (_parse_response response).
  2:{ inversion Ev. apply guarded_domain. }
  destruct (_extract_error_details a).
  2:{ inversion Ev. apply guarded_domain. }
  cbv zeta in Ev.
  destruct (d_status response =? HTTP_UNAUTHORIZED)%Z.
  { destruct (attempt <? max_retries)%Z; inversion Ev. reflexivity. }
  destruct (d_status response =? HTTP_TIMEOUT_ERROR)%Z.
  { destruct (attempt <? max_retries)%Z; inversion Ev. reflexivity. }
  destruct (HTTP_INTERNAL_SERVER_ERROR <=? d_status response)%Z.
  { inversion Ev. reflexivity. }
  destruct (HTTP_CLIENT_SERVER_ERROR <=? d_status response)%Z;
    inversion Ev. reflexivity.
Qed.

(** The iteration with [attempt = max_retries] is the last one. *)
Lemma request_loop_last (fuel : nat) (method path : string) (n : Z) (s : state) :
  ends_properly W (request_loop W (S fuel) method path n n s) s 1
  /\ request_loop W (S fuel) method path n n s
     = request_loop W 1 method path n n s.
Proof.
  destruct (_async_get_token_outcome s) as (s1 & Hd & [(t & Ht) | (e & He)]).
  - destruct (truthy t) eqn:Etr.
    + rewrite !(request_loop_iteration W _ method path n n s s1 t
                  (Z.le_refl n) Ht Etr).
      cbv zeta.
      destruct (verdict_of _ n n) as [data|clear|e] eqn:Ev.
      * split; [|reflexivity]. split; [left; eexists; reflexivity|].
        cbn [snd]. rewrite data_requests_sent. lia.
      * apply verdict_retry_attempt in Ev. lia.
      * split; [|reflexivity]. split.
        -- right. exists e. split; [reflexivity|]. left.
           exact (verdict_raise_domain _ _ _ _ Ev).
        -- cbn [snd]. rewrite data_requests_sent. lia.
    + rewrite !(request_loop_no_token _ method path n n s s1 t
                  (Z.le_refl n) Ht Etr).
      split; [|reflexivity]. split; [|cbn [snd]; lia].
      right. eexists. split; [reflexivity|]. left. reflexivity.
  - rewrite !(request_loop_token_raises _ method path n n s s1 e
                (Z.le_refl n) He).
    split; [|reflexivity]. split; [|cbn [snd]; lia].
    right. exists e. split; [reflexivity|]. right. eauto.
Qed.

(** From the first attempt, with one retry allowed, the loop ends properly
    within two requests, and two units of fuel are enough. *)
Lemma request_loop_first (fuel : nat) (method path : string) (s : state) :
  ends_properly W (request_loop W (S (S fuel)) method path 0 1 s) s 2
  /\ request_loop W (S (S fuel)) method path 0 1 s
     = request_loop W 2 method path 0 1 s.
Proof.
  assert (H01 : (0 <= 1)%Z) by lia.
  destruct (_async_get_token_outcome s) as (s1 & Hd & [(t & Ht) | (e & He)]).
  - destruct (truthy t) eqn:Etr.
    + rewrite !(request_loop_iteration W _ method path 0 1 s s1 t H01 Ht Etr).
      cbv zeta.
      destruct (verdict_of _ 0 1) as [data|clear|e] eqn:Ev.
      * split; [|reflexivity]. split; [left; eexists; reflexivity|].
        cbn [snd]. rewrite data_requests_sent. lia.
      * change (0 + 1)%Z with 1%Z.
        destruct (request_loop_last fuel method path 1
                    (paused clear (Request (upper method) (BASE_URL ++ path) t) s1))
          as ((Hend & Hn) & Hfuel).
        split; [|exact Hfuel].
        split; [exact Hend|].
        rewrite data_requests_paused in Hn. lia.
      * split; [|reflexivity]. split.
        -- right. exists e. split; [reflexivity|]. left.
           exact (verdict_raise_domain _ _ _ _ Ev).
        -- cbn [snd]. rewrite data_requests_sent. lia.
    + rewrite !(request_loop_no_token _ method path 0 1 s s1 t H01 Ht Etr).
      split; [|reflexivity]. split; [|cbn [snd]; lia].
      right. eexists. split; [reflexivity|]. left. reflexivity.
  - rewrite !(request_loop_token_raises _ method path 0 1 s s1 e H01 He).
    split; [|reflexivity]. split; [|cbn [snd]; lia].
    right. exists e. split; [reflexivity|]. right. eauto.
Qed.

(** The pipeline makes at most two requests, never runs out of fuel with
    two units of it, and never reaches the statement after the loop. *)
Lemma _async_request_bounded (fuel : nat) (path method : string) (s : state) :
  let r := _async_request W (S (S fuel)) path method s in
  fst (request_loop W (S (S fuel)) method path 0 1 s) <> Returns LoopExit
  /\ fst (request_loop W (S (S fuel)) method path 0 1 s) <> NoFuel
  /\ fst r <> NoFuel
  /\ (data_requests (snd r) <= data_requests s + 2)%nat
  /\ r = _async_request W 2 path method s.
Proof.
  cbv zeta. unfold _async_request. cbv zeta.
  destruct (request_loop_first fuel method path s) as ((Hend & Hn) & Hfuel).
  unfold bind. rewrite <- Hfuel.
  destruct (request_loop W (S (S fuel)) method path 0 1 s) as [o s'].
  cbn [fst snd] in *.
  destruct Hend as [(data & ->) | (e & -> & _)].
  - repeat split; try discriminate. exact Hn.
  - repeat split; try discriminate. exact Hn.
Qed.

End LoopProperties.

(** ** Classification of the HTTP status *)

Ltac status_cases :=
  unfold HTTP_UNAUTHORIZED, HTTP_TIMEOUT_ERROR, HTTP_INTERNAL_SERVER_ERROR,
    HTTP_CLIENT_SERVER_ERROR in *;
  repeat match goal with
  | |- context [(?a =? ?b)%Z] => destruct (Z.eqb_spec a b); try lia
  | |- context [(?a <=? ?b)%Z] => destruct (Z.leb_spec a b); try lia
  | |- context [(?a <? ?b)%Z] => destruct (Z.ltb_spec a b); try lia
  end.

Section StatusProperties.
Context `{RT : Runtime} (W : World).

Lemma supplies_description_details (data description : json) :
  supplies_description data description ->
  _extract_error_details data = Ok description.
Proof.
  intros (Ht & o & edo & -> & Hd & [He | (rest & He)]);
    unfold _extract_error_details, dict_get; rewrite He.
  - unfold py_or. rewrite Hd, Ht. reflexivity.
  - simpl. unfold dict_get. rewrite Hd. simpl. rewrite Ht. reflexivity.
Qed.

Lemma details_or_truthy (details : json) (m : msg) :
  truthy details = true -> details_or details m = [PVal details].
Proof. unfold details_or. intros ->. reflexivity. Qed.

(** The verdict on a response whose body parses and whose error details
    extract. *)
Lemma verdict_of_response (response : data_response) (data details : json)
    (attempt max_retries : Z) :
  _parse_response response = Ok data ->
  _extract_error_details data = Ok details ->
  verdict_of (DataResponds response) attempt max_retries =
  let status := d_status response in
  if (status =? HTTP_UNAUTHORIZED)%Z then
    if (attempt <? max_retries)%Z then VRetry true
    else VRaise (Exn NSWFuelApiClientAuthError
                   (details_or details [PStr "Authentication failed during request."]))
  else if (status =? HTTP_TIMEOUT_ERROR)%Z then
    if (attempt <? max_retries)%Z then VRetry false
    else VRaise (Exn NSWFuelApiClientConnectionError
                   (details_or details [PStr "Request timed out after retry."]))
  else if (HTTP_INTERNAL_SERVER_ERROR <=? status)%Z then
    VRaise (Exn NSWFuelApiClientConnectionError
              (details_or details
                 [PStr "Server error "; PVal (JInt status); PStr ": ";
                  PVal (JStr (d_reason response))]))
  else if (HTTP_CLIENT_SERVER_ERROR <=? status)%Z then
    VRaise (Exn NSWFuelApiClientError
              (details_or details
                 [PStr "HTTP error "; PVal (JInt status); PStr ": ";
                  PVal (JStr (d_reason response))]))
  else VReturn data.
Proof. intros Hp Hd. unfold verdict_of. rewrite Hp, Hd. reflexivity. Qed.

End StatusProperties.

(* ===================================================================== *)
(** * Exceptions that reach the caller as they are                       *)
(* ===================================================================== *)

(** What does hold of the outcomes of the token endpoint. *)
Lemma token_exchange_outcomes `{RT : Runtime} (r : auth_response) :
  (a_status r = 401 ->
   validated_token (AuthResponds r)
   = Raise (Exn NSWFuelApiClientAuthError
              [PStr "Invalid NSW Fuel Check API credentials"]))
  /\
  (400 <= a_status r -> a_status r <> 401 ->
   validated_token (AuthResponds r)
   = Raise (Exn NSWFuelApiClientError
              [PStr "Token request failed with status "; PVal (JInt (a_status r));
               PStr ": "; PVal (JStr (a_reason r))]))
  /\
  (a_status r < 400 ->
   (exists e, is_substring "application/json" (a_content_type r) = true /\
              a_json r = Raise e /\ is_ValueError (kind e) = true) \/
   (exists text, is_substring "application/json" (a_content_type r) = false /\
                 a_text r = Ok text /\ json_loads text = None) ->
   validated_token (AuthResponds r)
   = Raise (Exn NSWFuelApiClientError
              [PStr "Unexpected error fetching token: ";
               PErr NSWFuelApiClientError
                 [PStr "Failed to parse token response JSON"]]))
  /\
  (a_status r < 400 ->
   forall o, token_response_json r = Ok (JObj o) ->
   truthy (dict_get "access_token" o) = false ->
   validated_token (AuthResponds r)
   = Raise (Exn NSWFuelApiClientError
              [PStr "No access token in NSW Fuel Check token response"]))
  /\
  (a_status r < 400 ->
   forall o z, token_response_json r = Ok (JObj o) ->
   truthy (dict_get "access_token" o) = true ->
   granted_lifetime o z ->
   validated_token (AuthResponds r) = Ok (dict_get "access_token" o, z)).
Proof.
  unfold validated_token, token_exchange, raise_for_status.
  split; [|split; [|split; [|split]]].
  - intros ->. reflexivity.
  - intros H4 H401. status_cases. simpl. status_cases. reflexivity.
  - intros H4 Hbody. status_cases. simpl. unfold token_response_json.
    destruct Hbody as [(e & -> & -> & ->) | (text & -> & -> & Hj)].
    + reflexivity.
    + simpl. rewrite Hj. reflexivity.
  - intros H4 o Ho Hf. status_cases. simpl. rewrite Ho. simpl.
    rewrite Hf. reflexivity.
  - intros H4 o z Ho Ht Hz. status_cases. simpl. rewrite Ho. simpl.
    rewrite Ht. simpl. unfold granted_lifetime in Hz.
    destruct (lookup_key "expires_in" o) as [v|]; simpl.
    + rewrite Hz. reflexivity.
    + subst z. reflexivity.
Qed.

(** C9: when [_async_get_token] exchanges the credentials, a 401 raises
    [NSWFuelApiClientAuthError]; any other status from 400 on raises
    [NSWFuelApiClientError] with the status and the reason; a body that does
    not parse raises [NSWFuelApiClientError]; an object without an
    [access_token] raises [NSWFuelApiClientError]; and on success the token
    is stored with the expiry [now + expires_in], 3600 when absent, the sum
    being the one of a float and an int.  But the validation stands after
    the [try] statement: a token response that parses to something other
    than an object, and so has no [access_token], raises the
    [AttributeError] of [result.get] as it is, and an [expires_in] beyond
    the range of the floats raises the [OverflowError] of the sum as it is,
    with the new token already in the slot and the expiry left as it was. *)
Theorem C9_token_outcomes_and_leak :
  (forall (RT : Runtime) (W : World) (s : state) (r : auth_response),
     let now := clock W (clock_reads s) in
     let run := _async_get_token W s in
     needs_refresh s now = true ->
     auth_endpoint W (token_requests s) = AuthResponds r ->
     (a_status r = 401 ->
      run = (Raises (Exn NSWFuelApiClientAuthError
                       [PStr "Invalid NSW Fuel Check API credentials"]), asked s))
     /\
     (400 <= a_status r -> a_status r <> 401 ->
      run = (Raises (Exn NSWFuelApiClientError
                       [PStr "Token request failed with status ";
                        PVal (JInt (a_status r)); PStr ": ";
                        PVal (JStr (a_reason r))]), asked s))
     /\
     (a_status r < 400 ->
      (exists e, is_substring "application/json" (a_content_type r) = true /\
                 a_json r = Raise e /\ is_ValueError (kind e) = true) \/
      (exists text, is_substring "application/json" (a_content_type r) = false /\
                    a_text r = Ok text /\ json_loads text = None) ->
      run = (Raises (Exn NSWFuelApiClientError
                       [PStr "Unexpected error fetching token: ";
                        PErr NSWFuelApiClientError
                          [PStr "Failed to parse token response JSON"]]), asked s))
     /\
     (a_status r < 400 ->
      forall o, token_response_json r = Ok (JObj o) ->
      truthy (dict_get "access_token" o) = false ->
      run = (Raises (Exn NSWFuelApiClientError
                       [PStr "No access token in NSW Fuel Check token response"]),
             asked s))
     /\
     (a_status r < 400 ->
      forall o z, token_response_json r = Ok (JObj o) ->
      truthy (dict_get "access_token" o) = true ->
      granted_lifetime o z ->
      (forall expiry, float_add_int now z = Some expiry ->
         run = (Returns (dict_get "access_token" o),
                refreshed (dict_get "access_token" o) expiry s))
      /\
      (float_add_int now z = None ->
         run = (Raises overflow, token_stored (dict_get "access_token" o) s)
         /\ token (token_stored (dict_get "access_token" o) s)
            = dict_get "access_token" o
         /\ token_expiry (token_stored (dict_get "access_token" o) s)
            = token_expiry s)))
  /\
  (let r := _async_get_token (RT := Reference.runtime) token_list_world init in
   fst r = Raises (Exn AttributeError [PStr "object has no attribute 'get'"])
   /\ is_domain AttributeError = false
   /\ token (snd r) = JNull)
  /\
  (let r := _async_get_token (RT := Reference.runtime) token_forever_world init in
   fst r = Raises (Exn OverflowError [PStr "int too large to convert to float"])
   /\ is_domain OverflowError = false
   /\ token (snd r) = JStr "testtoken"
   /\ token_expiry (snd r) = token_expiry init).
Proof.
  split; [|split].
  - intros RT W s r now run Hn Ho.
    pose proof (_async_get_token_cases W s) as Hc. cbv zeta in Hc.
    fold now run in Hc. rewrite Hn, Ho in Hc.
    destruct (token_exchange_outcomes r) as (H1 & H2 & H3 & H4 & H5).
    split; [|split; [|split; [|split]]].
    + intros Hs. rewrite Hc, (H1 Hs). reflexivity.
    + intros Hs Hs'. rewrite Hc, (H2 Hs Hs'). reflexivity.
    + intros Hs Hb. rewrite Hc, (H3 Hs Hb). reflexivity.
    + intros Hs o Hj Hf. rewrite Hc, (H4 Hs o Hj Hf). reflexivity.
    + intros Hs o z Hj Ht Hz. rewrite (H5 Hs o z Hj Ht Hz) in Hc. split.
      * intros expiry He. rewrite He in Hc. exact Hc.
      * intros He. rewrite He in Hc. split; [exact Hc | split; reflexivity].
  - vm_compute. repeat split.
  - vm_compute. repeat split.
Qed.

(** C7: a call of the pipeline makes at most two requests, two
    iterations of the loop are enough, and the statement after the loop is
    never reached: the loop returns the parsed body or raises.  What it
    raises is one of the three client errors, except for what leaks out of
    [_async_get_token], which is called inside the loop but before its
    [try] statement: on the token response above the pipeline raises
    [AttributeError], without sending a request. *)
Theorem C7_two_attempts_and_token_leak :
  (forall (RT : Runtime) (W : World) (fuel : nat) (path method : string)
          (s : state),
     let loop := request_loop W (S (S fuel)) method path 0 1 s in
     let r := _async_request W (S (S fuel)) path method s in
     fst loop <> Returns LoopExit
     /\ fst loop <> NoFuel
     /\ fst r <> NoFuel
     /\ (data_requests (snd r) <= data_requests s + 2)%nat
     /\ r = _async_request W 2 path method s
     /\ ends_properly W loop s 2)
  /\
  (let r := _async_request (RT := Reference.runtime) token_list_world 2
              PRICES_ENDPOINT "GET" init in
   fst r = Raises (Exn AttributeError [PStr "object has no attribute 'get'"])
   /\ is_domain AttributeError = false
   /\ data_requests (snd r) = 0%nat).
Proof.
  split.
  - intros RT W fuel path method s loop r.
    destruct (_async_request_bounded W fuel path method s)
      as (H1 & H2 & H3 & H4 & H5).
    destruct (request_loop_first W fuel method path s) as (H6 & _).
    cbv zeta in H1, H2, H3, H4, H5. unfold loop, r.
    repeat (split; [assumption|]). exact H6.
  - vm_compute. repeat split.
Qed.

(** C1: each operation passes on the three client errors of the pipeline
    as they are and wraps every other exception of the pipeline into
    [NSWFuelApiClientError] with the original message.  But a failure of
    the validation or the deserialization of the response reaches the
    caller as the raw exception: they stand after the [try] statement. *)
Theorem C1_pipeline_errors_wrapped_deserialization_leaks :
  (forall (RT : Runtime) (W : World) (fuel : nat) (s s' : state) (e : exn)
          (station_code : string) (latitude longitude : pyfloat),
     let wrapped (prefix : msg) :=
       if is_domain (kind e) then e
       else Exn NSWFuelApiClientError (prefix ++ [str_of e]) in
     (_async_request W fuel PRICES_ENDPOINT "GET" s = (Raises e, s') ->
      get_fuel_prices W fuel s
      = (Raises (wrapped [PStr "Unexpected error fetching fuel prices:"]), s'))
     /\
     (_async_request W fuel (PRICE_ENDPOINT_format station_code) "GET" s
        = (Raises e, s') ->
      get_fuel_prices_for_station W fuel station_code s
      = (Raises (wrapped [PStr "Unexpected failure getting station prices for ";
                          PVal (JStr station_code); PStr ": "]), s'))
     /\
     (_async_request W fuel NEARBY_ENDPOINT "POST" s = (Raises e, s') ->
      get_fuel_prices_within_radius W fuel latitude longitude s
      = (Raises (wrapped [PStr "Unexpected error fetching nearby prices for (";
                          PVal (JFloat latitude); PStr ", ";
                          PVal (JFloat longitude); PStr "): "]), s'))
     /\
     (_async_request W fuel REFERENCE_ENDPOINT "GET" s = (Raises e, s') ->
      get_reference_data W fuel s
      = (Raises (wrapped [PStr "Unexpected failure fetching reference data: "]),
         s')))
  /\
  (let prices := JList [Fixtures.nearby_price 678 (Fixtures.num 1509 10)] in
   fst (get_fuel_prices (RT := Reference.runtime)
          (Fixtures.served (JObj [("prices", JList []); ("stations", JList [JObj []])]))
          2 init)
   = Raises (Exn KeyError [PVal (JStr "brand")])
   /\
   fst (get_fuel_prices_for_station (RT := Reference.runtime)
          (Fixtures.served
             (JObj [("prices", JList [JObj [("fueltype", JStr "E10");
                                            ("price", Fixtures.num 1469 10)]])]))
          2 "1000" init)
   = Raises (Exn KeyError [PVal (JStr "lastupdated")])
   /\
   fst (get_fuel_prices_within_radius (RT := Reference.runtime)
          (Fixtures.served (JObj [("stations", JList [JObj []]); ("prices", prices)]))
          2 (FFinite (-33 # 1)) (FFinite (151 # 1)) init)
   = Raises (Exn KeyError [PVal (JStr "code")])
   /\
   fst (get_reference_data (RT := Reference.runtime)
          (Fixtures.served (JObj [("stations", JObj [("items", JList [])])]))
          2 init)
   = Raises (Exn KeyError [PVal (JStr "brands")])
   /\
   is_domain KeyError = false).
Proof.
  split.
  - intros RT W fuel s s' e station_code latitude longitude wrapped.
    unfold wrapped.
    unfold get_fuel_prices, get_fuel_prices_for_station,
      get_fuel_prices_within_radius, get_reference_data.
    repeat split; intros H;
      (erewrite bind_Raises;
       [reflexivity | rewrite (reraise_or_wrap_Raises _ _ _ _ _ H); reflexivity]).
  - vm_compute. repeat split.
Qed.

(** The operations wrap what leaks out of the pipeline: on the same token
    response [get_fuel_prices] raises [NSWFuelApiClientError]. *)
Example token_leak_wrapped_by_operation :
  fst (get_fuel_prices (RT := Reference.runtime) token_list_world 2 init)
  = Raises (Exn NSWFuelApiClientError
              [PStr "Unexpected error fetching fuel prices:";
               PErr AttributeError [PStr "object has no attribute 'get'"]]).
Proof. vm_compute. reflexivity. Qed.

(** A token endpoint that answers 304 with a token in its body is taken
    at its word: [raise_for_status] only raises from 400 on. *)
Example token_accepted_on_3xx :
  let W := Fixtures.world 1000
             (fun _ => AuthResponds
                (AuthResponse 304 "Not Modified" "application/json"
                   (Ok (JObj [("access_token", JStr "testtoken")])) (Ok "")))
             (fun _ => Fixtures.ok_json 200 "OK" JNull) in
  let r := _async_get_token (RT := Reference.runtime) W init in
  fst r = Returns (JStr "testtoken") /\ token_expiry (snd r) = (4600 # 1)%Q.
Proof. vm_compute. split; reflexivity. Qed.

(** A [ContentTypeError] of [response.json()] is a [ClientResponseError]:
    the first handler reports it with the status of the response. *)
Example token_content_type_error :
  let W := Fixtures.world 1000
             (fun _ => AuthResponds
                (AuthResponse 200 "OK" "application/json-seq"
                   (Raise (Exn (ContentTypeError 200 "Attempt to decode JSON with unexpected mimetype") []))
                   (Ok "")))
             (fun _ => Fixtures.ok_json 200 "OK" JNull) in
  fst (_async_get_token (RT := Reference.runtime) W init)
  = Raises (Exn NSWFuelApiClientError
              [PStr "Token request failed with status "; PVal (JInt 200);
               PStr ": ";
               PVal (JStr "Attempt to decode JSON with unexpected mimetype")]).
Proof. vm_compute. reflexivity. Qed.

(** A price entry whose station code is an infinite float is not skipped:
    [int] raises [OverflowError], which the loop of the join does not
    handle. *)
Example infinite_station_code_not_skipped :
  join_prices (RT := Reference.runtime) ∅
    [JObj [("stationcode", JFloat (FInf false)); ("fueltype", JStr "P95");
           ("price", JInt 1); ("lastupdated", JStr "2018-06-02 00:46:31")]] []
  = Raise (Exn OverflowError [PStr "cannot convert float infinity to integer"]).
Proof. vm_compute. reflexivity. Qed.

(* ===================================================================== *)
(** * Further properties: error details and messages                     *)
(* ===================================================================== *)

(** X1: [_extract_error_details] raises exactly when the body is an
    object whose [errorDetails] is a non-empty list that does not start
    with an object, and what it raises is then [AttributeError]; on every
    other body it returns. *)
Theorem X1_extract_error_details_fails_iff (data : json) :
  ((exists e, _extract_error_details data = Raise e) <->
   (exists o first rest,
      data = JObj o /\
      lookup_key "errorDetails" o = Some (JList (first :: rest)) /\
      is_object first = false))
  /\
  (forall e, _extract_error_details data = Raise e -> kind e = AttributeError).
Proof.
  split; [split|].
  - intros (e & H). destruct data; simpl in H; try discriminate.
    unfold dict_get in H.
    destruct (lookup_key "errorDetails" items) as [ed|] eqn:E; [|discriminate].
    destruct ed; try discriminate.
    destruct l as [|first rest]; [discriminate|].
    exists items, first, rest. split; [reflexivity|]. split; [exact E|].
    destruct first; try reflexivity.
    simpl in H. destruct (truthy _); discriminate.
  - intros (o & first & rest & -> & E & Hf). simpl. unfold dict_get. rewrite E.
    destruct first; simpl in Hf; try discriminate; simpl; eauto.
  - intros e H. destruct data; simpl in H; try discriminate.
    unfold dict_get in H.
    destruct (lookup_key "errorDetails" items) as [ed|]; [|discriminate].
    destruct ed; try discriminate.
    destruct l as [|first rest]; [discriminate|].
    destruct first; simpl in H; try (inversion H; reflexivity).
    destruct (truthy _); discriminate.
Qed.

(** X2: for a response with a status of 400 or more other than 401 and
    408 whose body carries [errorDetails] as an object, or as a list that
    starts with an object (the rest of the list is not looked at),
    [_handle_http_error] raises [NSWFuelApiClientConnectionError] from 500
    on and [NSWFuelApiClientError] below, with the description of the
    details, else their message, else the default text naming the status
    and the reason; the client state is left as it is. *)
Theorem X2_error_message_selection (status : Z)
    (response : data_response) (attempt max_retries : Z) (s : state)
    (o edo : list (string * json)) :
  400 <= status -> status <> 401 -> status <> 408 ->
  (lookup_key "errorDetails" o = Some (JObj edo) \/
   exists rest, lookup_key "errorDetails" o = Some (JList (JObj edo :: rest))) ->
  _handle_http_error status (JObj o) response attempt max_retries s
  = (Raises
       (if (500 <=? status)%Z
        then Exn NSWFuelApiClientConnectionError
               (reported edo [PStr "Server error "; PVal (JInt status); PStr ": ";
                              PVal (JStr (d_reason response))])
        else Exn NSWFuelApiClientError
               (reported edo [PStr "HTTP error "; PVal (JInt status); PStr ": ";
                              PVal (JStr (d_reason response))])),
     s).
Proof.
  intros H400 H401 H408 Hed.
  assert (Hd : _extract_error_details (JObj o)
               = Ok (py_or (dict_get "description" edo) (dict_get "message" edo))).
  { unfold _extract_error_details, dict_get at 1.
    destruct Hed as [-> | (rest & ->)]; [reflexivity|].
    simpl. unfold py_or. destruct (truthy (dict_get "description" edo)); reflexivity. }
  unfold _handle_http_error, bind, lift. rewrite Hd.
  unfold details_or, reported, py_or.
  status_cases;
    destruct (truthy (dict_get "description" edo)) eqn:E1;
    rewrite ?E1; try reflexivity;
    destruct (truthy (dict_get "message" edo)) eqn:E2;
    rewrite ?E2; reflexivity.
Qed.

(** A 400 whose details carry a message and no description (the response of
    [test_get_reference_data_client_error]). *)
Lemma X2_error_message_selection_witness :
  let edo := [("code", JStr "-2146233033");
              ("message", JStr "String was not recognized as a valid DateTime.")] in
  let response := DataResponse 400 "Bad Request" (Ok JNull) (Ok "") in
  _handle_http_error 400 (JObj [("errorDetails", JObj edo)])
    response 0 1 init
  = (Raises (Exn NSWFuelApiClientError
               [PVal (JStr "String was not recognized as a valid DateTime.")]),
     init).
Proof.
  intros edo response.
  refine (X2_error_message_selection 400 response 0 1 init
            [("errorDetails", JObj edo)] edo _ _ _ _).
  - lia.
  - lia.
  - lia.
  - left. reflexivity.
Defined.

(* ===================================================================== *)
(** * Further properties: the token manager                              *)
(* ===================================================================== *)

Section MoreTokenProperties.
Context `{RT : Runtime} (W : World).

(** A validated token is a true value. *)
Lemma validated_token_Ok (o : auth_outcome) (tok : json) (z : Z) :
  validated_token o = Ok (tok, z) -> truthy tok = true.
Proof.
  unfold validated_token. intros H.
  destruct (token_exchange o) as [result|e]; [|discriminate]. cbn [rbind] in H.
  destruct (py_get result "access_token") as [access_token|e]; [|discriminate].
  cbn [rbind] in H.
  destruct (truthy access_token) eqn:Et; cbn [negb] in H; [|discriminate].
  destruct (get_expires_in result) as [raw|e]; [|discriminate]. cbn [rbind] in H.
  destruct (py_int raw) as [x|e]; [|discriminate]. cbn [rbind] in H.
  inversion H; subst. exact Et.
Qed.

Lemma needs_refresh_false (s : state) (now : Q) :
  needs_refresh s now = false -> truthy (token s) = true.
Proof.
  unfold needs_refresh. intros H. apply orb_false_iff in H.
  destruct H as [H _]. apply negb_false_iff in H. exact H.
Qed.

(** What a call of [_async_get_token] leaves behind: a refreshed token; a
    new token whose expiry could not be computed; a failed exchange; or the
    stored token. *)
Lemma _async_get_token_effect (s : state) :
  let now := clock W (clock_reads s) in
  let o := auth_endpoint W (token_requests s) in
  let r := _async_get_token W s in
  (exists tok z expiry,
     r = (Returns tok, refreshed tok expiry s) /\ truthy tok = true /\
     validated_token o = Ok (tok, z) /\ float_add_int now z = Some expiry /\
     needs_refresh s now = true)
  \/ (exists tok z,
        r = (Raises overflow, token_stored tok s) /\ truthy tok = true /\
        validated_token o = Ok (tok, z) /\ float_add_int now z = None /\
        needs_refresh s now = true)
  \/ (exists e, r = (Raises e, asked s) /\ validated_token o = Raise e /\
                needs_refresh s now = true)
  \/ (r = (Returns (token s), clocked s) /\ truthy (token s) = true /\
      needs_refresh s now = false).
Proof.
  cbv zeta. rewrite _async_get_token_cases. cbv zeta.
  destruct (needs_refresh s (clock W (clock_reads s))) eqn:En.
  - destruct (validated_token _) as [[tok z]|e] eqn:Ev.
    + pose proof (validated_token_Ok _ _ _ Ev) as Ht.
      destruct (float_add_int _ z) as [expiry|] eqn:Ef.
      * left. exists tok, z, expiry. repeat split; assumption.
      * right. left. exists tok, z. repeat split; assumption.
    + right. right. left. exists e. repeat split.
  - right. right. right. split; [reflexivity|]. split; [|reflexivity].
    exact (needs_refresh_false _ _ En).
Qed.

(** [_async_get_token] makes no pause. *)
Lemma _async_get_token_pauses (s : state) :
  pauses (snd (_async_get_token W s)) = pauses s.
Proof.
  destruct (_async_get_token_effect s)
    as [(tok & z & expiry & -> & _) | [(tok & z & -> & _) |
        [(e & -> & _) | (-> & _)]]]; reflexivity.
Qed.

End MoreTokenProperties.

(** X3: the token slot holds no token or a true value, and
    [_async_get_token] keeps it so; the token it returns is the one in the
    slot and is a true value, so that the test [if not token] of the
    pipeline never fires. *)
Theorem X3_token_slot_invariant `{RT : Runtime} (W : World) (s : state) :
  token_slot_ok s ->
  let r := _async_get_token W s in
  token_slot_ok (snd r) /\
  forall t, fst r = Returns t -> truthy t = true /\ t = token (snd r).
Proof.
  intros Hok. cbv zeta.
  destruct (_async_get_token_effect W s)
    as [(tok & z & expiry & -> & Ht & _) | [(tok & z & -> & Ht & _) |
        [(e & -> & _) | (-> & Ht & _)]]];
    cbn [fst snd].
  - split; [right; exact Ht|]. intros t H. inversion H; subst. split; [exact Ht|reflexivity].
  - split; [right; exact Ht|]. intros t H. discriminate.
  - split; [exact Hok|]. intros t H. discriminate.
  - split; [right; exact Ht|]. intros t H. inversion H; subst. split; [exact Ht|reflexivity].
Qed.

(** On a fresh client, served by the token endpoint of the test suite. *)
Lemma X3_token_slot_invariant_witness :
  let r := _async_get_token (RT := Reference.runtime)
             (Fixtures.served Fixtures.station_payload) init in
  token_slot_ok (snd r) /\
  forall t, fst r = Returns t -> truthy t = true /\ t = token (snd r).
Proof.
  apply (X3_token_slot_invariant (RT := Reference.runtime)
           (Fixtures.served Fixtures.station_payload) init).
  left. reflexivity.
Defined.

(** X4: when [_async_get_token] raises, the token exchange was attempted
    and the expiry is as it was.  The token slot is as it was too, with one
    exception: when the response was accepted and the sum
    [now + expires_in] overflowed, the slot already holds the new token,
    since the token is assigned before the expiry is computed.  So a
    refresh that fails for any other reason does not discard the stored
    token, and with no token in the slot the next call tries again. *)
Theorem X4_failed_refresh_effect `{RT : Runtime} (W : World)
    (s s1 : state) (e : exn) :
  _async_get_token W s = (Raises e, s1) ->
  token_expiry s1 = token_expiry s /\
  log s1 = EvTokenRequest :: EvClock :: log s /\
  (token s1 = token s \/
   exists tok z,
     validated_token (auth_endpoint W (token_requests s)) = Ok (tok, z) /\
     float_add_int (clock W (clock_reads s)) z = None /\
     e = overflow /\ token s1 = tok /\ truthy tok = true) /\
  (kind e <> OverflowError -> token s1 = token s) /\
  (truthy (token s1) = false -> performs_token_request W s1).
Proof.
  intros H.
  assert (Hp : truthy (token s1) = false -> performs_token_request W s1).
  { intros Hf. apply performs_token_request_iff. left. exact Hf. }
  pose proof (_async_get_token_effect W s) as He. cbv zeta in He.
  rewrite H in He.
  destruct He as [(tok & z & expiry & Hr & _) |
                  [(tok & z & Hr & Ht & Hv & Hf & _) |
                   [(e' & Hr & _) | (Hr & _)]]];
    inversion Hr; subst.
  - split; [reflexivity|]. split; [reflexivity|].
    split; [right; exists tok, z; repeat split; assumption|].
    split; [|exact Hp].
    intros Hk. exfalso. apply Hk. reflexivity.
  - split; [reflexivity|]. split; [reflexivity|].
    split; [left; reflexivity|]. split; [|exact Hp].
    intros _. reflexivity.
Qed.

(** The token endpoint rejects the credentials of a fresh client. *)
Lemma X4_failed_refresh_effect_witness :
  let W := Fixtures.world 1000
             (fun _ => AuthResponds
                (AuthResponse 401 "Unauthorized" "application/json"
                   (Ok (JObj [("error", JStr "invalid_client")])) (Ok "")))
             (fun _ => Fixtures.ok_json 200 "OK" JNull) in
  let s1 := asked init in
  token s1 = token init /\ token_expiry s1 = token_expiry init /\
  performs_token_request (RT := Reference.runtime) W s1.
Proof.
  intros W s1.
  destruct (X4_failed_refresh_effect (RT := Reference.runtime) W init s1
              (Exn NSWFuelApiClientAuthError
                 [PStr "Invalid NSW Fuel Check API credentials"]))
    as (He & _ & _ & Hk & Hp).
  - vm_compute. reflexivity.
  - split; [apply Hk; discriminate|]. split; [exact He|].
    apply Hp. reflexivity.
Defined.

(** The exception: a token granted for 10^309 seconds is stored, and the
    call raises [OverflowError]. *)
Example token_stored_without_expiry :
  let r := _async_get_token (RT := Reference.runtime) token_forever_world init in
  fst r = Raises overflow
  /\ snd r = token_stored (JStr "testtoken") init
  /\ token (snd r) <> token init.
Proof. vm_compute. repeat split. discriminate. Qed.

(** X5: after a token response that grants [z] seconds was accepted at
    time [now], the token is stored with the expiry that the sum [now + z]
    of a float and an int gives, and the next call of [_async_get_token],
    at time [now'], exchanges the credentials again if and only if
    [expiry - 60 < now'], so that the token is reused up to and including
    [expiry - 60].  Where the sum is exact, a token granted for less than
    sixty seconds is never reused when the clock does not run backwards. *)
Theorem X5_granted_lifetime `{RT : Runtime} (W : World) (s : state)
    (r : auth_response) (o : list (string * json)) (z : Z) (expiry : Q) :
  let now := clock W (clock_reads s) in
  let tok := dict_get "access_token" o in
  let s1 := refreshed tok expiry s in
  let now' := clock W (clock_reads s1) in
  needs_refresh s now = true ->
  auth_endpoint W (token_requests s) = AuthResponds r ->
  a_status r < 400 ->
  token_response_json r = Ok (JObj o) ->
  truthy tok = true ->
  granted_lifetime o z ->
  float_add_int now z = Some expiry ->
  _async_get_token W s = (Returns tok, s1)
  /\ (performs_token_request W s1 <-> (expiry - 60 < now')%Q)
  /\ ((now' <= expiry - 60)%Q ->
      _async_get_token W s1 = (Returns tok, clocked s1))
  /\ ((expiry == now + inject_Z z)%Q -> z < 60 -> (now <= now')%Q ->
      performs_token_request W s1).
Proof.
  intros now tok s1 now' Hn Ho Hs Hj Ht Hz Hf.
  assert (Hv : validated_token (AuthResponds r) = Ok (tok, z)).
  { destruct (token_exchange_outcomes r) as (_ & _ & _ & _ & H5).
    exact (H5 Hs o z Hj Ht Hz). }
  assert (Hiff : performs_token_request W s1 <-> (expiry - 60 < now')%Q).
  { rewrite performs_token_request_iff. fold now'.
    change (token s1) with tok. change (token_expiry s1) with expiry.
    rewrite Ht. split; [intros [H|H]; [discriminate | exact H] | auto]. }
  split; [|split; [exact Hiff | split]].
  - pose proof (_async_get_token_cases W s) as Hc. cbv zeta in Hc.
    fold now in Hc. rewrite Hn, Ho, Hv, Hf in Hc. exact Hc.
  - intros Hle. apply _async_get_token_reuse. fold now'.
    change (token s1) with tok. change (token_expiry s1) with expiry.
    rewrite Ht. intros [H|H]; [discriminate|]. lra.
  - intros Hex Hz60 Hclock. apply Hiff.
    assert (Hq : (inject_Z z < 60)%Q) by (unfold Qlt; simpl; lia).
    rewrite Hex. lra.
Qed.

(** The token of the test suite, granted for an hour at time 1000. *)
Lemma X5_granted_lifetime_witness :
  let W := Fixtures.served Fixtures.station_payload in
  let s1 := refreshed (JStr "testtoken") 4600 init in
  _async_get_token (RT := Reference.runtime) W init
  = (Returns (JStr "testtoken"), s1)
  /\ _async_get_token (RT := Reference.runtime) W s1
     = (Returns (JStr "testtoken"), clocked s1).
Proof.
  intros W s1.
  pose proof (X5_granted_lifetime (RT := Reference.runtime) W init
                (AuthResponse 200 "OK" "application/json"
                   (Ok (JObj [("access_token", JStr "testtoken");
                              ("expires_in", JInt 3600)])) (Ok ""))
                [("access_token", JStr "testtoken"); ("expires_in", JInt 3600)]
                3600 4600) as H.
  cbv zeta in H.
  destruct H as (H1 & _ & H2 & _);
    [reflexivity | reflexivity | reflexivity | reflexivity | reflexivity
    | reflexivity | vm_compute; reflexivity | ].
  split; [exact H1|].
  apply H2. vm_compute. discriminate.
Defined.

(* ===================================================================== *)
(** * Further properties: what a call costs                              *)
(* ===================================================================== *)

Section CostProperties.
Context `{RT : Runtime} (W : World).

Lemma bounded_run_trans (s s1 s2 : state) (d t p d' t' p' : nat) :
  bounded_run s s1 d t p -> bounded_run s1 s2 d' t' p' ->
  bounded_run s s2 (d + d') (t + t') (p + p').
Proof.
  intros (H1 & H2 & H3 & (l & H4) & H5) (G1 & G2 & G3 & (l' & G4) & G5).
  repeat split; try lia.
  - exists (l' ++ l). rewrite G4, H4, app_assoc. reflexivity.
  - intros H. apply G5, H5, H.
Qed.

Lemma bounded_run_weaken (s s' : state) (d t p d' t' p' : nat) :
  bounded_run s s' d t p -> (d <= d')%nat -> (t <= t')%nat -> (p <= p')%nat ->
  bounded_run s s' d' t' p'.
Proof.
  intros (H1 & H2 & H3 & H4 & H5) Hd Ht Hp. repeat split; try lia; assumption.
Qed.

Lemma bounded_run_get_token (s : state) :
  bounded_run s (snd (_async_get_token W s)) 0 1 0.
Proof.
  destruct (_async_get_token_effect W s)
    as [(tok & z & expiry & -> & Ht & _) | [(tok & z & -> & Ht & _) |
        [(e & -> & _) | (-> & Ht & _)]]];
    cbn [snd]; unfold bounded_run, refreshed, token_stored, asked, clocked;
    cbn [token log].
  - repeat split;
      try (unfold data_requests, token_requests, count; simpl; lia).
    + exists [EvTokenRequest; EvClock]. reflexivity.
    + intros _. right. exact Ht.
  - repeat split;
      try (unfold data_requests, token_requests, count; simpl; lia).
    + exists [EvTokenRequest; EvClock]. reflexivity.
    + intros _. right. exact Ht.
  - repeat split;
      try (unfold data_requests, token_requests, count; simpl; lia).
    + exists [EvTokenRequest; EvClock]. reflexivity.
    + intros H. exact H.
  - repeat split;
      try (unfold data_requests, token_requests, count; simpl; lia).
    + exists [EvClock]. reflexivity.
    + intros H. exact H.
Qed.

Lemma bounded_run_sent (rq : request) (s : state) :
  bounded_run s (sent rq s) 1 0 0.
Proof.
  unfold bounded_run, sent. cbn [token log].
  repeat split;
      try (unfold data_requests, token_requests, count; simpl; lia).
  - exists [EvRequest rq]. reflexivity.
  - intros H. exact H.
Qed.

Lemma bounded_run_paused (clear : bool) (rq : request) (s : state) :
  bounded_run s (paused clear rq s) 1 0 1.
Proof.
  unfold bounded_run, paused. cbn [token log].
  repeat split;
      try (unfold data_requests, token_requests, count; simpl; lia).
  - exists [EvSleep 500; EvRequest rq]. reflexivity.
  - intros H. destruct clear; [left; reflexivity | exact H].
Qed.

(** The cost of the last iteration of the loop. *)
Lemma request_loop_last_cost (fuel : nat) (method path : string) (n : Z) (s : state) :
  bounded_run s (snd (request_loop W (S fuel) method path n n s)) 1 1 0.
Proof.
  pose proof (bounded_run_get_token s) as Hg.
  destruct (_async_get_token W s) as [[t| e |] s1] eqn:Ht; cbn [snd] in Hg.
  - destruct (truthy t) eqn:Etr.
    + rewrite (request_loop_iteration W _ method path n n s s1 t
                 (Z.le_refl n) Ht Etr).
      cbv zeta.
      destruct (verdict_of _ n n) as [data|clear|e] eqn:Ev; cbn [snd].
      * exact (bounded_run_trans _ _ _ _ _ _ _ _ _ Hg (bounded_run_sent _ _)).
      * apply verdict_retry_attempt in Ev. lia.
      * exact (bounded_run_trans _ _ _ _ _ _ _ _ _ Hg (bounded_run_sent _ _)).
    + rewrite (request_loop_no_token W _ method path n n s s1 t
                 (Z.le_refl n) Ht Etr).
      cbn [snd]. refine (bounded_run_weaken _ _ _ _ _ _ _ _ Hg _ _ _); lia.
  - rewrite (request_loop_token_raises W _ method path n n s s1 e
               (Z.le_refl n) Ht).
    cbn [snd]. refine (bounded_run_weaken _ _ _ _ _ _ _ _ Hg _ _ _); lia.
  - destruct (_async_get_token_outcome W s) as (x & _ & [(y & Hy) | (y & Hy)]);
      rewrite Ht in Hy; discriminate.
Qed.

(** The cost of the loop from its first iteration. *)
Lemma request_loop_cost (fuel : nat) (method path : string) (s : state) :
  bounded_run s (snd (request_loop W (S (S fuel)) method path 0 1 s)) 2 2 1.
Proof.
  assert (H01 : (0 <= 1)%Z) by lia.
  pose proof (bounded_run_get_token s) as Hg.
  destruct (_async_get_token W s) as [[t| e |] s1] eqn:Ht; cbn [snd] in Hg.
  - destruct (truthy t) eqn:Etr.
    + rewrite (request_loop_iteration W _ method path 0 1 s s1 t H01 Ht Etr).
      cbv zeta.
      destruct (verdict_of _ 0 1) as [data|clear|e] eqn:Ev; cbn [snd].
      * refine (bounded_run_weaken _ _ _ _ _ _ _ _
                  (bounded_run_trans _ _ _ _ _ _ _ _ _ Hg (bounded_run_sent _ _))
                  _ _ _); cbn; lia.
      * change (0 + 1)%Z with 1%Z.
        pose proof (bounded_run_trans _ _ _ _ _ _ _ _ _ Hg
                      (bounded_run_paused clear
                         (Request (upper method) (BASE_URL ++ path) t) s1)) as H1.
        pose proof (bounded_run_trans _ _ _ _ _ _ _ _ _ H1
                      (request_loop_last_cost fuel method path 1 _)) as H2.
        exact H2.
      * refine (bounded_run_weaken _ _ _ _ _ _ _ _
                  (bounded_run_trans _ _ _ _ _ _ _ _ _ Hg (bounded_run_sent _ _))
                  _ _ _); cbn; lia.
    + rewrite (request_loop_no_token W _ method path 0 1 s s1 t H01 Ht Etr).
      cbn [snd]. refine (bounded_run_weaken _ _ _ _ _ _ _ _ Hg _ _ _); lia.
  - rewrite (request_loop_token_raises W _ method path 0 1 s s1 e H01 Ht).
    cbn [snd]. refine (bounded_run_weaken _ _ _ _ _ _ _ _ Hg _ _ _); lia.
  - destruct (_async_get_token_outcome W s) as (x & _ & [(y & Hy) | (y & Hy)]);
      rewrite Ht in Hy; discriminate.
Qed.

(** The statements after the loop leave the client as the loop left it. *)
Lemma _async_request_state (fuel : nat) (path method : string) (s : state) :
  snd (_async_request W fuel path method s)
  = snd (request_loop W fuel method path 0 1 s).
Proof.
  unfold _async_request. cbv zeta. unfold bind.
  destruct (request_loop W fuel method path 0 1 s) as [[[data|] | e |] s'];
    reflexivity.
Qed.

(** An operation leaves the client as the pipeline left it. *)
Lemma operation_state {A B} (wrap : exn -> msg) (m : M A)
    (k : A -> result B) (s : state) :
  snd (bind (reraise_or_wrap wrap m) (fun a => lift (k a)) s) = snd (m s).
Proof.
  unfold bind, reraise_or_wrap, try_except, lift, throw.
  destruct (m s) as [[a | e |] s']; cbn [snd].
  - destruct (k a); reflexivity.
  - destruct (is_domain (kind e)); reflexivity.
  - reflexivity.
Qed.

(** An operation runs out of fuel only if the pipeline does. *)
Lemma operation_fuel {A B} (wrap : exn -> msg) (m : M A)
    (k : A -> result B) (s : state) :
  fst (m s) <> NoFuel ->
  fst (bind (reraise_or_wrap wrap m) (fun a => lift (k a)) s) <> NoFuel.
Proof.
  unfold bind, reraise_or_wrap, try_except, lift, throw.
  destruct (m s) as [[a | e |] s']; cbn [fst]; intros H.
  - destruct (k a); discriminate.
  - destruct (is_domain (kind e)); discriminate.
  - contradiction.
Qed.

End CostProperties.

(** X6: whatever the transport does, a call of [_async_request] sends at
    most two data requests, makes at most two token exchanges and at most
    one pause, only adds to the log of the client, and leaves the token
    slot holding no token or a true value. *)
Theorem X6_request_cost `{RT : Runtime} (W : World) (fuel : nat)
    (path method : string) (s : state) :
  bounded_run s (snd (_async_request W (S (S fuel)) path method s)) 2 2 1.
Proof.
  rewrite _async_request_state. apply request_loop_cost.
Qed.

(** X7: each of the four operations, given fuel for two iterations,
    returns or raises, and costs what its one call of the pipeline costs:
    at most two data requests, two token exchanges and one pause; the
    validation and the deserialization of the response touch neither the
    token nor the transport. *)
Theorem X7_operation_cost `{RT : Runtime} (W : World) (fuel : nat)
    (station_code : string) (latitude longitude : pyfloat) (s : state) :
  let n := S (S fuel) in
  (fst (get_fuel_prices W n s) <> NoFuel /\
   bounded_run s (snd (get_fuel_prices W n s)) 2 2 1)
  /\
  (fst (get_fuel_prices_for_station W n station_code s) <> NoFuel /\
   bounded_run s (snd (get_fuel_prices_for_station W n station_code s)) 2 2 1)
  /\
  (fst (get_fuel_prices_within_radius W n latitude longitude s) <> NoFuel /\
   bounded_run s (snd (get_fuel_prices_within_radius W n latitude longitude s)) 2 2 1)
  /\
  (fst (get_reference_data W n s) <> NoFuel /\
   bounded_run s (snd (get_reference_data W n s)) 2 2 1).
Proof.
  cbv zeta.
  unfold get_fuel_prices, get_fuel_prices_for_station,
    get_fuel_prices_within_radius, get_reference_data.
  repeat split;
    try (apply operation_fuel; apply _async_request_bounded);
    rewrite operation_state, _async_request_state; apply request_loop_cost.
Qed.

(* ===================================================================== *)
(** * The retry and the classification of the status                     *)
(* ===================================================================== *)

Section DetailsProperties.
Context `{RT : Runtime} (W : World).

(** The verdict on a response whose [errorDetails] are a list that does
    not start with an object: reading the details fails before the status
    is looked at, and the handler of the [try] statement wraps the
    failure. *)
Lemma malformed_details_verdict (response : data_response)
    (o : list (string * json)) (first : json) (rest : list json)
    (attempt max_retries : Z) :
  _parse_response response = Ok (JObj o) ->
  lookup_key "errorDetails" o = Some (JList (first :: rest)) ->
  is_object first = false ->
  verdict_of (DataResponds response) attempt max_retries
  = VRaise (Exn NSWFuelApiClientError
              [PErr AttributeError [PStr "object has no attribute 'get'"]]).
Proof.
  intros Hp Hed Hf. unfold verdict_of. rewrite Hp.
  unfold _extract_error_details, dict_get. rewrite Hed.
  destruct first; simpl in Hf; try discriminate; reflexivity.
Qed.

(** The iteration of the loop that meets such a response ends the call. *)
Lemma malformed_details_end (fuel : nat) (method path : string)
    (attempt : Z) (s s1 : state) (t : json) (response : data_response)
    (o : list (string * json)) (first : json) (rest : list json) :
  (attempt <= 1)%Z ->
  _async_get_token W s = (Returns t, s1) ->
  truthy t = true ->
  data_endpoint W (data_requests s1) (Request (upper method) (BASE_URL ++ path) t)
    = DataResponds response ->
  _parse_response response = Ok (JObj o) ->
  lookup_key "errorDetails" o = Some (JList (first :: rest)) ->
  is_object first = false ->
  request_loop W (S fuel) method path attempt 1 s
  = (Raises (Exn NSWFuelApiClientError
               [PErr AttributeError [PStr "object has no attribute 'get'"]]),
     sent (Request (upper method) (BASE_URL ++ path) t) s1).
Proof.
  intros Hle Htok Ht Hresp Hp Hed Hf.
  rewrite (request_loop_iteration W fuel method path attempt 1 s s1 t Hle Htok Ht).
  cbv zeta. rewrite Hresp.
  rewrite (malformed_details_verdict response o first rest attempt 1 Hp Hed Hf).
  reflexivity.
Qed.

(** [_async_get_token] sends no data request. *)
Lemma _async_get_token_data_requests (s s1 : state) (t : json) :
  _async_get_token W s = (Returns t, s1) -> data_requests s1 = data_requests s.
Proof.
  intros Htok.
  destruct (_async_get_token_outcome W s) as (x & Hx & [(y & Hy) | (y & Hy)]);
    rewrite Htok in Hy; inversion Hy; subst.
  exact Hx.
Qed.

End DetailsProperties.

(** C5: for every request whose response body parses and yields its error
    details (the body is no object, or its [errorDetails] are absent, an
    object, or a list that is empty or starts with an object), the status
    decides: 408 on the first attempt leads, after a pause of 500 ms and
    with the token kept, to the second attempt, and 408 on the second
    attempt raises [NSWFuelApiClientConnectionError]; a status of 500 or
    more raises [NSWFuelApiClientConnectionError] at once; a status from
    400 to 499 other than 401 and 408 raises [NSWFuelApiClientError], whose
    argument is the description of the [errorDetails] when the body
    supplies one; a status below 400 returns the parsed body at once.  But
    when the [errorDetails] are a list that does not start with an object,
    [_extract_error_details], which runs before the status is looked at,
    fails on [ed[0].get]; the failure is wrapped into
    [NSWFuelApiClientError] whatever the status: a 500 does not raise
    [NSWFuelApiClientConnectionError], and the body of a 200 is not
    returned. *)
Theorem C5_classification_and_details_leak :
  (forall (RT : Runtime) (W : World) (fuel : nat)
          (method path : string) (attempt : Z) (s s1 : state) (t : json)
          (response : data_response) (data details : json),
     attempt = 0 \/ attempt = 1 ->
     _async_get_token W s = (Returns t, s1) ->
     truthy t = true ->
     data_endpoint W (data_requests s1)
       (Request (upper method) (BASE_URL ++ path) t) = DataResponds response ->
     _parse_response response = Ok data ->
     _extract_error_details data = Ok details ->
     let rq := Request (upper method) (BASE_URL ++ path) t in
     let status := d_status response in
     let run := request_loop W (S fuel) method path attempt 1 s in
     (status = 408 -> attempt = 0 ->
      run = request_loop W fuel method path 1 1 (paused false rq s1)
      /\ token (paused false rq s1) = token s1
      /\ log (paused false rq s1) = EvSleep 500 :: EvRequest rq :: log s1)
     /\
     (status = 408 -> attempt = 1 ->
      run = (Raises (Exn NSWFuelApiClientConnectionError
                       (details_or details [PStr "Request timed out after retry."])),
             sent rq s1))
     /\
     (500 <= status ->
      run = (Raises (Exn NSWFuelApiClientConnectionError
                       (details_or details
                          [PStr "Server error "; PVal (JInt status); PStr ": ";
                           PVal (JStr (d_reason response))])),
             sent rq s1))
     /\
     (400 <= status < 500 -> status <> 401 -> status <> 408 ->
      run = (Raises (Exn NSWFuelApiClientError
                       (details_or details
                          [PStr "HTTP error "; PVal (JInt status); PStr ": ";
                           PVal (JStr (d_reason response))])),
             sent rq s1)
      /\ forall description,
           supplies_description data description ->
           run = (Raises (Exn NSWFuelApiClientError [PVal description]), sent rq s1))
     /\
     (status < 400 -> run = (Returns (Returned data), sent rq s1))
     /\
     (attempt = 1 -> snd run = sent rq s1)
     /\
     log (sent rq s1) = EvRequest rq :: log s1)
  /\
  (forall (RT : Runtime) (W : World) (fuel : nat)
          (method path : string) (attempt : Z) (s s1 : state) (t : json)
          (response : data_response) (o : list (string * json))
          (first : json) (rest : list json),
     attempt = 0 \/ attempt = 1 ->
     _async_get_token W s = (Returns t, s1) ->
     truthy t = true ->
     data_endpoint W (data_requests s1)
       (Request (upper method) (BASE_URL ++ path) t) = DataResponds response ->
     _parse_response response = Ok (JObj o) ->
     lookup_key "errorDetails" o = Some (JList (first :: rest)) ->
     is_object first = false ->
     request_loop W (S fuel) method path attempt 1 s
     = (Raises (Exn NSWFuelApiClientError
                  [PErr AttributeError [PStr "object has no attribute 'get'"]]),
        sent (Request (upper method) (BASE_URL ++ path) t) s1))
  /\
  (let body := JObj [("errorDetails", JList [JInt 5])] in
   let served status reason :=
     fst (_async_request (RT := Reference.runtime)
            (Fixtures.answered status reason body) 2 PRICES_ENDPOINT "GET" init) in
   let leak := Raises (Exn NSWFuelApiClientError
                         [PErr AttributeError
                            [PStr "object has no attribute 'get'"]]) in
   served 500 "Internal Server Error" = leak
   /\ served 200 "OK" = leak
   /\ fst (_async_request (RT := Reference.runtime)
             (Fixtures.answered 500 "Internal Server Error" JNull) 2
             PRICES_ENDPOINT "GET" init)
      = Raises (Exn NSWFuelApiClientConnectionError
                  [PStr "Server error "; PVal (JInt 500); PStr ": ";
                   PVal (JStr "Internal Server Error")])
   /\ fst (_async_request (RT := Reference.runtime)
             (Fixtures.answered 200 "OK" JNull) 2 PRICES_ENDPOINT "GET" init)
      = Returns JNull).
Proof.
  split; [|split].
  - intros RT W fuel method path attempt s s1 t response data details
      Hatt Htok Ht Hresp Hparse Hdet rq status run.
    assert (Hle : attempt <= 1) by lia.
    pose proof (request_loop_iteration W fuel method path attempt 1 s s1 t
                  Hle Htok Ht) as Hit.
    cbv zeta in Hit. fold rq run in Hit. fold rq in Hresp.
    rewrite Hresp, (verdict_of_response response data details attempt 1 Hparse Hdet)
      in Hit.
    cbv zeta in Hit. fold status in Hit.
    split; [|split; [|split; [|split; [|split; [|split]]]]].
    + intros Hs Ha. rewrite Hit, Hs, Ha. repeat split.
    + intros Hs Ha. rewrite Hit, Hs, Ha. reflexivity.
    + intros Hs. rewrite Hit. clear Hit. status_cases. reflexivity.
    + intros Hs H401 H408.
      assert (Hrun : run = (Raises (Exn NSWFuelApiClientError
                        (details_or details
                           [PStr "HTTP error "; PVal (JInt status); PStr ": ";
                            PVal (JStr (d_reason response))])), sent rq s1)).
      { rewrite Hit. clear Hit. status_cases. reflexivity. }
      split; [exact Hrun|].
      intros description Hsup.
      pose proof (supplies_description_details data description Hsup) as Hd'.
      rewrite Hdet in Hd'. inversion Hd'; subst details.
      rewrite Hrun, details_or_truthy by (destruct Hsup; assumption).
      reflexivity.
    + intros Hs. rewrite Hit. clear Hit. status_cases. reflexivity.
    + intros Ha. rewrite Hit, Ha. clear Hit. status_cases; reflexivity.
    + reflexivity.
  - intros RT W fuel method path attempt s s1 t response o first rest
      Hatt Htok Ht Hresp Hp Hed Hf.
    apply (malformed_details_end W fuel method path attempt s s1 t response
             o first rest); try assumption. lia.
  - vm_compute. repeat split.
Qed.

(** The response of [test_get_fuel_prices_for_station_client_error], with
    status 404: the description of the error details is what is raised. *)
Example description_reported :
  let description := JStr "Invalid service station code" in
  let body := JObj [("errorDetails",
                     JList [JObj [("code", JStr "E0014");
                                  ("description", description)]])] in
  fst (_async_request (RT := Reference.runtime)
         (Fixtures.answered 404 "Not Found" body) 2 PRICES_ENDPOINT "GET" init)
  = Raises (Exn NSWFuelApiClientError [PVal description]).
Proof. vm_compute. reflexivity. Qed.

(** ** The retry on 401 *)

(** C4: for every request whose first response has status 401, a body
    that parses and error details that extract, the pipeline clears the
    cached token, pauses for 500 ms and makes exactly one retry, which
    starts by a token exchange; at most two requests are made in all; and
    when the response to the retry is again a 401 (with details that
    extract) the pipeline raises [NSWFuelApiClientAuthError].  But when the
    [errorDetails] of a 401 are a list that does not start with an object,
    [_extract_error_details], which runs before the status is looked at,
    fails on [ed[0].get]: the pipeline raises [NSWFuelApiClientError] after
    that one request, the token is not cleared, and there is neither a
    pause nor a retry nor an [NSWFuelApiClientAuthError]. *)
Theorem C4_unauthorized_retry_and_details_leak :
  (forall (RT : Runtime) (W : World) (fuel : nat)
          (method path : string) (s s1 : state) (t : json)
          (response : data_response) (data details : json),
     _async_get_token W s = (Returns t, s1) ->
     truthy t = true ->
     data_endpoint W (data_requests s1)
       (Request (upper method) (BASE_URL ++ path) t) = DataResponds response ->
     d_status response = 401 ->
     _parse_response response = Ok data ->
     _extract_error_details data = Ok details ->
     let rq := Request (upper method) (BASE_URL ++ path) t in
     let s2 := paused true rq s1 in
     request_loop W (S (S fuel)) method path 0 1 s
       = request_loop W (S fuel) method path 1 1 s2
     /\ token s2 = JNull
     /\ log s2 = EvSleep 500 :: EvRequest rq :: log s1
     /\ performs_token_request W s2
     /\ (data_requests (snd (_async_request W (S (S fuel)) path method s))
         <= data_requests s + 2)%nat
     /\ forall t' s3 response' data' details',
          _async_get_token W s2 = (Returns t', s3) ->
          truthy t' = true ->
          data_endpoint W (data_requests s3)
            (Request (upper method) (BASE_URL ++ path) t') = DataResponds response' ->
          d_status response' = 401 ->
          _parse_response response' = Ok data' ->
          _extract_error_details data' = Ok details' ->
          _async_request W (S (S fuel)) path method s
          = (Raises (Exn NSWFuelApiClientAuthError
                       (details_or details'
                          [PStr "Authentication failed during request."])),
             sent (Request (upper method) (BASE_URL ++ path) t') s3)
          /\ data_requests (sent (Request (upper method) (BASE_URL ++ path) t') s3)
             = (data_requests s + 2)%nat)
  /\
  (forall (RT : Runtime) (W : World) (fuel : nat)
          (method path : string) (s s1 : state) (t : json)
          (response : data_response) (o : list (string * json))
          (first : json) (rest : list json),
     _async_get_token W s = (Returns t, s1) ->
     truthy t = true ->
     data_endpoint W (data_requests s1)
       (Request (upper method) (BASE_URL ++ path) t) = DataResponds response ->
     d_status response = 401 ->
     _parse_response response = Ok (JObj o) ->
     lookup_key "errorDetails" o = Some (JList (first :: rest)) ->
     is_object first = false ->
     let rq := Request (upper method) (BASE_URL ++ path) t in
     _async_request W (S fuel) path method s
     = (Raises (Exn NSWFuelApiClientError
                  [PErr AttributeError [PStr "object has no attribute 'get'"]]),
        sent rq s1)
     /\ token (sent rq s1) = token s1
     /\ data_requests (sent rq s1) = S (data_requests s)
     /\ pauses (sent rq s1) = pauses s)
  /\
  (let twice :=
     _async_request (RT := Reference.runtime)
       (Fixtures.answered 401 "Unauthorized" JNull) 2 PRICES_ENDPOINT "GET" init in
   let body := JObj [("errorDetails", JList [JStr "expired"])] in
   let r := _async_request (RT := Reference.runtime)
              (Fixtures.answered 401 "Unauthorized" body) 2
              PRICES_ENDPOINT "GET" init in
   fst twice = Raises (Exn NSWFuelApiClientAuthError
                         [PStr "Authentication failed during request."])
   /\ data_requests (snd twice) = 2%nat
   /\ token_requests (snd twice) = 2%nat
   /\ fst r = Raises (Exn NSWFuelApiClientError
                        [PErr AttributeError [PStr "object has no attribute 'get'"]])
   /\ token (snd r) = JStr "testtoken"
   /\ data_requests (snd r) = 1%nat
   /\ token_requests (snd r) = 1%nat
   /\ pauses (snd r) = 0%nat).
Proof.
  split; [|split].
  - intros RT W fuel method path s s1 t response data details
      Htok Ht Hresp Hst Hparse Hdet rq s2.
    assert (H01 : 0 <= 1) by lia.
    pose proof (request_loop_iteration W (S fuel) method path 0 1 s s1 t
                  H01 Htok Ht) as Hit.
    cbv zeta in Hit. fold rq in Hit, Hresp.
    rewrite Hresp, (verdict_of_response response data details 0 1 Hparse Hdet),
      Hst in Hit.
    cbv zeta in Hit. unfold HTTP_UNAUTHORIZED in Hit.
    change (401 =? 401)%Z with true in Hit. change (0 <? 1)%Z with true in Hit.
    cbv iota in Hit. change (0 + 1) with 1 in Hit. fold s2 in Hit.
    split; [exact Hit|]. split; [reflexivity|]. split; [reflexivity|].
    split; [apply performs_token_request_iff; left; reflexivity|].
    split; [apply _async_request_bounded|].
    intros t' s3 response' data' details' Htok' Ht' Hresp' Hst' Hparse' Hdet'.
    assert (H11 : 1 <= 1) by lia.
    pose proof (request_loop_iteration W fuel method path 1 1 s2 s3 t'
                  H11 Htok' Ht') as Hit'.
    cbv zeta in Hit'.
    rewrite Hresp', (verdict_of_response response' data' details' 1 1 Hparse' Hdet'),
      Hst' in Hit'.
    cbv zeta in Hit'. unfold HTTP_UNAUTHORIZED in Hit'.
    change (401 =? 401)%Z with true in Hit'. change (1 <? 1)%Z with false in Hit'.
    cbv iota in Hit'.
    split.
    + unfold _async_request. cbv zeta. unfold bind. rewrite Hit, Hit'. reflexivity.
    + rewrite data_requests_sent.
      rewrite (_async_get_token_data_requests W s2 s3 t' Htok').
      unfold s2. rewrite data_requests_paused.
      rewrite (_async_get_token_data_requests W s s1 t Htok). lia.
  - intros RT W fuel method path s s1 t response o first rest
      Htok Ht Hresp Hst Hp Hed Hf rq.
    assert (H01 : 0 <= 1) by lia.
    split; [|split; [|split]].
    + unfold _async_request. cbv zeta. unfold bind.
      rewrite (malformed_details_end W fuel method path 0 s s1 t response
                 o first rest H01 Htok Ht Hresp Hp Hed Hf).
      reflexivity.
    + reflexivity.
    + rewrite data_requests_sent.
      rewrite (_async_get_token_data_requests W s s1 t Htok). reflexivity.
    + change (pauses (sent rq s1)) with (pauses s1).
      pose proof (_async_get_token_pauses W s) as Hps.
      rewrite Htok in Hps. exact Hps.
  - vm_compute. repeat split.
Qed.

(* ===================================================================== *)
(** * Further properties: retries and transport failures                 *)
(* ===================================================================== *)

(** X8: the 401 and the 408 share the one retry.  When both responses
    have a body that parses and error details that extract, the first
    response is a 401 or a 408 and the response to the retry is again one
    of the two, in whatever combination, the pipeline raises the error of
    the second status (the authentication error for 401, the connection
    error for 408) after exactly two requests and one pause; the token was
    cleared before the retry only if the first status was 401. *)
Theorem X8_shared_retry `{RT : Runtime} (W : World) (fuel : nat)
    (method path : string) (s s1 s3 : state) (t t' : json)
    (response response' : data_response) (data details data' details' : json) :
  let rq := Request (upper method) (BASE_URL ++ path) t in
  let rq' := Request (upper method) (BASE_URL ++ path) t' in
  let s2 := paused (d_status response =? 401)%Z rq s1 in
  _async_get_token W s = (Returns t, s1) ->
  truthy t = true ->
  data_endpoint W (data_requests s1) rq = DataResponds response ->
  _parse_response response = Ok data ->
  _extract_error_details data = Ok details ->
  d_status response = 401 \/ d_status response = 408 ->
  _async_get_token W s2 = (Returns t', s3) ->
  truthy t' = true ->
  data_endpoint W (data_requests s3) rq' = DataResponds response' ->
  _parse_response response' = Ok data' ->
  _extract_error_details data' = Ok details' ->
  d_status response' = 401 \/ d_status response' = 408 ->
  _async_request W (S (S fuel)) path method s
  = (Raises (final_error (d_status response') details'), sent rq' s3)
  /\ data_requests (sent rq' s3) = (data_requests s + 2)%nat
  /\ pauses (sent rq' s3) = (pauses s + 1)%nat
  /\ (d_status response = 408 -> token s2 = token s1)
  /\ (d_status response = 401 -> token s2 = JNull).
Proof.
  intros rq rq' s2 Htok Ht Hresp Hparse Hdet Hst Htok' Ht' Hresp' Hparse' Hdet' Hst'.
  assert (H01 : (0 <= 1)%Z) by lia.
  assert (H11 : (1 <= 1)%Z) by lia.
  pose proof (request_loop_iteration W (S fuel) method path 0 1 s s1 t
                H01 Htok Ht) as Hit.
  cbv zeta in Hit. fold rq in Hit.
  rewrite Hresp, (verdict_of_response response data details 0 1 Hparse Hdet) in Hit.
  cbv zeta in Hit.
  assert (Hit1 : request_loop W (S (S fuel)) method path 0 1 s
                 = request_loop W (S fuel) method path 1 1 s2).
  { rewrite Hit. unfold s2. clear Hit.
    destruct Hst as [-> | ->]; reflexivity. }
  pose proof (request_loop_iteration W fuel method path 1 1 s2 s3 t'
                H11 Htok' Ht') as Hit'.
  cbv zeta in Hit'. fold rq' in Hit'.
  rewrite Hresp', (verdict_of_response response' data' details' 1 1 Hparse' Hdet')
    in Hit'.
  cbv zeta in Hit'.
  assert (Hit2 : request_loop W (S fuel) method path 1 1 s2
                 = (Raises (final_error (d_status response') details'),
                    sent rq' s3)).
  { rewrite Hit'. unfold final_error. clear Hit'.
    destruct Hst' as [-> | ->]; reflexivity. }
  split; [|split; [|split; [|split]]].
  - unfold _async_request. cbv zeta. unfold bind. rewrite Hit1, Hit2. reflexivity.
  - rewrite data_requests_sent.
    destruct (_async_get_token_outcome W s2) as (x & Hx & [(y & Hy) | (y & Hy)]);
      rewrite Htok' in Hy; inversion Hy; subst.
    rewrite Hx. unfold s2. rewrite data_requests_paused.
    destruct (_async_get_token_outcome W s) as (x' & Hx' & [(y' & Hy') | (y' & Hy')]);
      rewrite Htok in Hy'; inversion Hy'; subst.
    rewrite Hx'. lia.
  - change (pauses (sent rq' s3)) with (pauses s3).
    pose proof (_async_get_token_pauses W s2) as Hp2. rewrite Htok' in Hp2.
    pose proof (_async_get_token_pauses W s) as Hp1. rewrite Htok in Hp1.
    cbn [snd] in Hp1, Hp2. rewrite Hp2.
    change (pauses s2) with (S (pauses s1)). rewrite Hp1. lia.
  - intros E. unfold s2. rewrite E. reflexivity.
  - intros E. unfold s2. rewrite E. reflexivity.
Qed.

(** A 401 followed by a 408. *)
Lemma X8_shared_retry_witness :
  let W := Fixtures.world 1000 (fun _ => Fixtures.mock_token)
             (fun n => match n with
                       | O => Fixtures.ok_json 401 "Unauthorized" JNull
                       | _ => Fixtures.ok_json 408 "Request Timeout" JNull
                       end) in
  let r := _async_request (RT := Reference.runtime) W 2 PRICES_ENDPOINT "GET" init in
  fst r = Raises (Exn NSWFuelApiClientConnectionError
                    [PStr "Request timed out after retry."])
  /\ data_requests (snd r) = 2%nat.
Proof.
  intros W r.
  pose (rq := Request "GET" (BASE_URL ++ PRICES_ENDPOINT) (JStr "testtoken")).
  pose (s1 := snd (_async_get_token (RT := Reference.runtime) W init)).
  pose (s3 := snd (_async_get_token (RT := Reference.runtime) W (paused true rq s1))).
  pose proof (X8_shared_retry (RT := Reference.runtime) W 0
                "GET" PRICES_ENDPOINT init s1 s3 (JStr "testtoken") (JStr "testtoken")
                (DataResponse 401 "Unauthorized" (Ok JNull) (Ok ""))
                (DataResponse 408 "Request Timeout" (Ok JNull) (Ok ""))
                JNull JNull JNull JNull) as H.
  cbv zeta in H.
  destruct H as (Hr & Hn & _);
    [vm_compute; reflexivity | reflexivity | reflexivity | reflexivity
    | reflexivity | left; reflexivity | vm_compute; reflexivity | reflexivity
    | reflexivity | reflexivity | reflexivity | right; reflexivity | ].
  unfold r. rewrite Hr. split; [reflexivity | exact Hn].
Defined.

(** X9: when the transport itself raises on the first attempt (a
    connection failure, a timeout of the session), the pipeline does not
    retry: after that one request it raises the exception wrapped into
    [NSWFuelApiClientError] with its text, or as it is if it is one of the
    three client errors.  A connection failure is thus reported as
    [NSWFuelApiClientError], not as [NSWFuelApiClientConnectionError]. *)
Theorem X9_transport_failure_not_retried `{RT : Runtime} (W : World) (fuel : nat)
    (method path : string) (s s1 : state) (t : json) (e : exn) :
  let rq := Request (upper method) (BASE_URL ++ path) t in
  _async_get_token W s = (Returns t, s1) ->
  truthy t = true ->
  data_endpoint W (data_requests s1) rq = DataRaises e ->
  _async_request W (S fuel) path method s
  = (Raises (if is_domain (kind e) then e
             else Exn NSWFuelApiClientError [str_of e]),
     sent rq s1)
  /\ data_requests (sent rq s1) = S (data_requests s)
  /\ pauses (sent rq s1) = pauses s1.
Proof.
  intros rq Htok Ht Hresp.
  assert (H01 : (0 <= 1)%Z) by lia.
  pose proof (request_loop_iteration W fuel method path 0 1 s s1 t
                H01 Htok Ht) as Hit.
  cbv zeta in Hit. fold rq in Hit. rewrite Hresp in Hit.
  cbn [verdict_of] in Hit. unfold guarded in Hit.
  split; [|split].
  - unfold _async_request. cbv zeta. unfold bind. rewrite Hit. reflexivity.
  - rewrite data_requests_sent.
    destruct (_async_get_token_outcome W s) as (x' & Hx' & [(y' & Hy') | (y' & Hy')]);
      rewrite Htok in Hy'; inversion Hy'; subst.
    rewrite Hx'. reflexivity.
  - reflexivity.
Qed.

(** The connection is refused. *)
Lemma X9_transport_failure_not_retried_witness :
  let refused := Exn (OtherError "ClientConnectorError") [PStr "Connection refused"] in
  let W := Fixtures.world 1000 (fun _ => Fixtures.mock_token)
             (fun _ => DataRaises refused) in
  fst (_async_request (RT := Reference.runtime) W 1 PRICES_ENDPOINT "GET" init)
  = Raises (Exn NSWFuelApiClientError
              [PErr (OtherError "ClientConnectorError") [PStr "Connection refused"]]).
Proof.
  intros refused W.
  pose (s1 := snd (_async_get_token (RT := Reference.runtime) W init)).
  pose proof (X9_transport_failure_not_retried (RT := Reference.runtime) W 0
                "GET" PRICES_ENDPOINT init s1 (JStr "testtoken") refused) as H.
  cbv zeta in H.
  destruct H as (Hr & _);
    [vm_compute; reflexivity | reflexivity | reflexivity | ].
  rewrite Hr. reflexivity.
Defined.

(* ===================================================================== *)
(** * Further properties: the records of dto.py                          *)
(* ===================================================================== *)

Section RecordProperties.
Context `{RT : Runtime}.

Lemma py_getitem_obj (o : list (string * json)) (k : string) (v : json) :
  py_getitem (JObj o) k = Ok v <-> lookup_key k o = Some v.
Proof.
  simpl. destruct (lookup_key k o) as [x|]; split; intros H;
    try discriminate; inversion H; reflexivity.
Qed.

Lemma Price_lastupdated_text (o : list (string * json)) (s : string) :
  lookup_key "lastupdated" o = Some (JStr s) ->
  Price_lastupdated (JObj o) = Ok (parsed_date s).
Proof.
  intros Hl. unfold Price_lastupdated, parsed_date. simpl. rewrite Hl. simpl.
  destruct (strptime s "%d/%m/%Y %H:%M:%S") as [d|]; simpl; [reflexivity|].
  destruct (strptime s "%Y-%m-%d %H:%M:%S") as [d|]; reflexivity.
Qed.

Lemma Price_lastupdated_Ok (data : json) (lu : option datetime) :
  Price_lastupdated data = Ok lu ->
  exists o s, data = JObj o /\ lookup_key "lastupdated" o = Some (JStr s)
              /\ lu = parsed_date s.
Proof.
  intros H.
  destruct data; try (unfold Price_lastupdated in H; simpl in H; discriminate).
  destruct (lookup_key "lastupdated" items) as [v|] eqn:El.
  - destruct v;
      try (unfold Price_lastupdated in H; simpl in H; rewrite El in H;
           simpl in H; discriminate).
    rewrite (Price_lastupdated_text items s El) in H. inversion H.
    exists items, s. repeat split. exact El.
  - rewrite (Price_lastupdated_absent items El) in H. discriminate.
Qed.

End RecordProperties.

(** X10: [Price.deserialize] returns a price exactly when the entry is an
    object with a text under [lastupdated], with [fueltype] and [price]
    present, and with [stationcode] absent or convertible by [int];
    [priceunit] is optional.  The price then carries the values of
    [fueltype] and [price] as they are, the date the text parses to (first
    format first, null if neither matches), the [priceunit] or null, and
    the station code, which is null exactly when the key is absent. *)
Theorem X10_Price_deserialize_iff `{RT : Runtime} (data : json) (p : Price) :
  Price_deserialize data = Ok p <->
  exists o s ft pr,
    data = JObj o /\
    lookup_key "lastupdated" o = Some (JStr s) /\
    lookup_key "fueltype" o = Some ft /\
    lookup_key "price" o = Some pr /\
    match lookup_key "stationcode" o with
    | Some v => exists z, py_int v = Ok z /\ station_code p = Some z
    | None => station_code p = None
    end /\
    p = mkPrice ft pr (parsed_date s) (dict_get "priceunit" o) (station_code p).
Proof.
  split.
  - unfold Price_deserialize. intros H.
    apply rbind_Ok in H. destruct H as (lu & Hlu & H).
    destruct (Price_lastupdated_Ok data lu Hlu) as (o & s & -> & Hl & ->).
    exists o, s. unfold Price_build in H. simpl in H.
    destruct (lookup_key "stationcode" o) as [v|] eqn:Ec; simpl in H.
    + destruct (py_int v) as [z|e] eqn:Ez; simpl in H; [|discriminate].
      destruct (lookup_key "fueltype" o) as [ft|]; simpl in H; [|discriminate].
      destruct (lookup_key "price" o) as [pr|]; simpl in H; [|discriminate].
      inversion H; subst. exists ft, pr. simpl. repeat split; try assumption.
      exists z. split; reflexivity.
    + destruct (lookup_key "fueltype" o) as [ft|]; simpl in H; [|discriminate].
      destruct (lookup_key "price" o) as [pr|]; simpl in H; [|discriminate].
      inversion H; subst. exists ft, pr. simpl. repeat split; assumption.
  - intros (o & s & ft & pr & -> & Hl & Hft & Hpr & Hc & Hp).
    unfold Price_deserialize. rewrite (Price_lastupdated_text o s Hl).
    cbn [rbind]. unfold Price_build. simpl.
    destruct (lookup_key "stationcode" o) as [v|] eqn:Ec; simpl.
    + destruct Hc as (z & Hz & Hsc). rewrite Hz. simpl.
      rewrite Hft. simpl. rewrite Hpr. simpl. rewrite Hp, Hsc. reflexivity.
    + rewrite Hft. simpl. rewrite Hpr. simpl. rewrite Hp, Hc. reflexivity.
Qed.

(** X11: [Station.deserialize] returns a station exactly when the entry is
    an object with [brand], [name], [address], a [code] convertible by
    [int], and a [location] that can be subscripted with [latitude] and
    [longitude]; [stationid] and [state] are optional and never make it
    fail.  The station carries those values, the [stationid] or null, and
    the state or "NSW". *)
Theorem X11_Station_deserialize_iff `{RT : Runtime} (data : json) (st : Station) :
  Station_deserialize data = Ok st <->
  exists o b c n a loc la lo,
    data = JObj o /\
    lookup_key "brand" o = Some b /\
    lookup_key "code" o = Some c /\ py_int c = Ok (code st) /\
    lookup_key "name" o = Some n /\
    lookup_key "address" o = Some a /\
    lookup_key "location" o = Some loc /\
    py_getitem loc "latitude" = Ok la /\
    py_getitem loc "longitude" = Ok lo /\
    st = mkStation (dict_get "stationid" o) b (code st) n a la lo
           (py_or (dict_get "state" o) (JStr "NSW")).
Proof.
  split.
  - intros H. unfold Station_deserialize in H.
    apply rbind_Ok in H. destruct H as (i & Ei & H).
    apply py_get_Ok in Ei. destruct Ei as (o & -> & ->).
    invert_steps.
    repeat match goal with
    | E : py_getitem (JObj o) _ = Ok _ |- _ => apply py_getitem_obj in E
    end.
    match goal with E : py_get (JObj o) "state" = Ok _ |- _ =>
      simpl in E; inversion E; subst end.
    match goal with
    | E1 : lookup_key "location" o = Some ?x,
      E2 : lookup_key "location" o = Some ?y |- _ =>
        rewrite E1 in E2; inversion E2; subst
    end.
    eexists o, _, _, _, _, _, _, _. simpl.
    repeat (split; [first [reflexivity | eassumption]|]). reflexivity.
  - intros (o & b & c & n & a & loc & la & lo & -> & Hb & Hc & Hz & Hn & Ha
            & Hloc & Hla & Hlo & Hst).
    unfold Station_deserialize. simpl.
    rewrite Hb. simpl. rewrite Hc. simpl. rewrite Hz. simpl.
    rewrite Hn. simpl. rewrite Ha. simpl. rewrite Hloc. simpl.
    rewrite Hla. simpl. rewrite Hlo. simpl. rewrite Hst at 2. reflexivity.
Qed.

(* ===================================================================== *)
(** * Further properties: lists of records                               *)
(* ===================================================================== *)

Section ListProperties.
Context {A B : Type} (f : A -> result B).

(** A list comprehension returns the results of its elements, in order. *)
Lemma rmap_Ok (xs : list A) (ys : list B) :
  rmap f xs = Ok ys <-> Forall2 (fun x y => f x = Ok y) xs ys.
Proof.
  revert ys. induction xs as [|x xs IH]; intros ys; simpl.
  - split; intros H; [inversion H; constructor | inversion H; reflexivity].
  - split.
    + intros H. apply rbind_Ok in H. destruct H as (y & Ey & H).
      apply rbind_Ok in H. destruct H as (ys' & Eys & H).
      inversion H; subst. constructor; [exact Ey | apply IH; exact Eys].
    + intros H. inversion H as [|? y ? ys' Hy Hys]; subst.
      rewrite Hy. simpl. apply IH in Hys. rewrite Hys. reflexivity.
Qed.

(** It raises what its first failing element raises. *)
Lemma rmap_Raise (pre : list A) (x : A) (rest : list A) (e : exn) :
  Forall (fun y => exists b, f y = Ok b) pre ->
  f x = Raise e ->
  rmap f (pre ++ x :: rest) = Raise e.
Proof.
  induction 1 as [|y pre (b & Hy) _ IH]; intros Hx; simpl.
  - rewrite Hx. reflexivity.
  - rewrite Hy. simpl. rewrite (IH Hx). reflexivity.
Qed.

End ListProperties.

Lemma get_fuel_prices_for_station_after_request `{RT : Runtime} (W : World)
    (fuel : nat) (station_code : string) (s s' : state) (response : json) :
  _async_request W fuel (PRICE_ENDPOINT_format station_code) "GET" s
    = (Returns response, s') ->
  get_fuel_prices_for_station W fuel station_code s
  = lift (get_fuel_prices_for_station_result station_code response) s'.
Proof.
  intros H. unfold get_fuel_prices_for_station.
  erewrite bind_Returns; [reflexivity|].
  apply reraise_or_wrap_Returns. exact H.
Qed.

(** X12: when the pipeline returns an object whose [prices] is a non-empty
    list, [get_fuel_prices_for_station] returns exactly the prices its
    entries deserialize to, as many and in the same order; and if an entry
    does not deserialize, the call raises what the first such entry raises:
    a malformed entry is not skipped here. *)
Theorem X12_station_prices_in_order `{RT : Runtime} (W : World) (fuel : nat)
    (station_code : string) (s s' : state)
    (o : list (string * json)) (prs : list json) :
  _async_request W fuel (PRICE_ENDPOINT_format station_code) "GET" s
    = (Returns (JObj o), s') ->
  lookup_key "prices" o = Some (JList prs) ->
  prs <> [] ->
  (forall result,
     get_fuel_prices_for_station W fuel station_code s = (Returns result, s') <->
     Forall2 (fun entry p => Price_deserialize entry = Ok p) prs result)
  /\
  (forall pre entry rest e,
     prs = pre ++ entry :: rest ->
     Forall (fun y => exists p, Price_deserialize y = Ok p) pre ->
     Price_deserialize entry = Raise e ->
     get_fuel_prices_for_station W fuel station_code s = (Raises e, s')).
Proof.
  intros Hreq Hp Hne.
  rewrite (get_fuel_prices_for_station_after_request W fuel station_code s s' _ Hreq).
  assert (Hres : get_fuel_prices_for_station_result station_code (JObj o)
                 = rmap Price_deserialize prs).
  { unfold get_fuel_prices_for_station_result.
    rewrite (truthy_JObj_lookup _ _ _ Hp). simpl.
    unfold not_in. simpl. rewrite Hp. simpl.
    unfold dict_get. rewrite Hp.
    destruct prs as [|x xs]; [contradiction|]. reflexivity. }
  rewrite Hres. unfold lift. split.
  - intros result. rewrite <- rmap_Ok.
    destruct (rmap Price_deserialize prs) as [ys|e]; split; intros H;
      try discriminate; inversion H; reflexivity.
  - intros pre entry rest e -> Hpre He.
    rewrite (rmap_Raise Price_deserialize pre entry rest e Hpre He). reflexivity.
Qed.

(** The payload of [test_get_fuel_prices_for_station]. *)
Lemma X12_station_prices_in_order_witness :
  let W := Fixtures.served Fixtures.station_payload in
  let s' := snd (_async_request (RT := Reference.runtime) W 2
                   (PRICE_ENDPOINT_format "1000") "GET" init) in
  get_fuel_prices_for_station (RT := Reference.runtime) W 2 "1000" init
  = (Returns
       [mkPrice (JStr "E10") (Fixtures.num 1469 10)
          (Some (Datetime 2018 6 2 2 3 4)) JNull None;
        mkPrice (JStr "P95") (Fixtures.num 150 1)
          (Some (Datetime 2018 6 2 2 3 4)) JNull None], s').
Proof.
  intros W s'.
  pose proof (X12_station_prices_in_order (RT := Reference.runtime) W 2 "1000"
                init s'
                [("prices",
                  JList [JObj [("fueltype", JStr "E10"); ("price", Fixtures.num 1469 10);
                               ("lastupdated", JStr "02/06/2018 02:03:04")];
                         JObj [("fueltype", JStr "P95"); ("price", Fixtures.num 150 1);
                               ("lastupdated", JStr "02/06/2018 02:03:04")]])]
                [JObj [("fueltype", JStr "E10"); ("price", Fixtures.num 1469 10);
                       ("lastupdated", JStr "02/06/2018 02:03:04")];
                 JObj [("fueltype", JStr "P95"); ("price", Fixtures.num 150 1);
                       ("lastupdated", JStr "02/06/2018 02:03:04")]]) as H.
  destruct H as (H & _); [vm_compute; reflexivity | reflexivity | discriminate | ].
  apply H. repeat constructor.
Defined.

(** X13: [get_fuel_prices_for_station] raises [NSWFuelApiClientError]
    naming the station when the pipeline returns an empty response or an
    object without [prices] ("Malformed or empty response"), and when
    [prices] is there but empty or null ("No price data found"). *)
Theorem X13_station_prices_rejected `{RT : Runtime} (W : World) (fuel : nat)
    (station_code : string) (s s' : state) (response : json) :
  _async_request W fuel (PRICE_ENDPOINT_format station_code) "GET" s
    = (Returns response, s') ->
  (is_empty response \/ lacks "prices" response ->
   get_fuel_prices_for_station W fuel station_code s
   = (Raises (Exn NSWFuelApiClientError
                [PStr "Malformed or empty response for station ";
                 PVal (JStr station_code)]), s'))
  /\
  (forall o v, response = JObj o -> lookup_key "prices" o = Some v ->
   truthy v = false ->
   get_fuel_prices_for_station W fuel station_code s
   = (Raises (Exn NSWFuelApiClientError
                [PStr "No price data found for station ";
                 PVal (JStr station_code)]), s')).
Proof.
  intros Hreq.
  rewrite (get_fuel_prices_for_station_after_request W fuel station_code s s' _ Hreq).
  unfold get_fuel_prices_for_station_result, is_empty, lacks. split.
  - intros [He | (o & -> & Hk)].
    + rewrite He. reflexivity.
    + destruct (truthy (JObj o)); simpl; [|reflexivity].
      unfold not_in. simpl. rewrite Hk. reflexivity.
  - intros o v -> Hk Hv.
    rewrite (truthy_JObj_lookup _ _ _ Hk). simpl.
    unfold not_in. simpl. rewrite Hk. simpl.
    unfold dict_get. rewrite Hk, Hv. reflexivity.
Qed.

(** The empty object of [test_get_fuel_prices_for_station_empty_response]. *)
Lemma X13_station_prices_rejected_witness :
  let W := Fixtures.served (JObj []) in
  fst (get_fuel_prices_for_station (RT := Reference.runtime) W 2 "12345" init)
  = Raises (Exn NSWFuelApiClientError
              [PStr "Malformed or empty response for station ";
               PVal (JStr "12345")]).
Proof.
  intros W.
  pose proof (X13_station_prices_rejected (RT := Reference.runtime) W 2 "12345"
                init
                (snd (_async_request (RT := Reference.runtime) W 2
                        (PRICE_ENDPOINT_format "12345") "GET" init))
                (JObj [])) as H.
  destruct H as (H & _); [vm_compute; reflexivity|].
  rewrite H; [reflexivity | left; reflexivity].
Defined.

(** X14: when the pipeline returns an object whose [stations] and [prices]
    are lists, [get_fuel_prices] returns exactly the stations and the
    prices their entries deserialize to, each list as long as its source
    and in the same order; the two lists are not cross-checked. *)
Theorem X14_fuel_prices_in_order `{RT : Runtime} (W : World) (fuel : nat)
    (s s' : state) (o : list (string * json)) (sts prs : list json) :
  _async_request W fuel PRICES_ENDPOINT "GET" s = (Returns (JObj o), s') ->
  lookup_key "stations" o = Some (JList sts) ->
  lookup_key "prices" o = Some (JList prs) ->
  forall r,
    get_fuel_prices W fuel s = (Returns r, s') <->
    Forall2 (fun entry st => Station_deserialize entry = Ok st) sts (resp_stations r)
    /\ Forall2 (fun entry p => Price_deserialize entry = Ok p) prs (resp_prices r).
Proof.
  intros Hreq Hs Hp r.
  rewrite (get_fuel_prices_after_request W fuel s s' _ Hreq).
  assert (Hres : get_fuel_prices_result (JObj o)
                 = (let? stations := rmap Station_deserialize sts in
                    let? prices := rmap Price_deserialize prs in
                    Ok (mkGetFuelPricesResponse stations prices))).
  { unfold get_fuel_prices_result.
    rewrite (truthy_JObj_lookup _ _ _ Hs). simpl.
    unfold not_in. simpl. rewrite Hs, Hp. simpl.
    unfold GetFuelPricesResponse_deserialize. simpl. rewrite Hs. simpl.
    destruct (rmap Station_deserialize sts); simpl; [|reflexivity].
    rewrite Hp. reflexivity. }
  rewrite Hres. unfold lift. rewrite <- !rmap_Ok.
  destruct (rmap Station_deserialize sts) as [stations|e]; simpl.
  - destruct (rmap Price_deserialize prs) as [prices|e]; simpl.
    + split.
      * intros H. inversion H; subst. split; reflexivity.
      * intros (H1 & H2). inversion H1; inversion H2; subst.
        destruct r; reflexivity.
    + split; [discriminate | intros (_ & H); discriminate].
  - split; [discriminate | intros (H & _); discriminate].
Qed.

(** Two stations, and a price that names neither. *)
Lemma X14_fuel_prices_in_order_witness :
  let o := [("stations", JList Fixtures.malformed_stations);
            ("prices", JList [Fixtures.nearby_price 999 (Fixtures.num 1409 10)])] in
  let W := Fixtures.served (JObj o) in
  let s' := snd (_async_request (RT := Reference.runtime) W 2
                   PRICES_ENDPOINT "GET" init) in
  get_fuel_prices (RT := Reference.runtime) W 2 init
  = (Returns
       (mkGetFuelPricesResponse
          [mkStation (JStr "SAAAAAA") (JStr "Cool Fuel Brand") 678
             (JStr "Cool Fuel Brand Luxembourg") (JStr "123 Fake Street")
             (Fixtures.num (-33987) 1000) (Fixtures.num 151334 1000) (JStr "NSW");
           mkStation (JStr "SAAAAAB") (JStr "Fake Fuel Brand2") 880
             (JStr "Fake Fuel Brand2 Luxembourg") (JStr "123 Fake Street")
             (Fixtures.num (-33687) 1000) (Fixtures.num 151234 1000) (JStr "NSW")]
          [mkPrice (JStr "P95") (Fixtures.num 1409 10)
             (Some (Datetime 2018 6 2 0 46 31)) (JStr "litre") (Some 999)]),
     s').
Proof.
  intros o W s'.
  apply (X14_fuel_prices_in_order (RT := Reference.runtime) W 2 init s' o
           Fixtures.malformed_stations
           [Fixtures.nearby_price 999 (Fixtures.num 1409 10)]).
  - vm_compute. reflexivity.
  - reflexivity.
  - reflexivity.
  - split; repeat constructor.
Defined.

(* ===================================================================== *)
(** * Further properties: the join of stations and prices                *)
(* ===================================================================== *)

Section MoreJoinProperties.
Context `{RT : Runtime}.

Lemma Station_deserialize_key (station : json) (st : Station) :
  Station_deserialize station = Ok st -> station_key station = Ok (code st).
Proof.
  unfold Station_deserialize, station_key. intros H.
  invert_steps. simpl.
  match goal with E : py_getitem station "code" = Ok _ |- _ => rewrite E end.
  simpl. assumption.
Qed.

Lemma build_stations_step (station : json) (rest : list json)
    (acc m : gmap Z Station) :
  build_stations (station :: rest) acc = Ok m ->
  exists st, Station_deserialize station = Ok st /\
             build_stations rest (<[code st := st]> acc) = Ok m.
Proof.
  simpl. intros H. invert_steps.
  exists v1. split; [exact E1|].
  pose proof (Station_deserialize_key _ _ E1) as Hk.
  unfold station_key in Hk. rewrite E in Hk. simpl in Hk. rewrite E0 in Hk.
  inversion Hk; subst. exact H.
Qed.

Lemma build_stations_app (l1 l2 : list json) (acc m : gmap Z Station) :
  build_stations (l1 ++ l2) acc = Ok m ->
  exists m1, build_stations l1 acc = Ok m1 /\ build_stations l2 m1 = Ok m.
Proof.
  revert acc. induction l1 as [|x l1 IH]; intros acc H.
  - exists acc. split; [reflexivity | exact H].
  - change ((x :: l1) ++ l2) with (x :: (l1 ++ l2)) in H.
    destruct (build_stations_step _ _ _ _ H) as (st & Hst & Hrest).
    destruct (IH _ Hrest) as (m1 & H1 & H2).
    exists m1. split; [|exact H2].
    simpl. pose proof (Station_deserialize_key _ _ Hst) as Hk.
    unfold station_key in Hk.
    destruct (py_getitem x "code") as [c|e]; simpl in Hk; [|discriminate].
    simpl. rewrite Hk. simpl. rewrite Hst. simpl. exact H1.
Qed.

(** A station in the lookup stays there unless a later entry has its code. *)
Lemma build_stations_keeps (l : list json) (acc m : gmap Z Station)
    (c : Z) (st : Station) :
  build_stations l acc = Ok m ->
  acc !! c = Some st ->
  (forall x, In x l -> station_key x <> Ok c) ->
  m !! c = Some st.
Proof.
  revert acc. induction l as [|x l IH]; intros acc H Hacc Hno.
  - simpl in H. inversion H; subst. exact Hacc.
  - destruct (build_stations_step _ _ _ _ H) as (st' & Hst' & Hrest).
    apply (IH _ Hrest).
    + rewrite lookup_insert_ne; [exact Hacc|].
      intros Heq. apply (Hno x (or_introl eq_refl)).
      rewrite (Station_deserialize_key _ _ Hst'), Heq. reflexivity.
    + intros y Hy. apply Hno. right. exact Hy.
Qed.

(** A code in the lookup stays in the lookup. *)
Lemma build_stations_grows (l : list json) (acc m : gmap Z Station) (c : Z) :
  build_stations l acc = Ok m -> is_Some (acc !! c) -> is_Some (m !! c).
Proof.
  revert acc. induction l as [|x l IH]; intros acc H Hacc.
  - simpl in H. inversion H; subst. exact Hacc.
  - destruct (build_stations_step _ _ _ _ H) as (st' & Hst' & Hrest).
    apply (IH _ Hrest).
    destruct (decide (code st' = c)) as [->|Hne].
    + rewrite lookup_insert_eq. eauto.
    + rewrite lookup_insert_ne by exact Hne. exact Hacc.
Qed.

Lemma join_prices_sound (m : gmap Z Station) (prs : list json) :
  forall acc res,
    join_prices m prs acc = Ok res ->
    exists new,
      res = acc ++ new /\ (length new <= length prs)%nat /\
      Forall (fun sp =>
                exists entry c,
                  In entry prs /\ Price_deserialize entry = Ok (sp_price sp) /\
                  station_code (sp_price sp) = Some c /\
                  m !! c = Some (sp_station sp)) new.
Proof.
  induction prs as [|entry rest IH]; intros acc res H; simpl in H.
  - inversion H; subst. exists []. rewrite app_nil_r.
    split; [reflexivity|]. split; [simpl; lia | constructor].
  - assert (Hskip : forall res',
              join_prices m rest acc = Ok res' ->
              exists new,
                res' = acc ++ new /\ (length new <= length (entry :: rest))%nat /\
                Forall (fun sp =>
                          exists entry0 c,
                            In entry0 (entry :: rest) /\
                            Price_deserialize entry0 = Ok (sp_price sp) /\
                            station_code (sp_price sp) = Some c /\
                            m !! c = Some (sp_station sp)) new).
    { intros res' H'. destruct (IH _ _ H') as (new & -> & Hlen & Hall).
      exists new. split; [reflexivity|]. split; [simpl; lia|].
      eapply Forall_impl; [exact Hall|]. cbv beta.
      intros sp (e0 & c & Hin & Hd & Hc & Hm). exists e0, c.
      repeat split; try assumption. right. exact Hin. }
    unfold join_price in H.
    destruct (Price_deserialize entry) as [p|e] eqn:Ep; simpl in H.
    + destruct (station_code p) as [c|] eqn:Ec; [|exact (Hskip _ H)].
      destruct (m !! c) as [st|] eqn:Em; [|exact (Hskip _ H)].
      destruct (IH _ _ H) as (new & -> & Hlen & Hall).
      exists (mkStationPrice p st :: new).
      split; [rewrite <- app_assoc; reflexivity|].
      split; [simpl; lia|].
      constructor.
      * exists entry, c. simpl. repeat split; try assumption. left. reflexivity.
      * eapply Forall_impl; [exact Hall|]. cbv beta.
        intros sp (e0 & c0 & Hin & Hd & Hc & Hm). exists e0, c0.
        repeat split; try assumption. right. exact Hin.
    + destruct (is_Key_Type_Value (kind e)); [exact (Hskip _ H) | discriminate].
Qed.

(** The lookup holds, under every code, the station that belongs to it. *)
Lemma build_stations_lookup (l : list json) :
  forall acc m,
    build_stations l acc = Ok m ->
    forall c, m !! c = match station_for l c with
                       | Some st => Some st
                       | None => acc !! c
                       end.
Proof.
  induction l as [|x l IH]; intros acc m H c.
  - simpl in H. inversion H; subst. reflexivity.
  - destruct (build_stations_step _ _ _ _ H) as (st & Hst & Hrest).
    rewrite (IH _ _ Hrest c). cbn [station_for].
    destruct (station_for l c) as [st'|]; [reflexivity|].
    unfold carries. rewrite (Station_deserialize_key _ _ Hst), Hst.
    destruct (Z.eqb_spec (code st) c) as [->|Hne].
    + apply lookup_insert_eq.
    + apply lookup_insert_ne. exact Hne.
Qed.

(** The station that belongs to a code carries it, and comes from an
    entry of the list. *)
Lemma station_for_sound (l : list json) (c : Z) (st : Station) :
  station_for l c = Some st ->
  code st = c /\ exists station, In station l /\ Station_deserialize station = Ok st.
Proof.
  induction l as [|x l IH]; simpl; [discriminate|].
  destruct (station_for l c) as [st'|].
  - intros H. inversion H; subst st'.
    destruct (IH eq_refl) as (Hc & y & Hin & Hy).
    split; [exact Hc|]. exists y. split; [right; exact Hin | exact Hy].
  - unfold carries.
    destruct (station_key x) as [k|e] eqn:Hk; [|discriminate].
    destruct (Z.eqb_spec k c) as [->|Hne]; [|discriminate].
    destruct (Station_deserialize x) as [st'|e] eqn:Hd; [|discriminate].
    intros H. inversion H; subst st'. split.
    + rewrite (Station_deserialize_key _ _ Hd) in Hk. congruence.
    + exists x. split; [left; reflexivity | exact Hd].
Qed.

(** The lookup is built when every station entry deserializes. *)
Lemma build_stations_total (l : list json) :
  Forall (fun station => exists st, Station_deserialize station = Ok st) l ->
  forall acc, exists m, build_stations l acc = Ok m.
Proof.
  induction 1 as [|x l (st & Hst) _ IH]; intros acc; simpl.
  - eauto.
  - pose proof (Station_deserialize_key _ _ Hst) as Hk.
    unfold station_key in Hk.
    destruct (py_getitem x "code") as [c|e]; simpl in Hk; [|discriminate].
    simpl. rewrite Hk. simpl. rewrite Hst. simpl. apply IH.
Qed.

(** [str.join] accepts names that are texts, and fails with [TypeError]
    otherwise. *)
Lemma names_from_texts (sps : list StationPrice) :
  Forall named_by_text sps -> forall i, exists names, names_from i sps = Ok names.
Proof.
  induction 1 as [|sp sps (text & Hn) _ IH]; intros i; simpl.
  - eauto.
  - rewrite Hn. destruct (IH (i + 1)) as (names & ->). simpl. eauto.
Qed.

Lemma station_names_texts (sps : list StationPrice) :
  Forall named_by_text sps -> exists text, station_names sps = Ok text.
Proof.
  intros H. unfold station_names.
  destruct (names_from_texts sps H 0) as (names & ->). simpl. eauto.
Qed.

Lemma names_from_Ok (sps : list StationPrice) :
  forall i names, names_from i sps = Ok names -> Forall named_by_text sps.
Proof.
  induction sps as [|sp sps IH]; intros i names En.
  - constructor.
  - simpl in En.
    destruct (name (sp_station sp)) as [| | | |text| |] eqn:Hname;
      try discriminate.
    destruct (names_from (i + 1) sps) as [names'|e] eqn:En'; [|discriminate].
    constructor; [exists text; exact Hname | exact (IH _ _ En')].
Qed.

Lemma names_from_error (sps : list StationPrice) :
  forall i e, names_from i sps = Raise e -> kind e = TypeError.
Proof.
  induction sps as [|sp sps IH]; intros i e; simpl; [discriminate|].
  destruct (name (sp_station sp)); try (intros H; inversion H; reflexivity).
  destruct (names_from (i + 1) sps) as [names|e'] eqn:E; simpl; [discriminate|].
  intros H. inversion H; subst. exact (IH _ _ E).
Qed.

Lemma station_names_error (sps : list StationPrice) (e : exn) :
  station_names sps = Raise e -> kind e = TypeError.
Proof.
  unfold station_names.
  destruct (names_from 0 sps) as [names|e'] eqn:E; simpl; [discriminate|].
  intros H. inversion H; subst. exact (names_from_error _ _ _ E).
Qed.

(** What [get_fuel_prices_within_radius] computes from two non-empty lists. *)
Lemma get_fuel_prices_within_radius_result_lists (W : World)
    (latitude longitude : pyfloat)
    (o : list (string * json)) (sts prs : list json) :
  lookup_key "stations" o = Some (JList sts) -> sts <> [] ->
  lookup_key "prices" o = Some (JList prs) -> prs <> [] ->
  get_fuel_prices_within_radius_result W latitude longitude (JObj o)
  = (let? stations := build_stations sts ∅ in
     let? station_prices := join_prices stations prs [] in
     let? _ := if debug_enabled W then station_names station_prices else Ok "" in
     Ok station_prices).
Proof.
  intros Hs Hsne Hp Hpne.
  unfold get_fuel_prices_within_radius_result.
  rewrite (truthy_JObj_lookup _ _ _ Hs). simpl.
  unfold not_in. simpl. rewrite Hs, Hp. simpl.
  unfold dict_get. rewrite Hs, Hp. simpl.
  destruct sts as [|st0 sts']; [contradiction|].
  destruct prs as [|pr0 prs']; [contradiction|].
  reflexivity.
Qed.

End MoreJoinProperties.

(** C6: for every response to [get_fuel_prices_within_radius] with
    non-empty [stations] and [prices] lists whose station entries
    deserialize, the operation builds the lookup from integer station code
    to [Station], which holds under every code the station of the last
    entry that carries it, and the result is, in the order of the price
    list, one [StationPrice] for each price entry that has a station code
    present in the lookup; price entries that fail to deserialize with a
    key, type or value error contribute nothing and do not make the call
    fail.  But that result is only returned if the logger is not enabled
    for [DEBUG] or the names of its stations are texts: otherwise the
    [", ".join] of the names in the closing debug statement raises
    [TypeError], which reaches the caller as it is. *)
Theorem C6_radius_join_and_debug_leak :
  (forall (RT : Runtime) (W : World) (fuel : nat)
          (latitude longitude : pyfloat) (s s' : state)
          (o : list (string * json)) (sts prs : list json),
     _async_request W fuel NEARBY_ENDPOINT "POST" s = (Returns (JObj o), s') ->
     lookup_key "stations" o = Some (JList sts) -> sts <> [] ->
     lookup_key "prices" o = Some (JList prs) -> prs <> [] ->
     Forall (fun station => exists st, Station_deserialize station = Ok st) sts ->
     Forall deserializes_or_skipped prs ->
     exists stations,
       build_stations sts ∅ = Ok stations
       /\ (forall c, stations !! c = station_for sts c)
       /\ (forall c st, station_for sts c = Some st ->
             code st = c /\
             exists station, In station sts /\ Station_deserialize station = Ok st)
       /\ (let result := join_spec stations prs in
           let run := get_fuel_prices_within_radius W fuel latitude longitude s in
           (debug_enabled W = false \/ Forall named_by_text result ->
            run = (Returns result, s'))
           /\
           (debug_enabled W = true -> ~ Forall named_by_text result ->
            exists m, run = (Raises (Exn TypeError m), s'))))
  /\
  (let body := JObj Fixtures.nearby_items_malformed in
   match fst (get_fuel_prices_within_radius (RT := Reference.runtime)
                (Fixtures.served body) 2
                (FFinite (-33 # 1)) (FFinite (151 # 1)) init) with
   | Returns result =>
       List.map (fun sp => (code (sp_station sp), price (sp_price sp))) result
       = [(880, Fixtures.num 1559 10); (678, Fixtures.num 1509 10)]
   | _ => False
   end)
  /\
  (let body := JObj [("stations", JList [Fixtures.station_named (JInt 7)]);
                     ("prices", JList [Fixtures.nearby_price 678
                                         (Fixtures.num 1509 10)])] in
   let W := Fixtures.with_debug (Fixtures.served body) in
   fst (get_fuel_prices_within_radius (RT := Reference.runtime) W 2
          (FFinite (-33 # 1)) (FFinite (151 # 1)) init)
   = Raises (Exn TypeError [PStr "sequence item "; PVal (JInt 0);
                            PStr ": expected str instance, "; PStr "int";
                            PStr " found"])
   /\ is_domain TypeError = false
   /\
   match fst (get_fuel_prices_within_radius (RT := Reference.runtime)
                (Fixtures.served body) 2
                (FFinite (-33 # 1)) (FFinite (151 # 1)) init) with
   | Returns result => List.length result = 1%nat
   | _ => False
   end).
Proof.
  split; [|split].
  - intros RT W fuel latitude longitude s s' o sts prs
      Hreq Hs Hsne Hp Hpne Hsts Hprs.
    destruct (build_stations_total sts Hsts ∅) as (stations & Hb).
    exists stations. split; [exact Hb|].
    split.
    { intros c. rewrite (build_stations_lookup sts ∅ stations Hb c).
      destruct (station_for sts c); [reflexivity | apply lookup_empty]. }
    split; [intros c st; apply station_for_sound|].
    cbv zeta.
    rewrite (get_fuel_prices_within_radius_after_request
               W fuel latitude longitude s s' (JObj o) Hreq).
    rewrite (get_fuel_prices_within_radius_result_lists
               W latitude longitude o sts prs Hs Hsne Hp Hpne).
    rewrite Hb. cbn [rbind].
    rewrite (join_prices_spec stations prs Hprs []). cbn [rbind app].
    unfold lift. split.
    + intros [Hd | Hn].
      * rewrite Hd. reflexivity.
      * destruct (debug_enabled W); [|reflexivity].
        destruct (station_names_texts _ Hn) as (text & ->). reflexivity.
    + intros Hd Hn. rewrite Hd.
      destruct (station_names (join_spec stations prs)) as [text|e] eqn:E.
      * exfalso. apply Hn. unfold station_names in E.
        destruct (names_from 0 (join_spec stations prs)) as [names|e] eqn:En;
          [|discriminate].
        exact (names_from_Ok _ _ _ En).
      * pose proof (station_names_error _ _ E) as Hk.
        destruct e as [k m]. simpl in Hk. subst k.
        exists m. reflexivity.
  - vm_compute. reflexivity.
  - vm_compute. repeat split.
Qed.

(** With names that are texts the debug statement changes nothing: the
    payload of [test_get_fuel_prices_within_radius] gives its three station
    prices with the logger enabled for [DEBUG]. *)
Example debug_logging_keeps_result :
  let W := Fixtures.with_debug (Fixtures.served Fixtures.nearby_payload) in
  match fst (get_fuel_prices_within_radius (RT := Reference.runtime) W 2
               (FFinite (-33 # 1)) (FFinite (151 # 1)) init) with
  | Returns result => List.length result = 3%nat
  | _ => False
  end.
Proof. vm_compute. reflexivity. Qed.

(** X15: every [StationPrice] that [get_fuel_prices_within_radius]
    returns pairs a price that a price entry of the response deserializes
    to with a station that a station entry deserializes to, and the station
    code of the price is the code of the station; there are at most as
    many station prices as price entries. *)
Theorem X15_join_is_consistent `{RT : Runtime} (W : World) (fuel : nat)
    (latitude longitude : pyfloat) (s s' : state)
    (o : list (string * json)) (sts prs : list json) (result : list StationPrice) :
  _async_request W fuel NEARBY_ENDPOINT "POST" s = (Returns (JObj o), s') ->
  lookup_key "stations" o = Some (JList sts) -> sts <> [] ->
  lookup_key "prices" o = Some (JList prs) -> prs <> [] ->
  get_fuel_prices_within_radius W fuel latitude longitude s
    = (Returns result, s') ->
  Forall (joined sts prs) result /\ (length result <= length prs)%nat.
Proof.
  intros Hreq Hs Hsne Hp Hpne Hres.
  rewrite (get_fuel_prices_within_radius_after_request
             W fuel latitude longitude s s' (JObj o) Hreq) in Hres.
  rewrite (get_fuel_prices_within_radius_result_lists
             W latitude longitude o sts prs Hs Hsne Hp Hpne) in Hres.
  unfold lift in Hres.
  destruct (build_stations sts ∅) as [m|e] eqn:Hb; cbn [rbind] in Hres;
    [|discriminate].
  destruct (join_prices m prs []) as [res|e] eqn:Hj; cbn [rbind] in Hres;
    [|discriminate].
  destruct (if debug_enabled W then station_names res else Ok "");
    cbn [rbind] in Hres; [|discriminate].
  inversion Hres; subst res.
  destruct (join_prices_sound m prs [] result Hj) as (new & Hnew & Hlen & Hall).
  simpl in Hnew. subst new. split; [|exact Hlen].
  eapply Forall_impl; [exact Hall|]. cbv beta.
  intros sp (entry & c & Hin & Hd & Hc & Hm).
  destruct (build_stations_sound sts ∅ m Hb c (sp_station sp) Hm)
    as [He | (Hcode & station & Hins & Hds)].
  - rewrite lookup_empty in He. discriminate.
  - unfold joined. rewrite Hc, Hcode. repeat split; eauto.
Qed.

(** The response with malformed price entries. *)
Lemma X15_join_is_consistent_witness :
  let W := Fixtures.served (JObj Fixtures.nearby_items_malformed) in
  let result :=
    match fst (get_fuel_prices_within_radius (RT := Reference.runtime) W 2
                 (FFinite (-33 # 1)) (FFinite (151 # 1)) init) with
    | Returns result => result
    | _ => []
    end in
  Forall (joined (RT := Reference.runtime)
            Fixtures.malformed_stations Fixtures.malformed_prices) result
  /\ (length result <= length Fixtures.malformed_prices)%nat.
Proof.
  intros W result.
  apply (X15_join_is_consistent (RT := Reference.runtime) W 2
           (FFinite (-33 # 1)) (FFinite (151 # 1)) init
           (snd (_async_request (RT := Reference.runtime) W 2
                   NEARBY_ENDPOINT "POST" init))
           Fixtures.nearby_items_malformed
           Fixtures.malformed_stations Fixtures.malformed_prices result).
  - vm_compute. reflexivity.
  - reflexivity.
  - discriminate.
  - reflexivity.
  - discriminate.
  - vm_compute. reflexivity.
Defined.

(** X16: in the lookup that [get_fuel_prices_within_radius] builds, a code
    maps to the last station entry that carries it: an entry is found under
    its code unless a later entry has the same code, and in any case some
    station is found under the code of every entry. *)
Theorem X16_last_station_wins `{RT : Runtime} (before : list json)
    (station : json) (after : list json) (m : gmap Z Station) (st : Station) :
  build_stations (before ++ station :: after) ∅ = Ok m ->
  Station_deserialize station = Ok st ->
  is_Some (m !! code st) /\
  ((forall x, In x after -> station_key x <> Ok (code st)) ->
   m !! code st = Some st).
Proof.
  intros H Hst.
  destruct (build_stations_app _ _ _ _ H) as (m1 & H1 & H2).
  destruct (build_stations_step _ _ _ _ H2) as (st' & Hst' & Hrest).
  rewrite Hst in Hst'. inversion Hst'; subst st'. split.
  - apply (build_stations_grows _ _ _ _ Hrest).
    rewrite lookup_insert_eq. eauto.
  - intros Hno. apply (build_stations_keeps _ _ _ _ _ Hrest); [|exact Hno].
    apply lookup_insert_eq.
Qed.

(** Two entries with the code 678: the second is the one found. *)
Lemma X16_last_station_wins_witness :
  let first := Fixtures.station "SAAAAAA" "Cool Fuel Brand" 678 "First"
                 (Fixtures.num (-33987) 1000) (Fixtures.num 151334 1000) in
  let second := Fixtures.station "SAAAAAB" "Fake Fuel Brand" 678 "Second"
                  (Fixtures.num (-33587) 1000) (Fixtures.num 151434 1000) in
  let st := mkStation (JStr "SAAAAAB") (JStr "Fake Fuel Brand") 678 (JStr "Second")
              (JStr "123 Fake Street") (Fixtures.num (-33587) 1000)
              (Fixtures.num 151434 1000) (JStr "NSW") in
  match build_stations (RT := Reference.runtime) [first; second] ∅ with
  | Ok m => m !! 678 = Some st
  | Raise _ => False
  end.
Proof.
  intros first second st.
  destruct (build_stations (RT := Reference.runtime) [first; second] ∅)
    as [m|e] eqn:Hb.
  - refine (proj2 (X16_last_station_wins (RT := Reference.runtime)
                     [first] second [] m st Hb _) _).
    + reflexivity.
    + intros x [].
  - vm_compute in Hb. discriminate.
Defined.

(* ===================================================================== *)
(** * Further properties: periods, variances and average prices          *)
(* ===================================================================== *)

Section PeriodProperties.

Lemma Period_of_Ok (value : json) (p : Period) :
  Period_of value = Ok p -> value = JStr (Period_value p).
Proof.
  unfold Period_of. destruct value; try discriminate.
  destruct (String.eqb s "Day") eqn:E1.
  { intros H. inversion H. apply String.eqb_eq in E1. subst. reflexivity. }
  destruct (String.eqb s "Month") eqn:E2.
  { intros H. inversion H. apply String.eqb_eq in E2. subst. reflexivity. }
  destruct (String.eqb s "Year") eqn:E3.
  { intros H. inversion H. apply String.eqb_eq in E3. subst. reflexivity. }
  destruct (String.eqb s "Week") eqn:E4.
  { intros H. inversion H. apply String.eqb_eq in E4. subst. reflexivity. }
  discriminate.
Qed.

Lemma Period_of_Raise (value : json) (e : exn) :
  Period_of value = Raise e -> kind e = ValueError.
Proof.
  unfold Period_of.
  destruct value; try (intros H; inversion H; reflexivity).
  repeat match goal with
  | |- context [if ?b then _ else _] => destruct b; try discriminate
  end.
  intros H; inversion H; reflexivity.
Qed.

End PeriodProperties.

(** X18: [Variance.deserialize] and [AveragePrice.deserialize] raise
    [ValueError] on an object whose [Period] is not the value of a member
    of [Period] ([Variance] reads [Code] first, so that key has to be
    there for the period to be looked at). *)
Theorem X18_unknown_period_rejected `{RT : Runtime}
    (o : list (string * json)) (value : json) :
  lookup_key "Period" o = Some value ->
  (forall p, value <> JStr (Period_value p)) ->
  (exists m, AveragePrice_deserialize (JObj o) = Raise (Exn ValueError m))
  /\
  (forall c, lookup_key "Code" o = Some c ->
   exists m, Variance_deserialize (JObj o) = Raise (Exn ValueError m)).
Proof.
  intros Hp Hno.
  assert (Hr : exists m, Period_of value = Raise (Exn ValueError m)).
  { destruct (Period_of value) as [p|[k m]] eqn:E.
    - exfalso. exact (Hno p (Period_of_Ok _ _ E)).
    - pose proof (Period_of_Raise _ _ E) as Hk. simpl in Hk. subst k. eauto. }
  destruct Hr as (m & Hr). split.
  - exists m. unfold AveragePrice_deserialize. simpl. rewrite Hp. simpl.
    rewrite Hr. reflexivity.
  - intros c Hc. exists m. unfold Variance_deserialize. simpl.
    rewrite Hc. simpl. rewrite Hp. simpl. rewrite Hr. reflexivity.
Qed.

(** A period in lower case. *)
Lemma X18_unknown_period_rejected_witness :
  let o := [("Code", JStr "E10"); ("Period", JStr "day"); ("Price", JInt 150);
            ("Captured", JStr "2018-06-02")] in
  (exists m, AveragePrice_deserialize (RT := Reference.runtime) (JObj o)
             = Raise (Exn ValueError m))
  /\
  (forall c, lookup_key "Code" o = Some c ->
   exists m, Variance_deserialize (JObj o) = Raise (Exn ValueError m)).
Proof.
  intros o.
  apply (X18_unknown_period_rejected (RT := Reference.runtime) o (JStr "day")).
  - reflexivity.
  - intros p H. destruct p; discriminate.
Defined.

(** X19: an [AveragePrice] that [AveragePrice.deserialize] returns always
    holds a parsed date: [Captured] is a text, read as a day
    ([%Y-%m-%d]) for the periods Day, Week and Month and as a month and a
    year ([%B %Y]) for the period Year.  The last branch, which would keep
    the raw value, is never taken. *)
Theorem X19_captured_is_parsed `{RT : Runtime} (data : json) (ap : AveragePrice) :
  AveragePrice_deserialize data = Ok ap ->
  exists o text d,
    data = JObj o /\
    lookup_key "Period" o = Some (JStr (Period_value (avg_period ap))) /\
    lookup_key "Captured" o = Some (JStr text) /\
    strptime text (captured_format (avg_period ap)) = Some d /\
    avg_captured ap = CapturedAt d.
Proof.
  unfold AveragePrice_deserialize. intros H.
  apply rbind_Ok in H. destruct H as (pv & Epv & H).
  destruct data; simpl in Epv; try discriminate.
  apply py_getitem_obj in Epv.
  apply rbind_Ok in H. destruct H as (period & Eper & H).
  apply Period_of_Ok in Eper. subst pv.
  apply rbind_Ok in H. destruct H as (raw & Eraw & H).
  apply py_getitem_obj in Eraw.
  apply rbind_Ok in H. destruct H as (captured & Ecap & H).
  invert_steps. simpl.
  assert (Hcap : exists text d, raw = JStr text /\
                   strptime text (captured_format period) = Some d /\
                   captured = CapturedAt d).
  { destruct period; simpl in Ecap;
      apply rbind_Ok in Ecap; destruct Ecap as (d & Ed & Ecap);
      inversion Ecap; subst;
      destruct raw; simpl in Ed; try discriminate;
      match type of Ed with
      | context [strptime ?s ?f] =>
          destruct (strptime s f) as [d'|] eqn:Es; [|discriminate];
          inversion Ed; subst; exists s, d; repeat split; exact Es
      end. }
  destruct Hcap as (text & d & -> & Hs & ->).
  exists items, text, d. repeat split; assumption.
Qed.

(** A yearly average. *)
Lemma X19_captured_is_parsed_witness :
  let RT : Runtime :=
    {| strptime := fun s f =>
         if String.eqb s "June 2018" && String.eqb f "%B %Y"
         then Some (Datetime 2018 6 1 0 0 0) else None;
       int_of_str := Reference.int_of_str;
       json_loads := Reference.json_loads;
       float_add_int := Reference.float_add_int |} in
  let o := [("Code", JStr "E10"); ("Period", JStr "Year"); ("Price", JInt 150);
            ("Captured", JStr "June 2018")] in
  exists o' text d,
    JObj o = JObj o' /\
    lookup_key "Period" o' = Some (JStr "Year") /\
    lookup_key "Captured" o' = Some (JStr text) /\
    strptime (Runtime := RT) text "%B %Y" = Some d /\
    CapturedAt (Datetime 2018 6 1 0 0 0) = CapturedAt d.
Proof.
  intros RT o.
  apply (X19_captured_is_parsed (RT := RT) (JObj o)
           (mkAveragePrice (JStr "E10") YEAR (JInt 150)
              (CapturedAt (Datetime 2018 6 1 0 0 0)))).
  reflexivity.
Defined.

(* ===================================================================== *)
(** * Further properties: the reference data                             *)
(* ===================================================================== *)

(** X20: [GetReferenceDataResponse.deserialize] returns a response
    exactly when the five collections [stations], [brands], [fueltypes],
    [trendperiods] and [sortfields] each have [items] that can be iterated
    and every item deserializes; the response then holds, for each
    collection, the records of its items, as many and in the same order,
    and of a brand only its [name]. *)
Theorem X20_reference_data_in_order `{RT : Runtime} (data : json)
    (r : GetReferenceDataResponse) :
  GetReferenceDataResponse_deserialize data = Ok r <->
  exists xs1 xs2 xs3 xs4 xs5,
    items_of data "stations" = Ok xs1 /\
    items_of data "brands" = Ok xs2 /\
    items_of data "fueltypes" = Ok xs3 /\
    items_of data "trendperiods" = Ok xs4 /\
    items_of data "sortfields" = Ok xs5 /\
    Forall2 (fun x st => Station_deserialize x = Ok st) xs1 (ref_stations r) /\
    Forall2 (fun x b => py_getitem x "name" = Ok b) xs2 (ref_brands r) /\
    Forall2 (fun x ft => FuelType_deserialize x = Ok ft) xs3 (ref_fuel_types r) /\
    Forall2 (fun x tp => TrendPeriod_deserialize x = Ok tp) xs4 (ref_trend_periods r) /\
    Forall2 (fun x sf => SortField_deserialize x = Ok sf) xs5 (ref_sort_fields r).
Proof.
  unfold GetReferenceDataResponse_deserialize. split.
  - intros H.
    apply rbind_Ok in H. destruct H as (xs1 & E1 & H).
    apply rbind_Ok in H. destruct H as (l1 & F1 & H).
    apply rbind_Ok in H. destruct H as (xs2 & E2 & H).
    apply rbind_Ok in H. destruct H as (l2 & F2 & H).
    apply rbind_Ok in H. destruct H as (xs3 & E3 & H).
    apply rbind_Ok in H. destruct H as (l3 & F3 & H).
    apply rbind_Ok in H. destruct H as (xs4 & E4 & H).
    apply rbind_Ok in H. destruct H as (l4 & F4 & H).
    apply rbind_Ok in H. destruct H as (xs5 & E5 & H).
    apply rbind_Ok in H. destruct H as (l5 & F5 & H).
    inversion H; subst. simpl.
    exists xs1, xs2, xs3, xs4, xs5.
    repeat (split; [assumption|]).
    repeat split; apply rmap_Ok; assumption.
  - intros (xs1 & xs2 & xs3 & xs4 & xs5 & E1 & E2 & E3 & E4 & E5
            & F1 & F2 & F3 & F4 & F5).
    apply rmap_Ok in F1, F2, F3, F4, F5.
    rewrite E1. cbn [rbind]. rewrite F1. cbn [rbind].
    rewrite E2. cbn [rbind]. rewrite F2. cbn [rbind].
    rewrite E3. cbn [rbind]. rewrite F3. cbn [rbind].
    rewrite E4. cbn [rbind]. rewrite F4. cbn [rbind].
    rewrite E5. cbn [rbind]. rewrite F5. cbn [rbind].
    destruct r; reflexivity.
Qed.

(* ===================================================================== *)
(** * Further properties: the request headers                            *)
(* ===================================================================== *)

(** X21: the headers of a request are the five headers of the client
    (the bearer token, the JSON content type, the API key, the transaction
    id and the time stamp) overridden by the extra headers of the caller:
    a key of the extra headers has the caller's value, every other key
    that of the client.  The extra header [get_fuel_prices_within_radius]
    passes repeats the content type and so changes nothing, and neither do
    empty extra headers. *)
Theorem X21_extra_headers_take_precedence
    (client_id transaction_id timestamp : string)
    (extra_headers : option (gmap string msg)) (token : json) :
  let base := _build_headers client_id transaction_id timestamp None token in
  let headers := _build_headers client_id transaction_id timestamp extra_headers token in
  (forall k,
     headers !! k =
     match extra_headers with
     | Some extra =>
         match extra !! k with Some v => Some v | None => base !! k end
     | None => base !! k
     end)
  /\ (forall k, is_Some (base !! k) -> is_Some (headers !! k))
  /\ base !! "Authorization" = Some [PStr "Bearer "; PVal token]
  /\ base !! "Content-Type" = Some [PStr "application/json"]
  /\ base !! "apikey" = Some [PStr client_id]
  /\ base !! "TransactionID" = Some [PStr transaction_id]
  /\ base !! "RequestTimestamp" = Some [PStr timestamp]
  /\ _build_headers client_id transaction_id timestamp
       (Some {["Content-Type" := [PStr "application/json"]]}) token = base
  /\ _build_headers client_id transaction_id timestamp (Some ∅) token = base.
Proof.
  intros base headers.
  assert (Hk : forall k,
            headers !! k =
            match extra_headers with
            | Some extra =>
                match extra !! k with Some v => Some v | None => base !! k end
            | None => base !! k
            end).
  { intros k. unfold headers, base, _build_headers.
    destruct extra_headers as [extra|]; [|reflexivity].
    case_bool_decide as He.
    - subst extra. rewrite lookup_empty. reflexivity.
    - rewrite lookup_union. destruct (extra !! k) as [v|]; [|apply (left_id_L None _)].
      destruct (_ !! k); reflexivity. }
  assert (Hct : base !! "Content-Type" = Some [PStr "application/json"]).
  { unfold base, _build_headers.
    rewrite lookup_insert_ne by discriminate.
    rewrite lookup_insert_ne by discriminate.
    rewrite lookup_insert_ne by discriminate.
    apply lookup_insert_eq. }
  split; [exact Hk|]. split.
  { intros k Hs. rewrite Hk. destruct extra_headers as [extra|]; [|exact Hs].
    destruct (extra !! k); [eauto | exact Hs]. }
  split.
  { unfold base, _build_headers.
    rewrite lookup_insert_ne by discriminate.
    rewrite lookup_insert_ne by discriminate.
    rewrite lookup_insert_ne by discriminate.
    rewrite lookup_insert_ne by discriminate.
    apply lookup_insert_eq. }
  split; [exact Hct|]. split.
  { unfold base, _build_headers.
    rewrite lookup_insert_ne by discriminate.
    rewrite lookup_insert_ne by discriminate.
    apply lookup_insert_eq. }
  split.
  { unfold base, _build_headers.
    rewrite lookup_insert_ne by discriminate.
    apply lookup_insert_eq. }
  split.
  { unfold base, _build_headers. apply lookup_insert_eq. }
  split.
  - unfold _build_headers at 1. fold base in Hct |- *.
    change (_build_headers client_id transaction_id timestamp None token) with base.
    case_bool_decide as He; [reflexivity|].
    apply map_subseteq_union. apply map_singleton_subseteq_l. exact Hct.
  - unfold _build_headers at 1. rewrite bool_decide_eq_true_2 by reflexivity.
    reflexivity.
Qed.

(* ===================================================================== *)
(** * Further properties: a call with a token in hand                    *)
(* ===================================================================== *)

(** X22: when the client holds a token that is not within sixty seconds
    of its expiry and the response to the request is neither a 401 nor a
    408 (and its error details extract), a call of [_async_request] makes
    no token exchange, sends exactly one request carrying the stored
    token, makes no pause, and leaves the token and the expiry as they
    are. *)
Theorem X22_token_reused_by_request `{RT : Runtime} (W : World) (fuel : nat)
    (path method : string) (s : state)
    (response : data_response) (data details : json) :
  let now := clock W (clock_reads s) in
  let rq := Request (upper method) (BASE_URL ++ path) (token s) in
  let r := _async_request W (S fuel) path method s in
  truthy (token s) = true ->
  ~ (token_expiry s - 60 < now)%Q ->
  data_endpoint W (data_requests s) rq = DataResponds response ->
  _parse_response response = Ok data ->
  _extract_error_details data = Ok details ->
  d_status response <> 401 -> d_status response <> 408 ->
  snd r = sent rq (clocked s)
  /\ token_requests (snd r) = token_requests s
  /\ data_requests (snd r) = S (data_requests s)
  /\ pauses (snd r) = pauses s
  /\ token (snd r) = token s
  /\ token_expiry (snd r) = token_expiry s
  /\ (d_status response < 400 -> fst r = Returns data).
Proof.
  intros now rq r Ht Hexp Hresp Hparse Hdet H401 H408.
  assert (Hreuse : _async_get_token W s = (Returns (token s), clocked s)).
  { apply _async_get_token_reuse. fold now. rewrite Ht.
    intros [H|H]; [discriminate | exact (Hexp H)]. }
  assert (H01 : (0 <= 1)%Z) by lia.
  pose proof (request_loop_iteration W fuel method path 0 1 s (clocked s) (token s)
                H01 Hreuse Ht) as Hit.
  cbv zeta in Hit. fold rq in Hit.
  change (data_requests (clocked s)) with (data_requests s) in Hit.
  rewrite Hresp, (verdict_of_response response data details 0 1 Hparse Hdet) in Hit.
  cbv zeta in Hit.
  assert (Hr : snd r = sent rq (clocked s) /\
               (d_status response < 400 -> fst r = Returns data)).
  { unfold r, _async_request. cbv zeta. unfold bind. rewrite Hit. clear Hit.
    status_cases; split; try reflexivity; intros; lia. }
  destruct Hr as (Hs & Hf). rewrite Hs.
  repeat split; assumption.
Qed.

(** A second call, one second after the token of the test suite was
    granted for an hour. *)
Lemma X22_token_reused_by_request_witness :
  let W := Fixtures.world 1001 (fun _ => Fixtures.mock_token)
             (fun _ => Fixtures.ok_json 200 "OK" Fixtures.station_payload) in
  let s := State (JStr "testtoken") 4600 [] in
  let r := _async_request (RT := Reference.runtime) W 1 PRICES_ENDPOINT "GET" s in
  token_requests (snd r) = 0%nat /\ fst r = Returns Fixtures.station_payload.
Proof.
  intros W s r.
  pose proof (X22_token_reused_by_request (RT := Reference.runtime) W 0
                PRICES_ENDPOINT "GET" s
                (DataResponse 200 "OK" (Ok Fixtures.station_payload) (Ok ""))
                Fixtures.station_payload JNull) as H.
  cbv zeta in H.
  destruct H as (_ & Hn & _ & _ & _ & _ & Hf);
    [reflexivity | vm_compute; discriminate | reflexivity | reflexivity
    | reflexivity | discriminate | discriminate | ].
  split; [exact Hn|]. apply Hf. vm_compute. reflexivity.
Defined.
